(** * Retrieval-augmented chat core: retrieval, conversation store, chat endpoints

    A shallow embedding of [src/services/retrieving.py], [src/services/agent.py],
    [src/services/llm_service.py], [src/database.py] and [src/api/chat.py].

    Python values are modelled by an inductive type, [str] by the list of its
    code points, exceptions by an error monad over an explicit process state
    (the module-level dictionaries, the [chat_messages] table and the trace of
    calls to the outside world).  The collaborators that are not code of the
    repository (the embedding model, the vector store, the completion API, the
    relational store, the clocks, [uuid.UUID]) are fields of an environment
    record, each indexed by the number of outside calls made so far, so that
    one of them may fail on one call and succeed on the next.  Logging and the
    waits between retries ([time.sleep]) change nothing that is modelled and
    are left out. *)

From Stdlib Require Import ZArith QArith Lqa Ascii String DecimalString.
From stdpp Require Import gmap list.

Set Warnings "-register-all,-abstract-large-number".
Local Open Scope string_scope.
Local Open Scope list_scope.

(** ** Python strings and values *)

Module Py.

(** A [str] is the sequence of its code points; [len] counts code points. *)
Abbreviation codepoint := N (only parsing).
Abbreviation pystr := (list N) (only parsing).

(** ASCII literals. *)
Definition py (s : string) : list N := N_of_ascii <$> list_ascii_of_string s.

(** A [float] is carried by its [repr] (the shortest decimal that round-trips),
    which is all the modelled code does with one. *)
Abbreviation pyfloat := (list N) (only parsing).

Inductive pyval : Type :=
| PyNone
| PyBool (b : bool)
| PyInt (z : Z)
| PyFloat (r : list N)
| PyStr (s : list N)
| PyList (l : list pyval)
| PyDict (d : list (list N * pyval)).

(** Truth value of an object, as [or], [and], [not] and [if] test it. *)
Definition truthy (v : pyval) : bool :=
  match v with
  | PyNone => false
  | PyBool b => b
  | PyInt z => negb (z =? 0)%Z
  | PyFloat r => negb (bool_decide (r = py "0.0") || bool_decide (r = py "-0.0"))
  | PyStr s => negb (bool_decide (s = []))
  | PyList l => match l with [] => false | _ => true end
  | PyDict d => match d with [] => false | _ => true end
  end.

(** [a or b] *)
Definition py_or (a b : pyval) : pyval := if truthy a then a else b.

(** A [dict] with [str] keys, in insertion order. *)
Fixpoint dict_get (k : list N) (d : list (list N * pyval)) : option pyval :=
  match d with
  | [] => None
  | (k', v) :: d' => if bool_decide (k' = k) then Some v else dict_get k d'
  end.

(** [k in d] *)
Definition dict_in (k : list N) (d : list (list N * pyval)) : bool :=
  match dict_get k d with Some _ => true | None => false end.

(** [d.get(k)] and [d.get(k, default)] *)
Definition dict_get_or (k : list N) (dflt : pyval) (d : list (list N * pyval)) : pyval :=
  match dict_get k d with Some v => v | None => dflt end.

(** [sep.join(parts)] *)
Fixpoint join (sep : list N) (parts : list (list N)) : list N :=
  match parts with
  | [] => []
  | [p] => p
  | p :: rest => p ++ sep ++ join sep rest
  end.

(** [s.replace(old, new)] for a one-character [old]. *)
Definition replace_char (old : N) (new : list N) (s : list N) : list N :=
  concat ((fun c => if (c =? old)%N then new else [c]) <$> s).

(** [needle in haystack] on strings. *)
Fixpoint is_prefix (p s : list N) : bool :=
  match p, s with
  | [], _ => true
  | _ :: _, [] => false
  | a :: p', b :: s' => (a =? b)%N && is_prefix p' s'
  end.

Fixpoint contains (needle s : list N) : bool :=
  is_prefix needle s ||
  match s with
  | [] => false
  | _ :: s' => contains needle s'
  end.

(** [s.lower()] on the letters A-Z.  The only characters outside ASCII whose
    lower-case form has an ASCII letter are U+0130 (to [i] followed by U+0307)
    and U+212A (to [k]); none of the keywords the handlers below search for
    has a [k] or ends in an [i], so the keyword tests agree with Python's. *)
Definition lower_char (c : N) : N :=
  if (65 <=? c)%N && (c <=? 90)%N then (c + 32)%N else c.
Definition lower (s : list N) : list N := lower_char <$> s.

Section Repr.
(** [str.isprintable] of one character outside ASCII: a table of the Unicode
    database. *)
Variable isprintable : N -> bool.

Definition hex_digit (n : N) : N :=
  if (n <? 10)%N then (48 + n)%N else (87 + n)%N.

Fixpoint hex_fixed (width : nat) (n : N) : list N :=
  match width with
  | O => []
  | S w => hex_fixed w (n / 16) ++ [hex_digit (n mod 16)]
  end.

(** One character of [repr(s)], inside the quote [q]. *)
Definition repr_char (q : N) (c : N) : list N :=
  if (c =? q)%N || (c =? 92)%N then [92%N; c]
  else if (c =? 9)%N then py "\t"
  else if (c =? 10)%N then py "\n"
  else if (c =? 13)%N then py "\r"
  else if (c <? 32)%N || (c =? 127)%N then py "\x" ++ hex_fixed 2 c
  else if (c <? 127)%N then [c]
  else if isprintable c then [c]
  else if (c <? 256)%N then py "\x" ++ hex_fixed 2 c
  else if (c <? 65536)%N then py "\u" ++ hex_fixed 4 c
  else py "\U" ++ hex_fixed 8 c.

(** [repr] of a [str]: single quotes, unless the string has a single quote
    and no double quote. *)
Definition repr_str (s : list N) : list N :=
  let q := if bool_decide (39%N ∈ s) && negb (bool_decide (34%N ∈ s))
           then 34%N else 39%N in
  [q] ++ concat (repr_char q <$> s) ++ [q].

Definition repr_int (z : Z) : list N :=
  py (NilZero.string_of_int (Z.to_int z)).

Fixpoint repr (v : pyval) : list N :=
  match v with
  | PyNone => py "None"
  | PyBool true => py "True"
  | PyBool false => py "False"
  | PyInt z => repr_int z
  | PyFloat r => r
  | PyStr s => repr_str s
  | PyList l => py "[" ++ join (py ", ") (map repr l) ++ py "]"
  | PyDict d =>
      py "{" ++
      join (py ", ") (map (fun kv => repr_str (fst kv) ++ py ": " ++ repr (snd kv)) d)
      ++ py "}"
  end.

(** [str(v)] *)
Definition str (v : pyval) : list N :=
  match v with
  | PyStr s => s
  | _ => repr v
  end.
End Repr.

End Py.
Import Py.

(** ** Exceptions, the process state and the outside world *)

(** The exception classes the handlers tell apart; each stands for the class
    and its subclasses, [Exception_] for every other subclass of
    [Exception]. *)
Inductive exc_class : Type :=
| ValueError
| TypeError
| AttributeError
| SQLAlchemyError
| HTTPException (status_code : Z)
| Exception_.

(** An exception object: its class and [str(e)] (the [detail] of an
    [HTTPException]). *)
Record exn : Type := Exn { exn_class : exc_class; exn_msg : list N }.

Inductive result (A : Type) : Type :=
| Ok (a : A)
| Raise (e : exn).
Arguments Ok {A} a.
Arguments Raise {A} e.

(** [models.ScoredPoint]: the score and the payload ([Optional[Dict[str, Any]]]). *)
Record ScoredPoint : Type := {
  point_score : list N;
  point_payload : option (list (list N * pyval));
}.

(** One entry of the list [retrieve] returns. *)
Record Chunk : Type := {
  chunk_content : pyval;
  chunk_score : list N;
  chunk_metadata : pyval;
}.

(** A source attribution as the endpoints build it. *)
Record Source : Type := {
  src_content : pyval;
  src_title : list N;
  src_file_path : list N;
  src_score : list N;
  src_metadata : pyval;
}.

(** A source attribution as the completion service returns it. *)
Record AttributedSource : Type := {
  attr_content : pyval;
  attr_title : list N;
  attr_file_path : list N;
  attr_score : list N;
  attr_relevance : list N;
}.

(** A message of the prompt: [{"role": ..., "content": ...}]. *)
Record PromptMsg : Type := { p_role : list N; p_content : pyval }.

(** An entry of the conversation history; the timestamp is the instant, its
    ISO rendering is not modelled. *)
Record Message : Type := {
  msg_role : list N;
  msg_content : pyval;
  msg_timestamp : option Q;
}.

(** A row of the [chat_messages] table. *)
Record ChatMessage : Type := {
  row_session_id : N;
  row_role : list N;
  row_content : pyval;
  row_sources : option (list Source);
  row_created_at : option Q;
}.

(** Calls that leave the process. *)
Inductive Event : Type :=
| EvClock
| EvEmbed (text : list N)
| EvQueryPoints (collection_name : list N) (limit : Z)
| EvCompletion (messages : list PromptMsg) (temperature : list N) (max_tokens : Z)
| EvDbConnect
| EvDbQuery (session_id : N)
| EvDbCommit (row : ChatMessage).

(** The process-wide state: the rate limiter's [request_counts], the agent's
    [conversation_contexts], the durable table, and the calls made so far. *)
Record World : Type := {
  request_counts : gmap (list N) (list Q);
  conversation_contexts : gmap (list N) (list Message);
  chat_messages : list ChatMessage;
  trace : list Event;
}.

(** The collaborators.  The first argument of each is the number of outside
    calls made before this one. *)
Record Env : Type := {
  (** [uuid.UUID(s)]; [None] stands for its [ValueError]. *)
  uuid_parse : list N -> option N;
  unicode_printable : N -> bool;
  (** [time.time()] and [datetime.now()] *)
  clock : nat -> Q;
  (** [list(embedding_model.embed([text]))[0].tolist()] *)
  embedding_model_embed : nat -> list N -> result (list (list N));
  (** [qdrant.query_points(...).points] *)
  qdrant_query_points : nat -> list N -> list (list N) -> Z -> result (list ScoredPoint);
  (** [client.chat.completions.create(...).choices[0].message.content] *)
  chat_completions_create : nat -> list PromptMsg -> result pyval;
  llm_model : list N;
  llm_provider : list N;
  (** the relational store: what a connection test, a query or a commit
      raises, if anything, and the server's [now()] *)
  db_fault : nat -> option exn;
  db_now : nat -> Q;
}.

(** The monad of the embedding: state passing with exceptions.  An exception
    does not undo the state changes made before it. *)
Definition M (A : Type) : Type := World -> result A * World.

Definition ret {A} (a : A) : M A := fun w => (Ok a, w).
Definition raise {A} (e : exn) : M A := fun w => (Raise e, w).
Definition bind {A B} (m : M A) (k : A -> M B) : M B :=
  fun w => match m w with
           | (Ok a, w') => k a w'
           | (Raise e, w') => (Raise e, w')
           end.
(** [try: m  except Exception as e: h e] *)
Definition try_except {A} (m : M A) (h : exn -> M A) : M A :=
  fun w => match m w with
           | (Ok a, w') => (Ok a, w')
           | (Raise e, w') => h e w'
           end.
Definition lift {A} (r : result A) : M A := fun w => (r, w).

Declare Scope py_scope.
Delimit Scope py_scope with py_m.
Notation "x <- m ;; k" := (bind m (fun x => k))
  (at level 100, m at next level, right associativity) : py_scope.
Notation "m ;;; k" := (bind m (fun _ => k))
  (at level 100, right associativity) : py_scope.
Local Open Scope py_scope.

Definition tick (w : World) : nat := length (trace w).

Definition emit (ev : Event) : M unit :=
  fun w => (Ok tt, {| request_counts := request_counts w;
                      conversation_contexts := conversation_contexts w;
                      chat_messages := chat_messages w;
                      trace := trace w ++ [ev] |}).

(** [time.time()] / [datetime.now()] *)
Definition time_time (env : Env) : M Q :=
  fun w => (Ok (clock env (tick w)), snd (emit EvClock w)).

(** ** [src/services/retrieving.py] *)

Module Retrieving.

(** [get_embedding]: any failure of the model is re-raised as a plain
    [Exception("Embedding error: ...")]. *)
Definition get_embedding (env : Env) (text : list N) : M (list (list N)) :=
  try_except
    (fun w => lift (embedding_model_embed env (tick w) text) (snd (emit (EvEmbed text) w)))
    (fun e => raise (Exn Exception_ (py "Embedding error: " ++ exn_msg e))).

(** The body of the loop over [result.points].  A [ScoredPoint] always has a
    [payload] attribute; on a payload that is [None] the test
    ['text' in point.payload] raises [TypeError]. *)
Definition chunk_of_point (env : Env) (point : ScoredPoint) : result Chunk :=
  match point_payload point with
  | None => Raise (Exn TypeError (py "argument of type 'NoneType' is not iterable"))
  | Some payload =>
      if dict_in (py "text") payload then
        Ok {| chunk_content := dict_get_or (py "text") PyNone payload;
              chunk_score := point_score point;
              chunk_metadata := dict_get_or (py "metadata") (PyDict []) payload |}
      else
        let content :=
          py_or (dict_get_or (py "content") PyNone payload)
            (py_or (dict_get_or (py "text") PyNone payload)
               (PyStr (str (unicode_printable env) (PyDict payload)))) in
        Ok {| chunk_content := content;
              chunk_score := point_score point;
              chunk_metadata := PyDict payload |}
  end.

Fixpoint chunks_of_points (env : Env) (points : list ScoredPoint) (texts : list Chunk)
  : result (list Chunk) :=
  match points with
  | [] => Ok texts
  | point :: rest =>
      match chunk_of_point env point with
      | Ok c => chunks_of_points env rest (texts ++ [c])
      | Raise e => Raise e
      end
  end.

(** The [try] block of [retrieve]. *)
Definition retrieve_try (env : Env) (query collection_name : list N) (limit : Z)
  : M (list Chunk) :=
  embedding <- get_embedding env query ;;
  points <- (fun w => lift (qdrant_query_points env (tick w) collection_name embedding limit)
                        (snd (emit (EvQueryPoints collection_name limit) w))) ;;
  lift (chunks_of_points env points []).

Definition retrieve (env : Env) (query collection_name : list N) (limit : Z)
  : M (list Chunk) :=
  try_except (retrieve_try env query collection_name limit) (fun _ => ret []).

Definition default_collection : list N := py "humanoid_ai_book_new".

End Retrieving.

(** ** [src/database.py] *)

Module Database.

(** An open session of [SessionLocal]. *)
Inductive Session : Type := SessionLocal.

(** One operation on the store: it is recorded, and raises what the fault
    schedule says. *)
Definition db_op (env : Env) (ev : Event) : M unit :=
  fun w => (match db_fault env (tick w) with
            | Some e => Raise e
            | None => Ok tt
            end, snd (emit ev w)).

(** The loop of [get_db_with_retry]: [db.execute(text("SELECT 1"))] on a new
    session, the last failure re-raised.  Running out of attempts without
    either returns [None]. *)
Fixpoint get_db_with_retry_loop (env : Env) (max_retries : nat) (attempts : list nat)
  : M (option Session) :=
  match attempts with
  | [] => ret None
  | attempt :: rest =>
      try_except
        (db_op env EvDbConnect ;;; ret (Some SessionLocal))
        (fun e => if (attempt =? max_retries - 1)%nat then raise e
                  else get_db_with_retry_loop env max_retries rest)
  end.

Definition get_db_with_retry (env : Env) : M (option Session) :=
  get_db_with_retry_loop env 3 (seq 0 3).

End Database.

(** ** [src/services/agent.py]: the conversation store *)

Module Agent.
Import Database.

Definition set_conversation_contexts (cc : gmap (list N) (list Message)) (w : World) : World :=
  {| request_counts := request_counts w;
     conversation_contexts := cc;
     chat_messages := chat_messages w;
     trace := trace w |}.

Definition set_chat_messages (rows : list ChatMessage) (w : World) : World :=
  {| request_counts := request_counts w;
     conversation_contexts := conversation_contexts w;
     chat_messages := rows;
     trace := trace w |}.

(** [if session_id not in conversation_contexts: conversation_contexts[session_id] = []]
    followed by [return conversation_contexts[session_id]] *)
Definition contexts_setdefault (session_id : list N) : M (list Message) :=
  fun w =>
    let cur := default [] (conversation_contexts w !! session_id) in
    (Ok cur, set_conversation_contexts (<[session_id := cur]> (conversation_contexts w)) w).

(** The same test followed by
    [conversation_contexts[session_id].append({"role": ..., "content": ..., "timestamp": datetime.now().isoformat()})] *)
Definition contexts_append (env : Env) (session_id role : list N) (content : pyval) : M unit :=
  cur <- contexts_setdefault session_id ;;
  now <- time_time env ;;
  fun w =>
    let m := {| msg_role := role; msg_content := content; msg_timestamp := Some now |} in
    (Ok tt, set_conversation_contexts (<[session_id := cur ++ [m]]> (conversation_contexts w)) w).

(** [ORDER BY created_at]: rows without a value last, rows of equal value in
    the order they were written. *)
Definition created_le (a b : option Q) : bool :=
  match a, b with
  | Some x, Some y => Qle_bool x y
  | Some _, None => true
  | None, Some _ => false
  | None, None => true
  end.

Fixpoint insert_by_created_at (r : ChatMessage) (rows : list ChatMessage) : list ChatMessage :=
  match rows with
  | [] => [r]
  | r' :: rest =>
      if created_le (row_created_at r) (row_created_at r')
         && negb (created_le (row_created_at r') (row_created_at r))
      then r :: r' :: rest
      else r' :: insert_by_created_at r rest
  end.

Definition order_by_created_at (rows : list ChatMessage) : list ChatMessage :=
  foldl (fun acc r => insert_by_created_at r acc) [] rows.

Definition message_of_row (r : ChatMessage) : Message :=
  {| msg_role := row_role r; msg_content := row_content r; msg_timestamp := row_created_at r |}.

(** [db.query(ChatMessage).filter(ChatMessage.session_id == u).order_by(ChatMessage.created_at).all()] *)
Definition db_query (env : Env) (db : option Session) (u : N) : M (list ChatMessage) :=
  match db with
  | None => raise (Exn AttributeError (py "'NoneType' object has no attribute 'query'"))
  | Some _ =>
      db_op env (EvDbQuery u) ;;;
      fun w => (Ok (order_by_created_at
                      (filter (fun r => row_session_id r = u) (chat_messages w))), w)
  end.

(** [db.add(db_message); db.commit()] *)
Definition db_add_commit (env : Env) (db : option Session) (u : N) (role : list N)
    (content : pyval) (sources : option (list Source)) : M unit :=
  match db with
  | None => raise (Exn AttributeError (py "'NoneType' object has no attribute 'add'"))
  | Some _ =>
      fun w =>
        let row := {| row_session_id := u; row_role := role; row_content := content;
                      row_sources := sources;
                      row_created_at := Some (db_now env (tick w)) |} in
        match db_op env (EvDbCommit row) w with
        | (Ok _, w') => (Ok tt, set_chat_messages (chat_messages w' ++ [row]) w')
        | (Raise e, w') => (Raise e, w')
        end
  end.

(** The [try] block of one attempt of [get_conversation_context_from_db]. *)
Definition get_conversation_context_from_db_try (env : Env) (session_id : list N)
  : M (list Message) :=
  db <- get_db_with_retry env ;;
  match uuid_parse env session_id with
  | None => ret []
  | Some uuid_session_id =>
      messages <- db_query env db uuid_session_id ;;
      ret (message_of_row <$> messages)
  end.

Fixpoint get_conversation_context_from_db_loop (env : Env) (session_id : list N)
    (attempts : list nat) : M (option (list Message)) :=
  match attempts with
  | [] => ret None
  | attempt :: rest =>
      try_except
        (h <- get_conversation_context_from_db_try env session_id ;; ret (Some h))
        (fun _ => if (attempt =? 2)%nat
                  then (l <- contexts_setdefault session_id ;; ret (Some l))
                  else get_conversation_context_from_db_loop env session_id rest)
  end.

Definition get_conversation_context_from_db (env : Env) (session_id : list N)
  : M (option (list Message)) :=
  get_conversation_context_from_db_loop env session_id (seq 0 3).

Definition get_conversation_context (env : Env) (session_id : list N) : M (list Message) :=
  db_context <- get_conversation_context_from_db env session_id ;;
  match db_context with
  | Some (m :: l) => ret (m :: l)
  | _ => contexts_setdefault session_id
  end.

(** The [try] block of one attempt of [add_message_to_context_in_db]. *)
Definition add_message_to_context_in_db_try (env : Env) (session_id role : list N)
    (content : pyval) (sources : option (list Source)) : M unit :=
  db <- get_db_with_retry env ;;
  match uuid_parse env session_id with
  | None => ret tt
  | Some uuid_session_id => db_add_commit env db uuid_session_id role content sources
  end.

Fixpoint add_message_to_context_in_db_loop (env : Env) (session_id role : list N)
    (content : pyval) (sources : option (list Source)) (attempts : list nat) : M unit :=
  match attempts with
  | [] => ret tt
  | attempt :: rest =>
      fun w =>
        match add_message_to_context_in_db_try env session_id role content sources w with
        | (Ok _, w') => (Ok tt, w')
        | (Raise _, w') =>
            ((if (attempt =? 2)%nat then contexts_append env session_id role content
              else ret tt) ;;;
             add_message_to_context_in_db_loop env session_id role content sources rest) w'
        end
  end.

Definition add_message_to_context_in_db (env : Env) (session_id role : list N)
    (content : pyval) (sources : option (list Source)) : M unit :=
  add_message_to_context_in_db_loop env session_id role content sources (seq 0 3).

Definition add_message_to_context (env : Env) (session_id role : list N)
    (content : pyval) (sources : option (list Source)) : M unit :=
  add_message_to_context_in_db env session_id role content sources ;;;
  contexts_append env session_id role content.

End Agent.

(** ** [src/services/llm_service.py] *)

Module LLMService.

(** The dictionary [chat_completion_with_sources] returns. *)
Record Completion : Type := {
  completion_response : pyval;
  completion_sources : list AttributedSource;
  completion_usage : list (list N * list N);
}.

(** [c[:200] + "..." if len(c) > 200 else c], for [c = source.get("content", "")] *)
Definition attributed_content (c : pyval) : result pyval :=
  match c with
  | PyStr s =>
      Ok (if (200 <? length s)%nat then PyStr (take 200 s ++ py "...") else c)
  | PyList l =>
      if (200 <? length l)%nat
      then Raise (Exn TypeError (py "can only concatenate list (not " ++ [34%N] ++ py "str"
                               ++ [34%N] ++ py ") to list"))
      else Ok c
  | PyDict d =>
      if (200 <? length d)%nat
      then Raise (Exn TypeError (py "unhashable type: 'slice'"))
      else Ok c
  | _ => Raise (Exn TypeError (py "object has no len()"))
  end.

Definition attributed_source (s : Source) : result AttributedSource :=
  match attributed_content (src_content s) with
  | Ok c => Ok {| attr_content := c;
                  attr_title := src_title s;
                  attr_file_path := src_file_path s;
                  attr_score := src_score s;
                  attr_relevance := py "high" |}
  | Raise e => Raise e
  end.

Fixpoint attributed_sources (sources : list Source) (acc : list AttributedSource)
  : result (list AttributedSource) :=
  match sources with
  | [] => Ok acc
  | s :: rest =>
      match attributed_source s with
      | Ok a => attributed_sources rest (acc ++ [a])
      | Raise e => Raise e
      end
  end.

Definition chat_completion_with_sources (env : Env) (messages : list PromptMsg)
    (sources : list Source) (temperature : list N) (max_tokens : Z) : M Completion :=
  try_except
    (ai_response <-
       (fun w => lift (chat_completions_create env (tick w) messages)
                   (snd (emit (EvCompletion messages temperature max_tokens) w))) ;;
     attributed <- lift (attributed_sources sources []) ;;
     ret {| completion_response := ai_response;
            completion_sources := attributed;
            completion_usage := [(py "model", llm_model env);
                                 (py "provider", llm_provider env)] |})
    (fun e => raise (Exn Exception_ (py "LLM error: " ++ exn_msg e))).

End LLMService.

(** ** [src/api/chat.py] *)

Module Chat.
Import Retrieving Agent LLMService.

Definition RATE_LIMIT : nat := 10.
Definition RATE_LIMIT_WINDOW : Q := 60.

(** The part of [fastapi.Request] the rate limiter reads:
    [request.client.host], when there is a [request.client]. *)
Record Request : Type := { client_host : option (list N) }.

(** The request body. *)
Record ChatMessageRequest : Type := { content : list N; context_window : Z }.

Definition set_request_counts (rc : gmap (list N) (list Q)) (w : World) : World :=
  {| request_counts := rc;
     conversation_contexts := conversation_contexts w;
     chat_messages := chat_messages w;
     trace := trace w |}.

Definition Qltb (a b : Q) : bool := negb (Qle_bool b a).

Definition client_ip_of (request : Request) : list N :=
  default (py "unknown") (client_host request).

(** The timestamps of [client_ip] that are still inside the window at [now]. *)
Definition live_requests (now : Q) (times : list Q) : list Q :=
  List.filter (fun req_time => Qltb (now - req_time) RATE_LIMIT_WINDOW) times.

Definition is_rate_limited (env : Env) (request : Request) : M bool :=
  let client_ip := client_ip_of request in
  now <- time_time env ;;
  fun w =>
    let kept := live_requests now (default [] (request_counts w !! client_ip)) in
    if (RATE_LIMIT <=? length kept)%nat
    then (Ok true, set_request_counts (<[client_ip := kept]> (request_counts w)) w)
    else (Ok false, set_request_counts (<[client_ip := kept ++ [now]]> (request_counts w)) w).

(** [html.escape(text)] with its default [quote=True]: five replacements, the
    ampersand first. *)
Definition html_escape (s : list N) : list N :=
  let s := replace_char 38 (py "&amp;") s in
  let s := replace_char 60 (py "&lt;") s in
  let s := replace_char 62 (py "&gt;") s in
  let s := replace_char 34 (py "&quot;") s in
  replace_char 39 (py "&#x27;") s.

(** The character class [[\x00-\x08\x0B\x0C\x0E-\x1F\x7F]]. *)
Definition is_control (c : N) : bool :=
  (c <=? 8)%N || (c =? 11)%N || (c =? 12)%N || ((14 <=? c)%N && (c <=? 31)%N) || (c =? 127)%N.

Definition sanitize_input (text : list N) : list N :=
  match text with
  | [] => text
  | _ =>
      let sanitized := html_escape text in
      let sanitized := List.filter (fun c => negb (is_control c)) sanitized in
      if (5000 <? length sanitized)%nat then take 5000 sanitized else sanitized
  end.

(** [max(1, min(chat_request.context_window, 10))] *)
Definition sanitized_context_window (context_window : Z) : Z :=
  Z.max 1 (Z.min context_window 10).

(** ["\n\n".join([text["content"] ... for text in retrieved_texts])]: every
    entry of [retrieve]'s list is a dictionary; [join] raises [TypeError] on an
    item that is not a [str]. *)
Fixpoint contents_of (retrieved_texts : list Chunk) : result (list (list N)) :=
  match retrieved_texts with
  | [] => Ok []
  | text :: rest =>
      match chunk_content text with
      | PyStr s =>
          match contents_of rest with
          | Ok l => Ok (s :: l)
          | Raise e => Raise e
          end
      | _ => Raise (Exn TypeError (py "sequence item: expected str instance"))
      end
  end.

Definition context_text_of (retrieved_texts : list Chunk) : result (list N) :=
  match contents_of retrieved_texts with
  | Ok parts => Ok (join [10%N; 10%N] parts)
  | Raise e => Raise e
  end.

Definition system_message_chat (context_text : list N) : list N :=
  py "You are an AI assistant for the Physical AI & Humanoid Robotics textbook." ++ [10%N] ++
  py "Use the following context to answer the user's question." ++ [10%N] ++
  py "If the context doesn't contain relevant information, say so." ++ [10%N] ++
  py "Be accurate, concise, and cite sources when possible." ++ [10%N; 10%N] ++
  py "Context: " ++ context_text.

Definition system_message_selection (context_text : list N) : list N :=
  py "You are an AI assistant for the Physical AI & Humanoid Robotics textbook." ++ [10%N] ++
  py "Use the following context to answer the user's question about the selected text." ++ [10%N] ++
  py "If the context doesn't contain relevant information, say so." ++ [10%N] ++
  py "Be accurate, concise, and cite sources when possible." ++ [10%N; 10%N] ++
  py "Context: " ++ context_text.

(** The source attribution of one retrieved dictionary: it has the keys
    [content], [score] and [metadata], so the other two fields take their
    defaults. *)
Definition source_of (text : Chunk) : Source :=
  {| src_content := chunk_content text;
     src_title := py "Retrieved Content";
     src_file_path := py "unknown";
     src_score := chunk_score text;
     src_metadata := chunk_metadata text |}.

(** [conversation_history[-10:] if len(conversation_history) > 10 else conversation_history] *)
Definition recent_history_of (conversation_history : list Message) : list Message :=
  if (10 <? length conversation_history)%nat
  then drop (length conversation_history - 10) conversation_history
  else conversation_history.

Definition prompt_of (m : Message) : PromptMsg :=
  {| p_role := msg_role m; p_content := msg_content m |}.

(** The JSON body of a reply of [send_chat_message]. *)
Record ChatResponse : Type := {
  resp_session_id : list N;
  resp_response : pyval;
  resp_sources : list AttributedSource;
  resp_query : list N;
  resp_retrieved_chunks : nat;
  resp_usage : list (list N * list N);
}.

(** The JSON body of a reply of [ask_from_selection]. *)
Record SelectionResponse : Type := {
  sel_response : pyval;
  sel_sources : list AttributedSource;
  sel_selected_text : list N;
  sel_retrieved_chunks : nat;
  sel_usage : list (list N * list N);
}.

Definition rate_limit_exceeded : exn :=
  Exn (HTTPException 429) (py "Rate limit exceeded. Please try again later.").

(** The text of the reply the last [except] clause gives for [str(e)]. *)
Definition fallback_text (error_msg : list N) : list N :=
  if contains (py "API key") error_msg || contains (py "auth") (lower error_msg) then
    py "I'm sorry, but I'm currently unable to connect to the AI service. Please check that your API keys are configured correctly."
  else if contains (py "rate limit") (lower error_msg) || contains (py "quota") (lower error_msg) then
    py "I'm sorry, but I've reached the rate limit for the AI service. Please try again later."
  else if contains (py "timeout") (lower error_msg) then
    py "I'm sorry, but the request timed out. Please try again."
  else if contains (py "database") (lower error_msg) || contains (py "connection") (lower error_msg) then
    py "I'm sorry, but there's a connection issue with the database. Please try again later."
  else
    py "I'm sorry, there was an error processing your request. Please try again.".

(** The [try] block of [send_chat_message], after the two sanitising
    assignments. *)
Definition send_chat_message_try (env : Env) (session_id sanitized_content : list N)
    (sanitized_context_window : Z) : M ChatResponse :=
  retrieved_texts <-
    retrieve env sanitized_content default_collection sanitized_context_window ;;
  context_text <- lift (context_text_of retrieved_texts) ;;
  let system_message := system_message_chat context_text in
  conversation_history <- get_conversation_context env session_id ;;
  let messages :=
    [{| p_role := py "system"; p_content := PyStr system_message |}]
    ++ (prompt_of <$> recent_history_of conversation_history)
    ++ [{| p_role := py "user"; p_content := PyStr sanitized_content |}] in
  let sources := source_of <$> retrieved_texts in
  result <- chat_completion_with_sources env messages sources (py "0.3") 1000 ;;
  add_message_to_context env session_id (py "user") (PyStr sanitized_content) (Some sources) ;;;
  add_message_to_context env session_id (py "assistant") (completion_response result)
    (Some sources) ;;;
  ret {| resp_session_id := session_id;
         resp_response := completion_response result;
         resp_sources := completion_sources result;
         resp_query := sanitized_content;
         resp_retrieved_chunks := length retrieved_texts;
         resp_usage := completion_usage result |}.

(** The three [except] clauses of [send_chat_message]. *)
Definition send_chat_message_except (session_id sanitized_content : list N) (e : exn)
  : M ChatResponse :=
  match exn_class e with
  | ValueError =>
      raise (Exn (HTTPException 400) (py "Configuration error: " ++ exn_msg e))
  | SQLAlchemyError =>
      raise (Exn (HTTPException 500) (py "Database error: " ++ exn_msg e))
  | _ =>
      ret {| resp_session_id := session_id;
             resp_response := PyStr (fallback_text (exn_msg e));
             resp_sources := [];
             resp_query := sanitized_content;
             resp_retrieved_chunks := 0;
             resp_usage := [] |}
  end.

Definition send_chat_message (env : Env) (request : Request) (session_id : list N)
    (chat_request : ChatMessageRequest) : M ChatResponse :=
  limited <- is_rate_limited env request ;;
  if (limited : bool) then raise rate_limit_exceeded
  else
    let sanitized_content := sanitize_input (content chat_request) in
    let sanitized_context_window :=
      sanitized_context_window (context_window chat_request) in
    try_except
      (send_chat_message_try env session_id sanitized_content sanitized_context_window)
      (send_chat_message_except session_id sanitized_content).

(** The [try] block of [ask_from_selection]. *)
Definition ask_from_selection_try (env : Env) (sanitized_content : list N)
    (sanitized_context_window : Z) : M SelectionResponse :=
  retrieved_texts <-
    retrieve env sanitized_content default_collection sanitized_context_window ;;
  let sources := source_of <$> retrieved_texts in
  context_text <- lift (context_text_of retrieved_texts) ;;
  let system_message := system_message_selection context_text in
  let messages :=
    [{| p_role := py "system"; p_content := PyStr system_message |};
     {| p_role := py "user"; p_content := PyStr sanitized_content |}] in
  result <- chat_completion_with_sources env messages sources (py "0.3") 1000 ;;
  ret {| sel_response := completion_response result;
         sel_sources := completion_sources result;
         sel_selected_text := sanitized_content;
         sel_retrieved_chunks := length retrieved_texts;
         sel_usage := completion_usage result |}.

Definition ask_from_selection_except (sanitized_content : list N) (e : exn)
  : M SelectionResponse :=
  match exn_class e with
  | ValueError =>
      raise (Exn (HTTPException 400) (py "Configuration error: " ++ exn_msg e))
  | SQLAlchemyError =>
      raise (Exn (HTTPException 500) (py "Database error: " ++ exn_msg e))
  | _ =>
      ret {| sel_response := PyStr (fallback_text (exn_msg e));
             sel_sources := [];
             sel_selected_text := sanitized_content;
             sel_retrieved_chunks := 0;
             sel_usage := [] |}
  end.

Definition ask_from_selection (env : Env) (request : Request)
    (chat_request : ChatMessageRequest) : M SelectionResponse :=
  limited <- is_rate_limited env request ;;
  if (limited : bool) then raise rate_limit_exceeded
  else
    let sanitized_content := sanitize_input (content chat_request) in
    let sanitized_context_window :=
      sanitized_context_window (context_window chat_request) in
    try_except
      (ask_from_selection_try env sanitized_content sanitized_context_window)
      (ask_from_selection_except sanitized_content).

End Chat.

(** ** The preference order of the specification, and sample worlds *)

Module Samples.
Import Retrieving Chat.

(** The content of a chunk in the words of the specification: the [text]
    field when present, otherwise the [content] field, otherwise the whole
    payload as a string. *)
Definition content_by_preference (env : Env) (payload : list (list N * pyval)) : pyval :=
  match dict_get (py "text") payload with
  | Some v => v
  | None =>
      match dict_get (py "content") payload with
      | Some v => v
      | None => PyStr (str (unicode_printable env) (PyDict payload))
      end
  end.

(** The same order, a [content] field counting only when its value is true
    (not empty, [None], zero or [False]). *)
Definition content_by_true_preference (env : Env) (payload : list (list N * pyval)) : pyval :=
  match dict_get (py "text") payload with
  | Some v => v
  | None =>
      match dict_get (py "content") payload with
      | Some v => if truthy v then v else PyStr (str (unicode_printable env) (PyDict payload))
      | None => PyStr (str (unicode_printable env) (PyDict payload))
      end
  end.

Definition empty_world : World :=
  {| request_counts := ∅; conversation_contexts := ∅; chat_messages := []; trace := [] |}.

Definition sample_uuid : list N := py "123e4567-e89b-12d3-a456-426614174000".

Definition connection_refused : exn := Exn SQLAlchemyError (py "connection refused").

Definition point_with_text : ScoredPoint :=
  {| point_score := py "0.91";
     point_payload := Some [(py "text", PyStr (py "what is humanoid robotics"));
                            (py "metadata", PyDict [(py "file", PyStr (py "intro.md"))])] |}.

Definition point_with_content : ScoredPoint :=
  {| point_score := py "0.5";
     point_payload := Some [(py "content", PyStr (py "actuators"))] |}.

Definition point_with_empty_content : ScoredPoint :=
  {| point_score := py "0.5"; point_payload := Some [(py "content", PyStr [])] |}.

Definition point_without_payload : ScoredPoint :=
  {| point_score := py "0.5"; point_payload := None |}.

(** Every collaborator answers; the vector store returns [points]. *)
Definition env_up (points : list ScoredPoint) : Env :=
  {| uuid_parse := fun s => if bool_decide (s = sample_uuid) then Some 1%N else None;
     unicode_printable := fun _ => true;
     clock := fun n => inject_Z (Z.of_nat n);
     embedding_model_embed := fun _ _ => Ok [py "0.25"; py "-0.5"];
     qdrant_query_points := fun _ _ _ _ => Ok points;
     chat_completions_create := fun _ _ => Ok (PyStr (py "A humanoid robot is a robot shaped like a person."));
     llm_model := py "mistralai/devstral-2512:free";
     llm_provider := py "gemini";
     db_fault := fun _ => None;
     db_now := fun n => inject_Z (Z.of_nat n) |}.

(** Every collaborator fails on every call. *)
Definition env_down : Env :=
  {| uuid_parse := fun s => if bool_decide (s = sample_uuid) then Some 1%N else None;
     unicode_printable := fun _ => true;
     clock := fun n => inject_Z (Z.of_nat n);
     embedding_model_embed := fun _ _ => Raise (Exn Exception_ (py "model unavailable"));
     qdrant_query_points := fun _ _ _ _ => Raise (Exn Exception_ (py "connection refused"));
     chat_completions_create := fun _ _ => Raise (Exn Exception_ (py "Request timeout"));
     llm_model := py "mistralai/devstral-2512:free";
     llm_provider := py "gemini";
     db_fault := fun _ => Some connection_refused;
     db_now := fun n => inject_Z (Z.of_nat n) |}.

(** A client whose first eleven requests come one second apart and whose
    twelfth comes more than a minute after the first. *)
Definition env_burst : Env :=
  {| uuid_parse := uuid_parse (env_up []);
     unicode_printable := unicode_printable (env_up []);
     clock := fun n => if (n <? 11)%nat then inject_Z (Z.of_nat n)
                       else inject_Z (Z.of_nat n + 60);
     embedding_model_embed := embedding_model_embed (env_up []);
     qdrant_query_points := qdrant_query_points (env_up []);
     chat_completions_create := chat_completions_create (env_up []);
     llm_model := llm_model (env_up []);
     llm_provider := llm_provider (env_up []);
     db_fault := db_fault (env_up []);
     db_now := db_now (env_up []) |}.

Definition local_request : Request := {| client_host := Some (py "127.0.0.1") |}.

(** The store is reachable for a first append and for the read, and
    unreachable in between, during a second append. *)
Definition env_flaky : Env :=
  {| uuid_parse := uuid_parse (env_up []);
     unicode_printable := unicode_printable (env_up []);
     clock := clock (env_up []);
     embedding_model_embed := embedding_model_embed (env_up []);
     qdrant_query_points := qdrant_query_points (env_up []);
     chat_completions_create := chat_completions_create (env_up []);
     llm_model := llm_model (env_up []);
     llm_provider := llm_provider (env_up []);
     db_fault := fun n => if (3 <=? n)%nat && (n <=? 11)%nat
                          then Some connection_refused else None;
     db_now := db_now (env_up []) |}.

(** The store answers connection tests and queries and refuses every commit
    (no row of [chat_sessions] for the session): of the calls an append and a
    read make from the empty world, the second, fourth and sixth are the
    commits. *)
Definition env_commit_refused : Env :=
  {| uuid_parse := uuid_parse (env_up []);
     unicode_printable := unicode_printable (env_up []);
     clock := clock (env_up []);
     embedding_model_embed := embedding_model_embed (env_up []);
     qdrant_query_points := qdrant_query_points (env_up []);
     chat_completions_create := chat_completions_create (env_up []);
     llm_model := llm_model (env_up []);
     llm_provider := llm_provider (env_up []);
     db_fault := fun n => if bool_decide (n ∈ [1; 3; 5]%nat)
                          then Some (Exn SQLAlchemyError (py "foreign key violation"))
                          else None;
     db_now := db_now (env_up []) |}.

End Samples.

(** ** Properties of computations, and drivers for sequences of calls *)

Module Props.
Import Retrieving Agent Chat.

(** The computation returns a value from every state. *)
Definition never_raises {A} (m : M A) : Prop :=
  forall w, exists a w', m w = (Ok a, w').

(** Every exception the computation raises satisfies [P]. *)
Definition raises_only {A} (P : exn -> Prop) (m : M A) : Prop :=
  forall w e w', m w = (Raise e, w') -> P e.

(** The states before and after the computation are related by [R]. *)
Definition respects {A} (R : World -> World -> Prop) (m : M A) : Prop :=
  forall w r w', m w = (r, w') -> R w w'.

(** The trace grew by events that all satisfy [P]. *)
Definition trace_extends (P : Event -> Prop) (w w' : World) : Prop :=
  exists evs, trace w' = trace w ++ evs /\ Forall P evs.

(** The conversation cache and the durable message log are the same. *)
Definition same_store (w w' : World) : Prop :=
  conversation_contexts w' = conversation_contexts w /\
  chat_messages w' = chat_messages w.

(** The cache of [session_id] holds the same messages. *)
Definition same_cache (session_id : list N) (w w' : World) : Prop :=
  default [] (conversation_contexts w' !! session_id)
  = default [] (conversation_contexts w !! session_id).

(** A vector search, if the event is one, asks for [limit] points. *)
Definition query_limit_is (limit : Z) (ev : Event) : Prop :=
  match ev with
  | EvQueryPoints _ l => l = limit
  | _ => True
  end.


(** [n] successive calls of the rate limiter for the same request. *)
Fixpoint successive_calls (env : Env) (request : Request) (n : nat) : M (list bool) :=
  match n with
  | O => ret []
  | S k =>
      (limited <- is_rate_limited env request ;;
       rest <- successive_calls env request k ;;
       ret (limited :: rest))%py_m
  end.

(** Appending a sequence of (role, content) pairs to one session. *)
Fixpoint append_all (env : Env) (session_id : list N) (msgs : list (list N * pyval))
  : M unit :=
  match msgs with
  | [] => ret tt
  | (role, content) :: rest =>
      (add_message_to_context env session_id role content None ;;;
       append_all env session_id rest)%py_m
  end.

(** What [html.escape] makes of one character. *)
Definition escape_char (c : N) : list N :=
  if (c =? 38)%N then py "&amp;"
  else if (c =? 60)%N then py "&lt;"
  else if (c =? 62)%N then py "&gt;"
  else if (c =? 34)%N then py "&quot;"
  else if (c =? 39)%N then py "&#x27;"
  else [c].

(** Tab, line feed, carriage return and space. *)
Definition is_whitespace (c : N) : bool :=
  (c =? 9)%N || (c =? 10)%N || (c =? 13)%N || (c =? 32)%N.

Definition strip_control (s : list N) : list N :=
  List.filter (fun c => negb (is_control c)) s.

Definition role_content (m : Message) : list N * pyval := (msg_role m, msg_content m).

Definition row_role_content (r : ChatMessage) : list N * pyval :=
  (row_role r, row_content r).

(** The roles and contents the cache holds for a session. *)
Definition cached (session_id : list N) (w : World) : list (list N * pyval) :=
  role_content <$> default [] (conversation_contexts w !! session_id).

(** Every message twice, as the degraded store keeps them. *)
Definition twice {A} (l : list A) : list A := flat_map (fun x => [x; x]) l.

End Props.

(** ** Properties of the calls the chat endpoint makes *)

Module ChatProps.
Import Chat.

(** The five texts the chat endpoint answers with when its [try] block has
    failed. *)
Definition explanatory_texts : list (list N) :=
  [py "I'm sorry, but I'm currently unable to connect to the AI service. Please check that your API keys are configured correctly.";
   py "I'm sorry, but I've reached the rate limit for the AI service. Please try again later.";
   py "I'm sorry, but the request timed out. Please try again.";
   py "I'm sorry, but there's a connection issue with the database. Please try again later.";
   py "I'm sorry, there was an error processing your request. Please try again."].

(** Nothing was written to the history: the table is the same and every
    session's cache holds the same messages. *)
Definition history_untouched (w w' : World) : Prop :=
  chat_messages w' = chat_messages w /\ forall s, Props.same_cache s w w'.

End ChatProps.

(** ** How the completion service attributes a source *)

Module AttributionProps.
Import LLMService.

(** The attribution keeps the title, the path and the score, marks the
    relevance as high, and keeps a content string of at most 200 characters,
    or its first 200 characters followed by three dots. *)
Definition attributes (s : Source) (a : AttributedSource) : Prop :=
  attr_title a = src_title s /\
  attr_file_path a = src_file_path s /\
  attr_score a = src_score s /\
  attr_relevance a = py "high" /\
  forall text, src_content s = PyStr text ->
    attr_content a = PyStr (if (200 <? length text)%nat
                            then take 200 text ++ py "..." else text) /\
    exists preview, attr_content a = PyStr preview /\ (length preview <= 203)%nat.

End AttributionProps.

(** ** [src/services/agent.py]: the agent *)

Module AgentRun.
Import Retrieving Agent Chat.

(** [agent.get_embedding]: the embedding of the retrieving service, its
    failure wrapped once more. *)
Definition get_embedding (env : Env) (text : list N) : M (list (list N)) :=
  try_except (Retrieving.get_embedding env text)
    (fun e => raise (Exn Exception_ (py "Embedding error: " ++ exn_msg e))).

(** [agent.retrieve]: [retrieve] of the retrieving service on the fixed
    collection (its result is a list, never [None]), under a handler that
    returns the empty list. *)
Definition retrieve (env : Env) (query : list N) (limit : Z) : M (list Chunk) :=
  try_except
    (Retrieving.retrieve env query (py "humanoid_ai_book_new") limit)
    (fun _ => ret []).

(** [clear_conversation_context] *)
Definition clear_conversation_context (session_id : list N) : M unit :=
  fun w =>
    match conversation_contexts w !! session_id with
    | Some _ => (Ok tt, set_conversation_contexts
                          (<[session_id := []]> (conversation_contexts w)) w)
    | None => (Ok tt, w)
    end.

(** The dictionary [get_conversation_summary] returns. *)
Record Summary : Type := {
  summary_session_id : list N;
  summary_message_count : nat;
  summary_last_updated : option Q;
  summary_messages : list Message;
}.

(** [context[-1]["timestamp"] if context else None] *)
Definition last_timestamp (context : list Message) : option Q :=
  match last context with
  | Some m => msg_timestamp m
  | None => None
  end.

Definition get_conversation_summary (env : Env) (session_id : list N) : M Summary :=
  context <- get_conversation_context env session_id ;;
  ret {| summary_session_id := session_id;
         summary_message_count := length context;
         summary_last_updated := last_timestamp context;
         summary_messages := context |}.

(** The classes the handlers of [run_agent_with_context] tell apart: the
    built-in [ConnectionError] and [TimeoutError], and every other
    exception. *)
Inductive builtin_class : Type :=
| ConnectionError
| TimeoutError
| OtherException.

(** An exception inside [run_agent_with_context]: its class and [str(e)]. *)
Record raised : Type := Raised { raised_class : builtin_class; raised_msg : list N }.

Inductive outcome (A : Type) : Type :=
| Returned (a : A)
| Failed (e : raised).
Arguments Returned {A} a.
Arguments Failed {A} e.

(** The module's own completion client:
    [client.chat.completions.create(model=..., messages=..., temperature=..., max_tokens=...)]
    returns a response, given by the contents of its [choices], or raises.
    The first argument is the number of outside calls made before. *)
Record AgentEnv : Type := {
  agent_completions_create :
    nat -> list PromptMsg -> list N -> Z -> outcome (list pyval);
}.

(** A computation of the other modules inside the agent's [try] block; what it
    raises is neither of the two built-in classes. *)
Definition of_M {A} (m : M A) : World -> outcome A * World :=
  fun w => match m w with
           | (Ok a, w') => (Returned a, w')
           | (Raise e, w') => (Failed (Raised OtherException (exn_msg e)), w')
           end.

(** [s.lower()], as far as a search for ASCII keywords can tell: the letters
    A-Z, and U+212A, whose lower-case form is [k]. *)
Definition lower_k (s : list N) : list N :=
  (fun c => if (c =? 8490)%N then 107%N else lower_char c) <$> s.

Definition network_keywords : list (list N) :=
  [py "connection"; py "timeout"; py "network"; py "ssl"; py "ssl handshake"].

(** The three [except] clauses: each raises a plain [Exception]. *)
Definition agent_error (e : raised) : exn :=
  match raised_class e with
  | ConnectionError =>
      Exn Exception_ (py "Network connection error: " ++ raised_msg e)
  | TimeoutError =>
      Exn Exception_ (py "Request timeout: " ++ raised_msg e)
  | OtherException =>
      if existsb (fun keyword => contains keyword (lower_k (raised_msg e))) network_keywords
      then Exn Exception_ (py "Network error: " ++ raised_msg e)
      else Exn Exception_ (py "Agent error: " ++ raised_msg e)
  end.

(** The retry loop around the completion call: the third failure is
    re-raised.  [response] starts as [None]. *)
Fixpoint create_with_retry (aenv : AgentEnv) (messages : list PromptMsg)
    (temperature : list N) (max_tokens : Z) (attempts : list nat)
  : World -> outcome (option (list pyval)) * World :=
  match attempts with
  | [] => fun w => (Returned None, w)
  | attempt :: rest =>
      fun w =>
        let w1 := snd (emit (EvCompletion messages temperature max_tokens) w) in
        match agent_completions_create aenv (tick w) messages temperature max_tokens with
        | Returned choices => (Returned (Some choices), w1)
        | Failed api_error =>
            if (attempt =? 2)%nat then (Failed api_error, w1)
            else create_with_retry aenv messages temperature max_tokens rest w1
        end
  end.

Definition system_message_agent (context_text : list N) : list N :=
  py "You are an AI tutor for the Physical AI & Humanoid Robotics textbook." ++ [10%N] ++
  py "Use the following context to answer the user's question." ++ [10%N] ++
  py "If the context doesn't contain relevant information, say so." ++ [10%N] ++
  py "Be accurate, concise, and cite sources when possible." ++ [10%N; 10%N] ++
  py "Context: " ++ context_text.

(** The part of the [try] block after the completion call: the user's turn is
    stored, then [response.choices[0].message.content] is read, then the
    assistant's turn is stored.  The list of sources is empty, as
    [retrieved_texts] is. *)
Definition store_turns (env : Env) (query session_id : list N)
    (response : option (list pyval)) : World -> outcome pyval * World :=
  fun w =>
    match of_M (add_message_to_context env session_id (py "user") (PyStr query) (Some [])) w with
    | (Failed e, w1) => (Failed e, w1)
    | (Returned _, w1) =>
        match response with
        | None =>
            (Failed (Raised OtherException
                       (py "'NoneType' object has no attribute 'choices'")), w1)
        | Some [] => (Failed (Raised OtherException (py "list index out of range")), w1)
        | Some (ai_response :: _) =>
            match of_M (add_message_to_context env session_id (py "assistant")
                          ai_response (Some [])) w1 with
            | (Failed e, w2) => (Failed e, w2)
            | (Returned _, w2) => (Returned ai_response, w2)
            end
        end
    end.

(** The [try] block of [run_agent_with_context].  Every entry of
    [retrieved_texts] is a dictionary, so ["\n\n".join(retrieved_texts)] raises
    [TypeError] at its first item unless the list is empty. *)
Definition run_agent_try (env : Env) (aenv : AgentEnv) (query session_id : list N)
    (max_tokens : Z) (temperature : list N) : World -> outcome pyval * World :=
  fun w =>
    match of_M (retrieve env query 5) w with
    | (Failed e, w1) => (Failed e, w1)
    | (Returned (_ :: _), w1) =>
        (Failed (Raised OtherException
                   (py "sequence item 0: expected str instance, dict found")), w1)
    | (Returned [], w1) =>
        let context_text := [] in
        match of_M (get_conversation_context env session_id) w1 with
        | (Failed e, w2) => (Failed e, w2)
        | (Returned conversation_history, w2) =>
            let system_message := system_message_agent context_text in
            let messages :=
              [{| p_role := py "system"; p_content := PyStr system_message |}]
              ++ (prompt_of <$> recent_history_of conversation_history)
              ++ [{| p_role := py "user"; p_content := PyStr query |}] in
            match create_with_retry aenv messages temperature max_tokens (seq 0 3) w2 with
            | (Failed e, w3) => (Failed e, w3)
            | (Returned response, w3) => store_turns env query session_id response w3
            end
        end
    end.

(** [run_agent_with_context].  The per-session lock is created on first use,
    taken around the [try] block and released on every exit; in a run of one
    call after another it is free on entry and changes nothing here. *)
Definition run_agent_with_context (env : Env) (aenv : AgentEnv) (query session_id : list N)
    (max_tokens : Z) (temperature : list N) : M pyval :=
  fun w =>
    match run_agent_try env aenv query session_id max_tokens temperature w with
    | (Returned ai_response, w') => (Ok ai_response, w')
    | (Failed e, w') => (Raise (agent_error e), w')
    end.

(** Completion calls among some events. *)
Definition completion_calls (evs : list Event) : nat :=
  length (List.filter (fun ev => match ev with EvCompletion _ _ _ => true | _ => false end) evs).

Definition not_completion (ev : Event) : Prop :=
  match ev with EvCompletion _ _ _ => False | _ => True end.

End AgentRun.

(** ** Sample completion clients of the agent *)

Module AgentSamples.
Import AgentRun.

(** The client answers every call with one choice. *)
Definition agent_up : AgentEnv :=
  {| agent_completions_create := fun _ _ _ _ =>
       Returned [PyStr (py "A humanoid robot is a robot shaped like a person.")] |}.

(** The client answers with a response without choices. *)
Definition agent_no_choice : AgentEnv :=
  {| agent_completions_create := fun _ _ _ _ => Returned [] |}.

(** The client times out on every call. *)
Definition agent_timeout : AgentEnv :=
  {| agent_completions_create := fun _ _ _ _ =>
       Failed (Raised TimeoutError (py "timed out")) |}.

End AgentSamples.

(** ** [src/api/chat.py]: the session endpoints *)

Module ChatSessions.
Import Agent AgentRun.

(** The request body of [create_chat_session]. *)
Record ChatSessionRequest : Type := { session_request_title : list N }.

Definition default_session_request : ChatSessionRequest :=
  {| session_request_title := py "New Chat Session" |}.

(** The reply of [create_chat_session]. *)
Record CreatedSession : Type := {
  created_session_id : list N;
  created_title : list N;
  created_at : list N;
}.

(** [create_chat_session]: the identifier is ["session_"] and the first eight
    characters of [str(hash(request.title))].  [str_hash] is the built-in
    [hash] on strings, which differs from one process to the next. *)
Definition create_chat_session (str_hash : list N -> Z)
    (request : option ChatSessionRequest) : CreatedSession :=
  let request := default default_session_request request in
  let session_id :=
    py "session_" ++ take 8 (repr_int (str_hash (session_request_title request))) in
  {| created_session_id := session_id;
     created_title := session_request_title request;
     created_at := py "2025-12-11T00:00:00Z" |}.

(** [get_chat_sessions]: the list of sessions of its reply. *)
Definition get_chat_sessions : list CreatedSession := [].

(** The reply of [get_chat_session_messages]. *)
Record SessionMessages : Type := {
  reply_messages : list Message;
  reply_session_id : list N;
  reply_message_count : nat;
}.

Definition get_chat_session_messages (env : Env) (session_id : list N)
  : M SessionMessages :=
  bind (get_conversation_summary env session_id)
    (fun summary =>
       ret {| reply_messages := summary_messages summary;
              reply_session_id := session_id;
              reply_message_count := summary_message_count summary |}).

End ChatSessions.

(** ** [src/services/chat_conversation_service.py] and the conversation
    endpoints of [src/api/chat.py] *)

Module Conversations.

(** [models.chat_conversation.Message] *)
Record ConvMessage : Type := {
  cm_role : list N;
  cm_content : list N;
  cm_timestamp : Q;
}.

(** A value of [conversations_db], and the [ChatConversation] built from it. *)
Record ChatConversation : Type := {
  conv_id : list N;
  conv_user_id : option (list N);
  conv_messages : list ConvMessage;
  conv_created_at : Q;
  conv_updated_at : Q;
}.

Record ChatConversationCreate : Type := {
  create_user_id : option (list N);
  create_messages : list ConvMessage;
}.

Record ChatConversationUpdate : Type := {
  update_messages : option (list ConvMessage);
}.

(** [uuid.uuid4()] and [datetime.now()], by the number of calls made before. *)
Record ConvEnv : Type := {
  uuid4 : nat -> list N;
  datetime_now : nat -> Q;
}.

(** The service: its dictionary, in insertion order, and the number of calls
    it has made to the outside. *)
Record Service : Type := {
  conversations_db : list (list N * ChatConversation);
  outside_calls : nat;
}.

(** [d.get(k)] *)
Fixpoint db_get (k : list N) (d : list (list N * ChatConversation))
  : option ChatConversation :=
  match d with
  | [] => None
  | (k', v) :: d' => if bool_decide (k' = k) then Some v else db_get k d'
  end.

(** [d[k] = v]: a key that is there keeps its place. *)
Fixpoint db_set (k : list N) (v : ChatConversation) (d : list (list N * ChatConversation))
  : list (list N * ChatConversation) :=
  match d with
  | [] => [(k, v)]
  | (k', v') :: d' =>
      if bool_decide (k' = k) then (k, v) :: d' else (k', v') :: db_set k v d'
  end.

Definition get_conversation (conversation_id : list N) (st : Service)
  : option ChatConversation :=
  db_get conversation_id (conversations_db st).

Definition create_conversation (env : ConvEnv) (conversation : ChatConversationCreate)
    (st : Service) : ChatConversation * Service :=
  let conv_id := uuid4 env (outside_calls st) in
  let now := datetime_now env (S (outside_calls st)) in
  let conv_data :=
    {| conv_id := conv_id;
       conv_user_id := create_user_id conversation;
       conv_messages := create_messages conversation;
       conv_created_at := now;
       conv_updated_at := now |} in
  (conv_data,
   {| conversations_db := db_set conv_id conv_data (conversations_db st);
      outside_calls := S (S (outside_calls st)) |}).

Definition update_conversation (env : ConvEnv) (conversation_id : list N)
    (update_data : ChatConversationUpdate) (st : Service)
  : option ChatConversation * Service :=
  match get_conversation conversation_id st with
  | None => (None, st)
  | Some conv_data =>
      let conv_data :=
        {| conv_id := conv_id conv_data;
           conv_user_id := conv_user_id conv_data;
           conv_messages := default (conv_messages conv_data) (update_messages update_data);
           conv_created_at := conv_created_at conv_data;
           conv_updated_at := datetime_now env (outside_calls st) |} in
      (Some conv_data,
       {| conversations_db := db_set conversation_id conv_data (conversations_db st);
          outside_calls := S (outside_calls st) |})
  end.

Definition add_message (env : ConvEnv) (conversation_id : list N) (message : ConvMessage)
    (st : Service) : option ChatConversation * Service :=
  match get_conversation conversation_id st with
  | None => (None, st)
  | Some conv_data =>
      let conv_data :=
        {| conv_id := conv_id conv_data;
           conv_user_id := conv_user_id conv_data;
           conv_messages := conv_messages conv_data ++ [message];
           conv_created_at := conv_created_at conv_data;
           conv_updated_at := datetime_now env (outside_calls st) |} in
      (Some conv_data,
       {| conversations_db := db_set conversation_id conv_data (conversations_db st);
          outside_calls := S (outside_calls st) |})
  end.

(** [conv_data.get("user_id") == user_id], for every item of the dictionary
    in order. *)
Definition get_user_conversations (user_id : list N) (st : Service)
  : list ChatConversation :=
  snd <$> List.filter
            (fun kv => bool_decide (conv_user_id (snd kv) = Some user_id))
            (conversations_db st).

(** A reply of an endpoint: a body, or an [HTTPException]. *)
Inductive http (A : Type) : Type :=
| Reply (body : A)
| HTTPError (status_code : Z) (detail : list N).
Arguments Reply {A} body.
Arguments HTTPError {A} status_code detail.

Record ConversationReply : Type := {
  reply_conversation_id : list N;
  reply_response : list N;
  reply_timestamp : Q;
}.

Definition simulated_response (latest_content : list N) : list N :=
  py "I received your message: '" ++ latest_content
  ++ py "'. This is a simulated response from the backend.".

(** [create_or_update_conversation] *)
Definition create_or_update_conversation (env : ConvEnv)
    (conversation_data : ChatConversationCreate) (st : Service)
  : http ConversationReply * Service :=
  match last (create_messages conversation_data) with
  | Some latest_message =>
      let '(new_conversation, st1) := create_conversation env conversation_data st in
      let response_message :=
        {| cm_role := py "assistant";
           cm_content := simulated_response (cm_content latest_message);
           cm_timestamp := conv_updated_at new_conversation |} in
      match add_message env (conv_id new_conversation) response_message st1 with
      | (Some updated_conversation, st2) =>
          (Reply {| reply_conversation_id := conv_id updated_conversation;
                    reply_response := cm_content response_message;
                    reply_timestamp := cm_timestamp response_message |}, st2)
      | (None, st2) =>
          (HTTPError 500
             (py "Error creating/updating conversation: 'NoneType' object has no attribute 'id'"),
           st2)
      end
  | None =>
      let '(new_conversation, st1) :=
        create_conversation env
          {| create_user_id := create_user_id conversation_data; create_messages := [] |}
          st in
      (Reply {| reply_conversation_id := conv_id new_conversation;
                reply_response := py "New conversation started";
                reply_timestamp := conv_created_at new_conversation |}, st1)
  end.

Record HistoryReply : Type := {
  history_messages : list ConvMessage;
  history_last_updated : Q;
}.

(** [get_conversation] of the API *)
Definition get_conversation_endpoint (conversation_id : list N) (st : Service)
  : http HistoryReply :=
  match get_conversation conversation_id st with
  | None => HTTPError 404 (py "Conversation not found")
  | Some conversation =>
      Reply {| history_messages := conv_messages conversation;
               history_last_updated := conv_updated_at conversation |}
  end.

Record AddedReply : Type := {
  added_conversation_id : list N;
  added_message_added : bool;
  added_message_count : nat;
}.

(** [add_message_to_conversation] *)
Definition add_message_to_conversation (env : ConvEnv) (conversation_id : list N)
    (message : ConvMessage) (st : Service) : http AddedReply * Service :=
  match add_message env conversation_id message st with
  | (None, st') => (HTTPError 404 (py "Conversation not found"), st')
  | (Some updated_conversation, st') =>
      (Reply {| added_conversation_id := conv_id updated_conversation;
                added_message_added := true;
                added_message_count := length (conv_messages updated_conversation) |}, st')
  end.

(** [update_conversation] of the API *)
Definition update_conversation_endpoint (env : ConvEnv) (conversation_id : list N)
    (update_data : ChatConversationUpdate) (st : Service)
  : http ChatConversation * Service :=
  match update_conversation env conversation_id update_data st with
  | (None, st') => (HTTPError 404 (py "Conversation not found"), st')
  | (Some updated_conversation, st') => (Reply updated_conversation, st')
  end.

(** The invariant of the dictionary: no key twice, and every conversation
    under its own identifier. *)
Definition well_keyed (st : Service) : Prop :=
  NoDup (fst <$> conversations_db st) /\
  Forall (fun kv => conv_id (snd kv) = fst kv) (conversations_db st).

Definition empty_service : Service := {| conversations_db := []; outside_calls := 0 |}.

(** A sample outside world: the identifier drawn at call [n] is [conv-n], and
    the clock reads [n] seconds. *)
Definition sample_conv_env : ConvEnv :=
  {| uuid4 := fun n => py "conv-" ++ repr_int (Z.of_nat n);
     datetime_now := fun n => inject_Z (Z.of_nat n) |}.

End Conversations.

(** ** [LLMService.embed_text] and [check_database_health] *)

Module Fallbacks.
Import Database.

(** [embed_text]: the local model's vector, or 384 zeros when it fails. *)
Definition embed_text (env : Env) (text : list N) : M (list (list N)) :=
  try_except
    (Retrieving.get_embedding env text)
    (fun _ => ret (repeat (py "0.0") 384)).

(** [check_database_health]: [SELECT 1] on a new session, any failure turned
    into the pair [(False, message)]. *)
Definition check_database_health (env : Env) : M (bool * list N) :=
  try_except
    (db_op env EvDbConnect ;;; ret (true, py "Database is healthy"))
    (fun e => ret (false, py "Database health check failed: " ++ exn_msg e)).

End Fallbacks.

(** ** The store as the fault schedule makes it answer *)

Module StoreProps.
Import Database Agent.

(** The number of connection tests [get_db_with_retry] makes from tick [t]
    when one of its three tests passes. *)
Definition connects (env : Env) (t : nat) : option nat :=
  match db_fault env t with
  | None => Some 1%nat
  | Some _ =>
      match db_fault env (S t) with
      | None => Some 2%nat
      | Some _ =>
          match db_fault env (S (S t)) with
          | None => Some 3%nat
          | Some _ => None
          end
      end
  end.

(** One attempt on the store for [session_id] that starts at tick [t]: the
    connection, then, for an identifier that is a UUID, one statement (the
    query or the commit).  [Some t'] when the attempt returns, [t'] being the
    tick after the connection tests, at which that statement runs; [None]
    when the connection or the statement raises. *)
Definition attempt (env : Env) (session_id : list N) (t : nat) : option nat :=
  match connects env t with
  | None => None
  | Some n =>
      match uuid_parse env session_id with
      | None => Some (t + n)%nat
      | Some _ =>
          match db_fault env (t + n) with
          | None => Some (t + n)%nat
          | Some _ => None
          end
      end
  end.

(** The number of operations on the store an attempt that raises has made. *)
Definition failed_attempt_ops (env : Env) (t : nat) : nat :=
  match connects env t with
  | None => 3
  | Some n => S n
  end.

(** Three attempts in a row from tick [t], each starting where the one
    before failed: the tick of the statement of the first attempt that
    returns, [None] when all three raise. *)
Definition store_answers (env : Env) (session_id : list N) (t : nat) : option nat :=
  match attempt env session_id t with
  | Some a => Some a
  | None =>
      let t1 := (t + failed_attempt_ops env t)%nat in
      match attempt env session_id t1 with
      | Some a => Some a
      | None => attempt env session_id (t1 + failed_attempt_ops env t1)
      end
  end.

(** The rows of session [u] as the store returns them. *)
Definition stored_history (u : N) (w : World) : list Message :=
  message_of_row <$>
    order_by_created_at (filter (fun r => row_session_id r = u) (chat_messages w)).

(** What a read of the history of [session_id] returns in state [w]: the
    rows of the session when one of the three attempts returns, the
    identifier is a UUID and there is at least one row; the cache of the
    session in every other case. *)
Definition history_read (env : Env) (session_id : list N) (w : World) : list Message :=
  match store_answers env session_id (tick w), uuid_parse env session_id with
  | Some _, Some u =>
      match stored_history u w with
      | [] => default [] (conversation_contexts w !! session_id)
      | rows => rows
      end
  | _, _ => default [] (conversation_contexts w !! session_id)
  end.

End StoreProps.

(** * Theorems *)

Import Retrieving Database Agent LLMService Chat Samples Props.

(** ** Laws of the monad *)

Section Laws.
Context {A B : Type}.

Lemma bind_ok (m : M A) (k : A -> M B) w a w' :
  m w = (Ok a, w') -> bind m k w = k a w'.
Proof. intros H. unfold bind. now rewrite H. Qed.

Lemma bind_raise (m : M A) (k : A -> M B) w e w' :
  m w = (Raise e, w') -> bind m k w = (Raise e, w').
Proof. intros H. unfold bind. now rewrite H. Qed.

Lemma never_raises_ret (a : A) : never_raises (ret a).
Proof. intros w. now exists a, w. Qed.

Lemma never_raises_bind (m : M A) (k : A -> M B) :
  never_raises m -> (forall a, never_raises (k a)) -> never_raises (bind m k).
Proof.
  intros Hm Hk w. destruct (Hm w) as (a & w1 & E).
  destruct (Hk a w1) as (b & w2 & E2). exists b, w2.
  now rewrite (bind_ok _ _ _ _ _ E).
Qed.

Lemma never_raises_try_except (m : M A) (h : exn -> M A) :
  (forall e, never_raises (h e)) -> never_raises (try_except m h).
Proof.
  intros Hh w. unfold try_except. destruct (m w) as [[a|e] w1].
  - now exists a, w1.
  - apply Hh.
Qed.

Lemma never_raises_no_raise (m : M A) w e w' :
  never_raises m -> m w = (Raise e, w') -> False.
Proof. intros H E. destruct (H w) as (a & w1 & E1). congruence. Qed.

Lemma raises_only_never (P : exn -> Prop) (m : M A) :
  never_raises m -> raises_only P m.
Proof. intros H w e w' E. exfalso. eapply never_raises_no_raise; eauto. Qed.

Lemma raises_only_bind (P : exn -> Prop) (m : M A) (k : A -> M B) :
  raises_only P m -> (forall a, raises_only P (k a)) -> raises_only P (bind m k).
Proof.
  intros Hm Hk w e w' E. unfold bind in E.
  destruct (m w) as [[a|e1] w1] eqn:Em.
  - eapply Hk; eauto.
  - inversion E; subst. eapply Hm; eauto.
Qed.

Lemma raises_only_try_except (P : exn -> Prop) (m : M A) (h : exn -> M A) :
  (forall e, raises_only P (h e)) -> raises_only P (try_except m h).
Proof.
  intros Hh w e w' E. unfold try_except in E.
  destruct (m w) as [[a|e1] w1] eqn:Em; [discriminate|]. eapply Hh; eauto.
Qed.

Lemma raises_only_lift (P : exn -> Prop) (r : result A) :
  (forall e, r = Raise e -> P e) -> raises_only P (lift r).
Proof. intros H w e w' E. inversion E; subst. now apply H. Qed.

Lemma raises_only_raise (P : exn -> Prop) (e : exn) :
  P e -> raises_only P (@raise A e).
Proof. intros H w e' w' E. inversion E; now subst. Qed.
End Laws.

Section Frames.
Context {A B : Type} (R : World -> World -> Prop).
Hypothesis R_refl : forall w, R w w.
Hypothesis R_trans : forall w1 w2 w3, R w1 w2 -> R w2 w3 -> R w1 w3.

Lemma respects_ret (a : A) : respects R (ret a).
Proof. intros w r w' E. inversion E; subst. apply R_refl. Qed.

Lemma respects_raise (e : exn) : respects R (@raise A e).
Proof. intros w r w' E. inversion E; subst. apply R_refl. Qed.

Lemma respects_lift (r : result A) : respects R (lift r).
Proof. intros w r' w' E. inversion E; subst. apply R_refl. Qed.

Lemma respects_bind (m : M A) (k : A -> M B) :
  respects R m -> (forall a, respects R (k a)) -> respects R (bind m k).
Proof.
  intros Hm Hk w r w' E. unfold bind in E.
  destruct (m w) as [[a|e] w1] eqn:Em.
  - eapply R_trans; [eapply Hm; eauto | eapply Hk; eauto].
  - inversion E; subst. eapply Hm; eauto.
Qed.

Lemma respects_try_except (m : M A) (h : exn -> M A) :
  respects R m -> (forall e, respects R (h e)) -> respects R (try_except m h).
Proof.
  intros Hm Hh w r w' E. unfold try_except in E.
  destruct (m w) as [[a|e] w1] eqn:Em.
  - inversion E; subst. eapply Hm; eauto.
  - eapply R_trans; [eapply Hm; eauto | eapply Hh; eauto].
Qed.
End Frames.

(** ** Retrieval *)

Lemma tick_emit (ev : Event) (w : World) : tick (snd (emit ev w)) = S (tick w).
Proof. unfold tick, emit. cbn. rewrite length_app. cbn. lia. Qed.

(** What [retrieve] does, by the outcome of each step of its [try] block. *)
Lemma retrieve_cases (env : Env) (query collection_name : list N) (limit : Z) (w : World) :
  let w1 := snd (emit (EvEmbed query) w) in
  let w2 := snd (emit (EvQueryPoints collection_name limit) w1) in
  match embedding_model_embed env (tick w) query with
  | Raise _ => retrieve env query collection_name limit w = (Ok [], w1)
  | Ok embedding =>
      match qdrant_query_points env (S (tick w)) collection_name embedding limit with
      | Raise _ => retrieve env query collection_name limit w = (Ok [], w2)
      | Ok points =>
          match chunks_of_points env points [] with
          | Raise _ => retrieve env query collection_name limit w = (Ok [], w2)
          | Ok texts => retrieve env query collection_name limit w = (Ok texts, w2)
          end
      end
  end.
Proof.
  intros w1 w2.
  unfold retrieve, retrieve_try, get_embedding, try_except, bind, lift, ret, raise.
  fold w1. destruct (embedding_model_embed env (tick w) query) as [embedding|e]; [|reflexivity].
  replace (tick w1) with (S (tick w)) by (symmetry; apply tick_emit).
  fold w2. destruct (qdrant_query_points _ _ _ _ _) as [points|e]; [|reflexivity].
  destruct (chunks_of_points env points []); reflexivity.
Qed.

(** C1: [retrieve] is total: from every state and for every query, collection
    and limit it returns a list; whenever its [try] block raises -- the
    embedding fails, the vector search fails, or the mapping of the points
    fails -- that list is empty. *)
Theorem retrieve_never_raises (env : Env) (query collection_name : list N) (limit : Z)
    (w : World) :
  exists chunks w',
    retrieve env query collection_name limit w = (Ok chunks, w') /\
    (forall e w1, retrieve_try env query collection_name limit w = (Raise e, w1) ->
                  chunks = [] /\ w' = w1) /\
    (forall e, embedding_model_embed env (tick w) query = Raise e -> chunks = []) /\
    (forall embedding e,
        embedding_model_embed env (tick w) query = Ok embedding ->
        qdrant_query_points env (S (tick w)) collection_name embedding limit = Raise e ->
        chunks = []) /\
    (forall embedding points e,
        embedding_model_embed env (tick w) query = Ok embedding ->
        qdrant_query_points env (S (tick w)) collection_name embedding limit = Ok points ->
        chunks_of_points env points [] = Raise e ->
        chunks = []).
Proof.
  pose proof (retrieve_cases env query collection_name limit w) as H. cbn zeta in H.
  assert (Htry : forall e w1,
             retrieve_try env query collection_name limit w = (Raise e, w1) ->
             retrieve env query collection_name limit w = (Ok [], w1)).
  { intros e w1 E. unfold retrieve, try_except. now rewrite E. }
  destruct (embedding_model_embed env (tick w) query) as [embedding|e0] eqn:Eemb.
  - destruct (qdrant_query_points env (S (tick w)) collection_name embedding limit)
      as [points|e1] eqn:Eq.
    + destruct (chunks_of_points env points []) as [texts|e2] eqn:Ec.
      * eexists _, _. split; [exact H|]. repeat split.
        -- apply Htry in H0. congruence.
        -- apply Htry in H0. congruence.
        -- discriminate.
        -- intros ? ? ? E. inversion E; subst. congruence.
        -- intros ? ? ? E1 E2. inversion E1; subst. rewrite Eq in E2.
           inversion E2; subst. congruence.
      * eexists _, _. split; [exact H|]. repeat split; auto.
        apply Htry in H0. congruence.
    + eexists _, _. split; [exact H|]. repeat split; auto.
      apply Htry in H0. congruence.
  - eexists _, _. split; [exact H|]. repeat split; auto.
    apply Htry in H0. congruence.
Qed.

Lemma py_or_none (v : pyval) : py_or PyNone v = v.
Proof. reflexivity. Qed.

(** The content of a chunk follows the preference order in which an empty or
    otherwise false [content] field does not count. *)
Lemma chunk_of_point_content (env : Env) (point : ScoredPoint) payload :
  point_payload point = Some payload ->
  exists c, chunk_of_point env point = Ok c /\
            chunk_content c = content_by_true_preference env payload /\
            chunk_score c = point_score point.
Proof.
  intros Hp. unfold chunk_of_point, content_by_true_preference, dict_in, dict_get_or.
  rewrite Hp. destruct (dict_get (py "text") payload) as [t|] eqn:Et.
  - eexists. split; [reflexivity|]. cbn. auto.
  - eexists. split; [reflexivity|]. cbn [chunk_content chunk_score].
    split; [|reflexivity].
    rewrite py_or_none. unfold py_or.
    destruct (dict_get (py "content") payload) as [v|]; reflexivity.
Qed.

Lemma chunks_of_points_all (env : Env) (points : list ScoredPoint) :
  Forall (fun p => is_Some (point_payload p)) points ->
  forall acc, exists chunks,
    chunks_of_points env points acc = Ok (acc ++ chunks) /\
    Forall2 (fun p c => exists payload,
                 point_payload p = Some payload /\
                 chunk_content c = content_by_true_preference env payload /\
                 chunk_score c = point_score p) points chunks.
Proof.
  induction 1 as [|p points [payload Hp] _ IH]; intros acc.
  - exists []. cbn. rewrite app_nil_r. split; [reflexivity|constructor].
  - destruct (chunk_of_point_content env p payload Hp) as (c & Ec & Hc & Hs).
    destruct (IH (acc ++ [c])) as (chunks & E & F).
    exists (c :: chunks). cbn. rewrite Ec, E, <- app_assoc. split; [reflexivity|].
    constructor; [|exact F]. exists payload. auto.
Qed.

(** C7, as the code has it: when the embedding and the search succeed and
    every returned point has a mapping as payload, [retrieve] returns one chunk
    per point, in order; the content of each is the payload's [text] value when
    that key is present, otherwise the payload's [content] value when it is
    present and true (not empty), otherwise the payload as a string. *)
Theorem retrieve_content_preference (env : Env) (query collection_name : list N)
    (limit : Z) (w : World) (embedding : list (list N)) (points : list ScoredPoint) :
  embedding_model_embed env (tick w) query = Ok embedding ->
  qdrant_query_points env (S (tick w)) collection_name embedding limit = Ok points ->
  Forall (fun p => is_Some (point_payload p)) points ->
  exists chunks w',
    retrieve env query collection_name limit w = (Ok chunks, w') /\
    length chunks = length points /\
    Forall2 (fun p c => exists payload,
                 point_payload p = Some payload /\
                 chunk_content c = content_by_true_preference env payload /\
                 chunk_score c = point_score p) points chunks.
Proof.
  intros Eemb Eq Hall.
  pose proof (retrieve_cases env query collection_name limit w) as H. cbn zeta in H.
  rewrite Eemb, Eq in H.
  destruct (chunks_of_points_all env points Hall []) as (chunks & Ec & F).
  rewrite Ec in H. cbn in H. eexists _, _. split; [exact H|]. split; [|exact F].
  symmetry. eapply Forall2_length; eauto.
Qed.

(** The theorem at a search that returns three points: one with a [text]
    field, one with a [content] field, one with an empty [content] field. *)
Lemma retrieve_content_preference_witness :
  exists chunks w',
    retrieve (env_up [point_with_text; point_with_content; point_with_empty_content])
      (py "what is humanoid robotics") default_collection 5 empty_world = (Ok chunks, w') /\
    length chunks = 3%nat /\
    Forall2 (fun p c => exists payload,
                 point_payload p = Some payload /\
                 chunk_content c =
                   content_by_true_preference
                     (env_up [point_with_text; point_with_content; point_with_empty_content])
                     payload /\
                 chunk_score c = point_score p)
      [point_with_text; point_with_content; point_with_empty_content] chunks.
Proof.
  apply (retrieve_content_preference
           (env_up [point_with_text; point_with_content; point_with_empty_content])
           (py "what is humanoid robotics") default_collection 5 empty_world
           [py "0.25"; py "-0.5"]
           [point_with_text; point_with_content; point_with_empty_content]).
  - reflexivity.
  - reflexivity.
  - repeat constructor; eexists; reflexivity.
Defined.

(** The claim of C7 fails as stated: a payload whose [content] field is the
    empty string gives a chunk with the stringified payload, where the stated
    order gives the empty string; and one point without a payload makes the
    whole result empty. *)
Lemma content_preference_counterexample :
  fst (retrieve (env_up [point_with_empty_content]) (py "q") default_collection 5 empty_world)
  = Ok [{| chunk_content := PyStr (py "{'content': ''}");
           chunk_score := py "0.5";
           chunk_metadata := PyDict [(py "content", PyStr [])] |}]
  /\ content_by_preference (env_up [point_with_empty_content]) [(py "content", PyStr [])]
     = PyStr []
  /\ PyStr (py "{'content': ''}") <> PyStr []
  /\ fst (retrieve (env_up [point_with_text; point_without_payload]) (py "q")
            default_collection 5 empty_world) = Ok [].
Proof. repeat split; try reflexivity. discriminate. Qed.

(** ** Sanitising the input *)

Lemma replace_char_app (old : N) (new a b : list N) :
  replace_char old new (a ++ b) = replace_char old new a ++ replace_char old new b.
Proof. unfold replace_char. now rewrite fmap_app, concat_app. Qed.

Lemma replace_char_cons (old : N) (new : list N) (c : N) (s : list N) :
  replace_char old new (c :: s) =
  (if (c =? old)%N then new else [c]) ++ replace_char old new s.
Proof. reflexivity. Qed.

Lemma html_escape_nil : html_escape [] = [].
Proof. reflexivity. Qed.

Lemma html_escape_cons (c : N) (s : list N) :
  html_escape (c :: s) = escape_char c ++ html_escape s.
Proof.
  unfold html_escape, escape_char. cbv zeta. rewrite replace_char_cons.
  rewrite !replace_char_app.
  destruct (N.eqb_spec c 38) as [->|H38]; [reflexivity|].
  assert (R : forall o n, replace_char o n [c] = if (c =? o)%N then n else [c]).
  { intros. unfold replace_char. cbn. now rewrite app_nil_r. }
  rewrite R.
  destruct (N.eqb_spec c 60) as [->|H60]; [reflexivity|].
  rewrite R.
  destruct (N.eqb_spec c 62) as [->|H62]; [reflexivity|].
  rewrite R.
  destruct (N.eqb_spec c 34) as [->|H34]; [reflexivity|].
  rewrite R.
  destruct (N.eqb_spec c 39) as [->|H39]; reflexivity.
Qed.

Lemma html_escape_concat (s : list N) : html_escape s = concat (escape_char <$> s).
Proof.
  induction s as [|c s IH]; [reflexivity|].
  rewrite html_escape_cons, IH. reflexivity.
Qed.

Lemma escape_char_no_markup (c : N) :
  Forall (fun x => x <> 60%N /\ x <> 62%N /\ x <> 34%N /\ x <> 39%N) (escape_char c).
Proof.
  unfold escape_char.
  destruct (N.eqb_spec c 38); [repeat constructor; discriminate|].
  destruct (N.eqb_spec c 60); [repeat constructor; discriminate|].
  destruct (N.eqb_spec c 62); [repeat constructor; discriminate|].
  destruct (N.eqb_spec c 34); [repeat constructor; discriminate|].
  destruct (N.eqb_spec c 39); [repeat constructor; discriminate|].
  repeat constructor; assumption.
Qed.

Lemma html_escape_no_markup (s : list N) :
  Forall (fun x => x <> 60%N /\ x <> 62%N /\ x <> 34%N /\ x <> 39%N) (html_escape s).
Proof.
  rewrite html_escape_concat. induction s as [|c s IH]; [constructor|].
  cbn. apply Forall_app. split; [apply escape_char_no_markup|exact IH].
Qed.

(** Escaping neither adds nor removes white space, and the stripped class has
    none. *)
Lemma escape_char_whitespace (c : N) :
  List.filter is_whitespace (strip_control (escape_char c)) =
  List.filter is_whitespace [c].
Proof.
  unfold escape_char.
  destruct (N.eqb_spec c 38) as [->|]; [reflexivity|].
  destruct (N.eqb_spec c 60) as [->|]; [reflexivity|].
  destruct (N.eqb_spec c 62) as [->|]; [reflexivity|].
  destruct (N.eqb_spec c 34) as [->|]; [reflexivity|].
  destruct (N.eqb_spec c 39) as [->|]; [reflexivity|].
  unfold strip_control. cbn [List.filter].
  destruct (is_control c) eqn:Hc; cbn [negb List.filter]; [|reflexivity].
  destruct (is_whitespace c) eqn:Hw; [|reflexivity].
  exfalso. unfold is_whitespace in Hw. unfold is_control in Hc.
  repeat match goal with
         | H : context [(?a =? ?b)%N] |- _ => destruct (N.eqb_spec a b); subst
         end; cbn in *; congruence.
Qed.

Lemma strip_control_app (a b : list N) :
  strip_control (a ++ b) = strip_control a ++ strip_control b.
Proof. unfold strip_control. apply List.filter_app. Qed.

Lemma whitespace_preserved (s : list N) :
  List.filter is_whitespace (strip_control (html_escape s)) = List.filter is_whitespace s.
Proof.
  induction s as [|c s IH]; [reflexivity|].
  rewrite html_escape_cons, strip_control_app, List.filter_app, IH.
  rewrite escape_char_whitespace. rewrite <- List.filter_app. reflexivity.
Qed.

(** Escaping never shortens what survives the stripping. *)
Lemma escape_char_survives (c : N) :
  (length (strip_control [c]) <= length (strip_control (escape_char c)))%nat.
Proof.
  unfold escape_char.
  destruct (N.eqb_spec c 38) as [->|]; [vm_compute; lia|].
  destruct (N.eqb_spec c 60) as [->|]; [vm_compute; lia|].
  destruct (N.eqb_spec c 62) as [->|]; [vm_compute; lia|].
  destruct (N.eqb_spec c 34) as [->|]; [vm_compute; lia|].
  destruct (N.eqb_spec c 39) as [->|]; [vm_compute; lia|].
  lia.
Qed.

Lemma strip_escape_length (s : list N) :
  (length (strip_control s) <= length (strip_control (html_escape s)))%nat.
Proof.
  induction s as [|c s IH]; [cbn; lia|].
  rewrite html_escape_cons, strip_control_app, length_app.
  change (c :: s) with ([c] ++ s). rewrite strip_control_app, length_app.
  pose proof (escape_char_survives c). lia.
Qed.

Lemma strip_control_clean (s : list N) :
  Forall (fun c => is_control c = false) (strip_control s).
Proof.
  unfold strip_control. apply List.Forall_forall. intros c Hc.
  apply List.filter_In in Hc. destruct Hc as [_ Hc]. now destruct (is_control c).
Qed.

Lemma strip_control_id (s : list N) :
  Forall (fun c => is_control c = false) s -> strip_control s = s.
Proof.
  induction 1 as [|c s Hc _ IH]; [reflexivity|].
  unfold strip_control in *. cbn. rewrite Hc. cbn. now rewrite IH.
Qed.

Lemma is_control_class (c : N) :
  is_control c = true <->
  (c <= 8 \/ c = 11 \/ c = 12 \/ 14 <= c <= 31 \/ c = 127)%N.
Proof.
  unfold is_control.
  rewrite !orb_true_iff, andb_true_iff, !N.leb_le, !N.eqb_eq. tauto.
Qed.

Lemma sanitize_input_unfold (text : list N) :
  sanitize_input text = take 5000 (strip_control (html_escape text)).
Proof.
  unfold sanitize_input. destruct text as [|c text]; [reflexivity|].
  cbv zeta. fold (strip_control (html_escape (c :: text))).
  destruct (Nat.ltb_spec 5000 (length (strip_control (html_escape (c :: text)))));
    [reflexivity|].
  symmetry. apply take_ge. lia.
Qed.

(** C5, as the code has it: [sanitize_input] escapes the five markup
    characters (no [<], [>] or quote is left), removes the control characters
    of its class -- U+0000 to U+0008, U+000B, U+000C, U+000E to U+001F and
    U+007F, and no other character -- and keeps tab, line feed, carriage
    return and space, then cuts the result at 5000 characters.  The result
    has at most 5000 characters, and exactly 5000 as soon as 5000 characters
    of the message survive the stripping; so a message of 10,000 characters
    comes out with at most 5000 characters, and with exactly 5000 when none
    of them is a stripped control character. *)
Theorem sanitize_input_spec (text : list N) :
  (forall c, is_control c = true <->
             (c <= 8 \/ c = 11 \/ c = 12 \/ 14 <= c <= 31 \/ c = 127)%N) /\
  html_escape text = concat (escape_char <$> text) /\
  sanitize_input text = take 5000 (strip_control (html_escape text)) /\
  (length (sanitize_input text) <= 5000)%nat /\
  Forall (fun c => is_control c = false /\
                   c <> 60%N /\ c <> 62%N /\ c <> 34%N /\ c <> 39%N)
         (sanitize_input text) /\
  List.filter is_whitespace (strip_control (html_escape text))
    = List.filter is_whitespace text /\
  ((5000 <= length (strip_control text))%nat -> length (sanitize_input text) = 5000%nat) /\
  (length text = 10000%nat ->
   (length (sanitize_input text) <= 5000)%nat /\
   (Forall (fun c => is_control c = false) text -> length (sanitize_input text) = 5000%nat)).
Proof.
  pose proof (sanitize_input_unfold text) as Hs.
  assert (Hlen : (length (sanitize_input text) <= 5000)%nat).
  { rewrite Hs, length_take. lia. }
  assert (Hfull : (5000 <= length (strip_control text))%nat ->
                  length (sanitize_input text) = 5000%nat).
  { intros H. rewrite Hs, length_take. pose proof (strip_escape_length text). lia. }
  split; [apply is_control_class|].
  split; [apply html_escape_concat|]. split; [exact Hs|]. split; [exact Hlen|].
  split.
  { rewrite Hs. apply Forall_take. apply Forall_and. split.
    - apply strip_control_clean.
    - unfold strip_control. apply List.Forall_forall. intros c Hc.
      apply List.filter_In in Hc. destruct Hc as [Hc _].
      pose proof (html_escape_no_markup text) as F.
      rewrite List.Forall_forall in F. now apply F. }
  split; [apply whitespace_preserved|]. split; [exact Hfull|].
  intros H10. split; [exact Hlen|]. intros Hclean. apply Hfull.
  rewrite (strip_control_id text Hclean), H10.
  apply Nat.leb_le. vm_compute. reflexivity.
Qed.

(** C5, where the claim as worded fails: a message of 10,000 characters is
    not always cut to 5000 characters.  The stripping comes before the cut,
    so 10,000 control characters 0x07 give the empty string, and 6000 of them
    followed by 4000 letters give the 4000 letters.  And the control
    character U+0080 is outside the class the code strips: it is kept. *)
Lemma sanitize_input_counterexample :
  length (repeat 7%N 10000) = 10000%nat /\
  sanitize_input (repeat 7%N 10000) = [] /\
  length (repeat 7%N 6000 ++ repeat 97%N 4000) = 10000%nat /\
  sanitize_input (repeat 7%N 6000 ++ repeat 97%N 4000) = repeat 97%N 4000 /\
  sanitize_input [128%N] = [128%N].
Proof.
  split; [apply repeat_length|]. split; [vm_compute; reflexivity|].
  split; [rewrite length_app, !repeat_length; vm_compute; reflexivity|].
  split; vm_compute; reflexivity.
Qed.

(** The two examples of the specification: markup and the control character
    0x07, and a message of 10,000 characters. *)
Example sanitize_input_script :
  sanitize_input (py "<script>alert('x')</script>" ++ [7%N] ++ py " a" ++ [9%N] ++ py "b")
  = py "&lt;script&gt;alert(&#x27;x&#x27;)&lt;/script&gt; a" ++ [9%N] ++ py "b".
Proof. reflexivity. Qed.

Example sanitize_input_long :
  sanitize_input (repeat 97%N 10000) = repeat 97%N 5000.
Proof. vm_compute. reflexivity. Qed.

(** ** Which calls leave the process *)

Lemma trace_extends_refl (P : Event -> Prop) (w : World) : trace_extends P w w.
Proof. exists []. split; [now rewrite app_nil_r|constructor]. Qed.

Lemma trace_extends_trans (P : Event -> Prop) (w1 w2 w3 : World) :
  trace_extends P w1 w2 -> trace_extends P w2 w3 -> trace_extends P w1 w3.
Proof.
  intros (e1 & E1 & F1) (e2 & E2 & F2). exists (e1 ++ e2). split.
  - now rewrite E2, E1, app_assoc.
  - apply Forall_app. auto.
Qed.

Lemma trace_extends_one (P : Event -> Prop) (ev : Event) (w w' : World) :
  P ev -> trace w' = trace w ++ [ev] -> trace_extends P w w'.
Proof. intros H E. exists [ev]. split; [exact E|]. repeat constructor. exact H. Qed.

Lemma trace_extends_same (P : Event -> Prop) (w w' : World) :
  trace w' = trace w -> trace_extends P w w'.
Proof. intros E. exists []. split; [now rewrite app_nil_r|constructor]. Qed.

Lemma same_store_refl (w : World) : same_store w w.
Proof. now split. Qed.

Lemma same_store_trans (w1 w2 w3 : World) :
  same_store w1 w2 -> same_store w2 w3 -> same_store w1 w3.
Proof. intros [A1 B1] [A2 B2]. split; congruence. Qed.

Lemma respects_and {A} (R1 R2 : World -> World -> Prop) (m : M A) :
  respects R1 m -> respects R2 m -> respects (fun w w' => R1 w w' /\ R2 w w') m.
Proof. intros H1 H2 w r w' E. split; eauto. Qed.

Create HintDb frames.
#[local] Hint Resolve trace_extends_refl trace_extends_trans same_store_refl
  same_store_trans : frames.

Ltac frame_bind :=
  first [ apply respects_bind; [solve [eauto with frames] | | intros ]
        | apply respects_try_except; [solve [eauto with frames] | | intros ]
        | apply respects_ret; solve [eauto with frames]
        | apply respects_raise; solve [eauto with frames]
        | apply respects_lift; solve [eauto with frames] ].

Section Traces.
Variable P : Event -> Prop.
Variable env : Env.

Lemma time_time_trace : P EvClock -> respects (trace_extends P) (time_time env).
Proof.
  intros H w r w' E. unfold time_time in E. inversion E; subst.
  eapply trace_extends_one; [exact H|reflexivity].
Qed.

Lemma db_op_trace (ev : Event) : P ev -> respects (trace_extends P) (db_op env ev).
Proof.
  intros H w r w' E. unfold db_op in E. inversion E; subst.
  eapply trace_extends_one; [exact H|reflexivity].
Qed.

Lemma get_embedding_trace (text : list N) :
  P (EvEmbed text) -> respects (trace_extends P) (get_embedding env text).
Proof.
  intros H. unfold get_embedding. frame_bind.
  - intros w r w' E. unfold lift in E. inversion E; subst.
    eapply trace_extends_one; [exact H|reflexivity].
  - frame_bind.
Qed.

Lemma retrieve_trace (query collection_name : list N) (limit : Z) :
  P (EvEmbed query) -> P (EvQueryPoints collection_name limit) ->
  respects (trace_extends P) (retrieve env query collection_name limit).
Proof.
  intros He Hq. unfold retrieve, retrieve_try. frame_bind; [|frame_bind].
  frame_bind; [now apply get_embedding_trace|]. frame_bind; [|frame_bind].
  intros w r w' E. unfold lift in E. inversion E; subst.
  eapply trace_extends_one; [exact Hq|reflexivity].
Qed.

Lemma chat_completion_trace (messages : list PromptMsg) (sources : list Source)
    (temperature : list N) (max_tokens : Z) :
  P (EvCompletion messages temperature max_tokens) ->
  respects (trace_extends P)
    (chat_completion_with_sources env messages sources temperature max_tokens).
Proof.
  intros H. unfold chat_completion_with_sources. frame_bind; [|frame_bind].
  frame_bind.
  - intros w r w' E. unfold lift in E. inversion E; subst.
    eapply trace_extends_one; [exact H|reflexivity].
  - frame_bind; frame_bind.
Qed.

Lemma is_rate_limited_trace (request : Request) :
  P EvClock -> respects (trace_extends P) (is_rate_limited env request).
Proof.
  intros H. unfold is_rate_limited. frame_bind; [now apply time_time_trace|].
  intros w r w' E. apply trace_extends_same.
  destruct (_ <=? _)%nat; inversion E; reflexivity.
Qed.

Lemma contexts_setdefault_trace (session_id : list N) :
  respects (trace_extends P) (contexts_setdefault session_id).
Proof. intros w r w' E. inversion E; subst. now apply trace_extends_same. Qed.

Lemma contexts_append_trace (session_id role : list N) (content : pyval) :
  P EvClock -> respects (trace_extends P) (contexts_append env session_id role content).
Proof.
  intros H. unfold contexts_append. frame_bind; [apply contexts_setdefault_trace|].
  frame_bind; [now apply time_time_trace|].
  intros w r w' E. inversion E; subst. now apply trace_extends_same.
Qed.

Lemma get_db_with_retry_loop_trace (max_retries : nat) (attempts : list nat) :
  P EvDbConnect ->
  respects (trace_extends P) (get_db_with_retry_loop env max_retries attempts).
Proof.
  intros H. induction attempts as [|attempt rest IH]; cbn [get_db_with_retry_loop].
  - frame_bind.
  - frame_bind.
    + frame_bind; [now apply db_op_trace|frame_bind].
    + destruct (_ =? _)%nat; [frame_bind|exact IH].
Qed.

Lemma db_query_trace (db : option Session) (u : N) :
  P (EvDbQuery u) -> respects (trace_extends P) (db_query env db u).
Proof.
  intros H. unfold db_query. destruct db; [|frame_bind].
  frame_bind; [now apply db_op_trace|].
  intros w r w' E. inversion E; subst. now apply trace_extends_same.
Qed.

Lemma db_add_commit_trace (db : option Session) (u : N) (role : list N)
    (content : pyval) (sources : option (list Source)) :
  (forall row, P (EvDbCommit row)) ->
  respects (trace_extends P) (db_add_commit env db u role content sources).
Proof.
  intros H. unfold db_add_commit. destruct db; [|frame_bind].
  intros w r w' E. unfold db_op in E.
  destruct (db_fault env (tick w)); inversion E; subst;
    (eapply trace_extends_one; [apply H|reflexivity]).
Qed.

Lemma get_conversation_context_trace (session_id : list N) :
  P EvDbConnect -> (forall u, P (EvDbQuery u)) ->
  respects (trace_extends P) (get_conversation_context env session_id).
Proof.
  intros Hc Hq.
  assert (Htry : respects (trace_extends P)
                   (get_conversation_context_from_db_try env session_id)).
  { unfold get_conversation_context_from_db_try. frame_bind.
    - now apply get_db_with_retry_loop_trace.
    - destruct (uuid_parse env session_id); [|frame_bind].
      frame_bind; [now apply db_query_trace|frame_bind]. }
  assert (Hloop : forall attempts, respects (trace_extends P)
                    (get_conversation_context_from_db_loop env session_id attempts)).
  { induction attempts as [|attempt rest IH];
      cbn [get_conversation_context_from_db_loop]; [frame_bind|].
    frame_bind.
    - frame_bind; [exact Htry|frame_bind].
    - destruct (_ =? _)%nat; [|exact IH].
      frame_bind; [apply contexts_setdefault_trace|frame_bind]. }
  unfold get_conversation_context, get_conversation_context_from_db.
  frame_bind; [apply Hloop|].
  destruct a as [[|m l]|]; try apply contexts_setdefault_trace. frame_bind.
Qed.

Lemma add_message_to_context_trace (session_id role : list N) (content : pyval)
    (sources : option (list Source)) :
  P EvDbConnect -> (forall row, P (EvDbCommit row)) -> P EvClock ->
  respects (trace_extends P) (add_message_to_context env session_id role content sources).
Proof.
  intros Hc Hq Hk.
  assert (Htry : respects (trace_extends P)
                   (add_message_to_context_in_db_try env session_id role content sources)).
  { unfold add_message_to_context_in_db_try. frame_bind.
    - now apply get_db_with_retry_loop_trace.
    - destruct (uuid_parse env session_id); [|frame_bind].
      now apply db_add_commit_trace. }
  assert (Hloop : forall attempts, respects (trace_extends P)
                    (add_message_to_context_in_db_loop env session_id role content
                       sources attempts)).
  { induction attempts as [|attempt rest IH];
      cbn [add_message_to_context_in_db_loop]; [frame_bind|].
    intros w r w' E.
    destruct (add_message_to_context_in_db_try env session_id role content sources w)
      as [[[]|e] w1] eqn:Et.
    - inversion E; subst. eapply Htry; eauto.
    - eapply trace_extends_trans; [eapply Htry; eauto|].
      revert E. apply respects_bind; eauto with frames.
      destruct (_ =? _)%nat; [now apply contexts_append_trace|frame_bind]. }
  unfold add_message_to_context, add_message_to_context_in_db.
  frame_bind; [apply Hloop|]. now apply contexts_append_trace.
Qed.

End Traces.

Section Stores.
Variable env : Env.

Lemma time_time_store : respects same_store (time_time env).
Proof. intros w r w' E. inversion E; subst. now split. Qed.

Lemma retrieve_store (query collection_name : list N) (limit : Z) :
  respects same_store (retrieve env query collection_name limit).
Proof.
  unfold retrieve, retrieve_try, get_embedding.
  frame_bind; [|frame_bind]. frame_bind.
  - frame_bind; [|frame_bind].
    intros w r w' E. inversion E; subst. now split.
  - frame_bind; [|frame_bind].
    intros w r w' E. inversion E; subst. now split.
Qed.

Lemma chat_completion_store (messages : list PromptMsg) (sources : list Source)
    (temperature : list N) (max_tokens : Z) :
  respects same_store
    (chat_completion_with_sources env messages sources temperature max_tokens).
Proof.
  unfold chat_completion_with_sources. frame_bind; [|frame_bind].
  frame_bind.
  - intros w r w' E. inversion E; subst. now split.
  - frame_bind; frame_bind.
Qed.

Lemma is_rate_limited_store (request : Request) :
  respects same_store (is_rate_limited env request).
Proof.
  unfold is_rate_limited. frame_bind; [apply time_time_store|].
  intros w r w' E. destruct (_ <=? _)%nat; inversion E; subst; now split.
Qed.

End Stores.

(** ** The context window *)

Lemma query_limit_is_other (limit : Z) (ev : Event) :
  (forall c l, ev <> EvQueryPoints c l) -> query_limit_is limit ev.
Proof. intros H. destruct ev; cbn; auto. exfalso. eapply H; eauto. Qed.

Lemma send_chat_message_trace (P : Event -> Prop) (env : Env) (request : Request)
    (session_id : list N) (chat_request : ChatMessageRequest) :
  (forall ev, (forall c l, ev <> EvQueryPoints c l) ->
              (forall m t k, ev <> EvCompletion m t k) -> P ev) ->
  P (EvQueryPoints default_collection
       (sanitized_context_window (context_window chat_request))) ->
  (forall m t k, P (EvCompletion m t k)) ->
  respects (trace_extends P) (send_chat_message env request session_id chat_request).
Proof.
  intros Hother Hq Hc. unfold send_chat_message.
  frame_bind; [apply is_rate_limited_trace; apply Hother; discriminate|].
  destruct a; [frame_bind|]. cbv zeta.
  frame_bind.
  - unfold send_chat_message_try.
    frame_bind; [apply retrieve_trace; [apply Hother; discriminate|exact Hq]|].
    frame_bind; [frame_bind|].
    frame_bind; [apply get_conversation_context_trace; [|intros u]; apply Hother; discriminate|].
    frame_bind; [apply chat_completion_trace; apply Hc|].
    frame_bind;
      [apply add_message_to_context_trace; [|intros row|]; apply Hother; discriminate|].
    frame_bind;
      [apply add_message_to_context_trace; [|intros row|]; apply Hother; discriminate|].
    frame_bind.
  - unfold send_chat_message_except. destruct (exn_class e); frame_bind.
Qed.

Lemma ask_from_selection_trace (P : Event -> Prop) (env : Env) (request : Request)
    (chat_request : ChatMessageRequest) :
  P EvClock ->
  P (EvEmbed (sanitize_input (content chat_request))) ->
  P (EvQueryPoints default_collection
       (sanitized_context_window (context_window chat_request))) ->
  (forall context_text,
      P (EvCompletion
           [{| p_role := py "system";
               p_content := PyStr (system_message_selection context_text) |};
            {| p_role := py "user";
               p_content := PyStr (sanitize_input (content chat_request)) |}]
           (py "0.3") 1000)) ->
  respects (trace_extends P) (ask_from_selection env request chat_request).
Proof.
  intros Hk He Hq Hc. unfold ask_from_selection.
  frame_bind; [now apply is_rate_limited_trace|].
  destruct a; [frame_bind|]. cbv zeta.
  frame_bind.
  - unfold ask_from_selection_try.
    frame_bind; [now apply retrieve_trace|].
    frame_bind; [frame_bind|].
    frame_bind; [apply chat_completion_trace; apply Hc|]. frame_bind.
  - unfold ask_from_selection_except. destruct (exn_class e); frame_bind.
Qed.

(** C6: whatever [context_window] the request carries, the limit the two
    endpoints pass to retrieval is [max 1 (min context_window 10)], a value
    between 1 and 10: every vector search either endpoint issues asks for
    exactly that many points. *)
Theorem context_window_clamped (env : Env) (request : Request) (session_id : list N)
    (chat_request : ChatMessageRequest) (w : World) :
  let limit := sanitized_context_window (context_window chat_request) in
  limit = Z.max 1 (Z.min (context_window chat_request) 10) /\
  (1 <= limit <= 10)%Z /\
  trace_extends (query_limit_is limit) w
    (snd (send_chat_message env request session_id chat_request w)) /\
  trace_extends (query_limit_is limit) w
    (snd (ask_from_selection env request chat_request w)) /\
  sanitized_context_window 0 = 1%Z /\
  sanitized_context_window 15 = 10%Z /\
  sanitized_context_window 1000000 = 10%Z.
Proof.
  intros limit. split; [reflexivity|]. split; [unfold limit, sanitized_context_window; lia|].
  split; [|split; [|repeat split]].
  - destruct (send_chat_message env request session_id chat_request w) as [r w'] eqn:E.
    revert E. apply send_chat_message_trace.
    + intros ev H _. now apply query_limit_is_other.
    + reflexivity.
    + intros; exact I.
  - destruct (ask_from_selection env request chat_request w) as [r w'] eqn:E.
    revert E. apply ask_from_selection_trace; try exact I; [reflexivity|].
    intros; exact I.
Qed.

(** ** The selection endpoint *)



(** For contrast, the chat endpoint does write the history. *)
Example send_chat_message_writes_history :
  length (default [] (conversation_contexts
     (snd (send_chat_message (env_up [point_with_text]) {| client_host := None |}
             (py "s1") {| content := py "hello"; context_window := 5 |} empty_world))
     !! py "s1")) = 2%nat.
Proof. vm_compute. reflexivity. Qed.

(** ** Which computations raise, and what *)

Lemma never_raises_time_time (env : Env) : never_raises (time_time env).
Proof. intros w. eexists _, _. reflexivity. Qed.

Lemma never_raises_contexts_setdefault (session_id : list N) :
  never_raises (contexts_setdefault session_id).
Proof. intros w. eexists _, _. reflexivity. Qed.

Lemma never_raises_contexts_append (env : Env) (session_id role : list N) (content : pyval) :
  never_raises (contexts_append env session_id role content).
Proof.
  unfold contexts_append.
  apply never_raises_bind; [apply never_raises_contexts_setdefault|intros cur].
  apply never_raises_bind; [apply never_raises_time_time|intros now].
  intros w. eexists _, _. reflexivity.
Qed.

Lemma never_raises_retrieve (env : Env) (query collection_name : list N) (limit : Z) :
  never_raises (retrieve env query collection_name limit).
Proof. apply never_raises_try_except. intros e. apply never_raises_ret. Qed.

Lemma never_raises_is_rate_limited (env : Env) (request : Request) :
  never_raises (is_rate_limited env request).
Proof.
  unfold is_rate_limited.
  apply never_raises_bind; [apply never_raises_time_time|intros now].
  intros w. cbv beta zeta. destruct (_ <=? _)%nat; eexists _, _; reflexivity.
Qed.

Lemma never_raises_from_db_loop (env : Env) (session_id : list N) (attempts : list nat) :
  never_raises (get_conversation_context_from_db_loop env session_id attempts).
Proof.
  induction attempts as [|attempt rest IH]; cbn [get_conversation_context_from_db_loop].
  - apply never_raises_ret.
  - apply never_raises_try_except. intros e. destruct (_ =? _)%nat; [|exact IH].
    apply never_raises_bind; [apply never_raises_contexts_setdefault|intros l].
    apply never_raises_ret.
Qed.

Lemma never_raises_get_conversation_context (env : Env) (session_id : list N) :
  never_raises (get_conversation_context env session_id).
Proof.
  unfold get_conversation_context, get_conversation_context_from_db.
  apply never_raises_bind; [apply never_raises_from_db_loop|intros db_context].
  destruct db_context as [[|m l]|];
    first [apply never_raises_ret | apply never_raises_contexts_setdefault].
Qed.

Lemma never_raises_in_db_loop (env : Env) (session_id role : list N) (content : pyval)
    (sources : option (list Source)) (attempts : list nat) :
  never_raises (add_message_to_context_in_db_loop env session_id role content sources attempts).
Proof.
  induction attempts as [|attempt rest IH]; cbn [add_message_to_context_in_db_loop].
  - apply never_raises_ret.
  - intros w.
    destruct (add_message_to_context_in_db_try env session_id role content sources w)
      as [[[]|e] w1]; [now eexists _, _|].
    apply never_raises_bind; [|intros _; exact IH].
    destruct (_ =? _)%nat; [apply never_raises_contexts_append|apply never_raises_ret].
Qed.

Lemma never_raises_add_message_to_context (env : Env) (session_id role : list N)
    (content : pyval) (sources : option (list Source)) :
  never_raises (add_message_to_context env session_id role content sources).
Proof.
  unfold add_message_to_context, add_message_to_context_in_db.
  apply never_raises_bind; [apply never_raises_in_db_loop|intros _].
  apply never_raises_contexts_append.
Qed.

(** The completion service turns every failure into a plain [Exception]. *)
Lemma chat_completion_raises (env : Env) (messages : list PromptMsg)
    (sources : list Source) (temperature : list N) (max_tokens : Z) :
  raises_only (fun e => exn_class e = Exception_)
    (chat_completion_with_sources env messages sources temperature max_tokens).
Proof.
  unfold chat_completion_with_sources. apply raises_only_try_except. intros e.
  now apply raises_only_raise.
Qed.

Lemma contents_of_raises (retrieved_texts : list Chunk) (e : exn) :
  contents_of retrieved_texts = Raise e -> exn_class e = TypeError.
Proof.
  induction retrieved_texts as [|text rest IH]; cbn; [discriminate|].
  destruct (chunk_content text); try (intros E; now inversion E).
  destruct (contents_of rest); [discriminate|]. intros E. inversion E; subst. now apply IH.
Qed.

Lemma context_text_of_raises (retrieved_texts : list Chunk) (e : exn) :
  context_text_of retrieved_texts = Raise e -> exn_class e = TypeError.
Proof.
  unfold context_text_of. destruct (contents_of retrieved_texts) eqn:E; [discriminate|].
  intros E'. inversion E'; subst. now apply contents_of_raises in E.
Qed.

(** The [try] block of the chat endpoint raises nothing but a [TypeError]
    (joining contents that are not strings) or the plain [Exception] of the
    completion service: never a [ValueError], never an [SQLAlchemyError]. *)
Lemma send_chat_message_try_raises (env : Env) (session_id sanitized_content : list N)
    (limit : Z) :
  raises_only (fun e => exn_class e = TypeError \/ exn_class e = Exception_)
    (send_chat_message_try env session_id sanitized_content limit).
Proof.
  unfold send_chat_message_try.
  apply raises_only_bind; [apply raises_only_never, never_raises_retrieve|intros texts].
  apply raises_only_bind.
  { apply raises_only_lift. intros e E. left. now apply context_text_of_raises in E. }
  intros context_text.
  apply raises_only_bind;
    [apply raises_only_never, never_raises_get_conversation_context|intros history].
  apply raises_only_bind.
  { intros w e w' E. right. eapply chat_completion_raises; eauto. }
  intros result.
  apply raises_only_bind;
    [apply raises_only_never, never_raises_add_message_to_context|intros _].
  apply raises_only_bind;
    [apply raises_only_never, never_raises_add_message_to_context|intros _].
  apply raises_only_never, never_raises_ret.
Qed.

Lemma fallback_text_fixed (error_msg : list N) :
  In (fallback_text error_msg) ChatProps.explanatory_texts.
Proof.
  unfold fallback_text, ChatProps.explanatory_texts.
  repeat match goal with |- context [if ?b then _ else _] => destruct b end;
    unfold In; repeat first [left; reflexivity | right].
Qed.

Lemma fallback_text_nonempty (error_msg : list N) : fallback_text error_msg <> [].
Proof.
  unfold fallback_text.
  repeat match goal with |- context [if ?b then _ else _] => destruct b end;
    vm_compute; discriminate.
Qed.

(** ** The chat endpoint *)

(** C3: after admission control the chat endpoint always answers with a
    well-formed body: the result of its [try] block when that returns, and
    when that raises, the reply with the empty source list, no retrieved
    chunk, no usage and, as its response, one of the five fixed explanatory
    texts, whatever the text of the exception was.  The only exception that
    leaves the endpoint is the rate limiter's [HTTPException] 429. *)
Theorem send_chat_message_failures (env : Env) (request : Request) (session_id : list N)
    (chat_request : ChatMessageRequest) (w : World) :
  let sanitized_content := sanitize_input (content chat_request) in
  let limit := sanitized_context_window (context_window chat_request) in
  match is_rate_limited env request w with
  | (Ok true, w1) =>
      send_chat_message env request session_id chat_request w
      = (Raise rate_limit_exceeded, w1)
  | (Ok false, w1) =>
      match send_chat_message_try env session_id sanitized_content limit w1 with
      | (Ok r, w2) =>
          send_chat_message env request session_id chat_request w = (Ok r, w2)
      | (Raise e, w2) =>
          send_chat_message env request session_id chat_request w
          = (Ok {| resp_session_id := session_id;
                   resp_response := PyStr (fallback_text (exn_msg e));
                   resp_sources := [];
                   resp_query := sanitized_content;
                   resp_retrieved_chunks := 0;
                   resp_usage := [] |}, w2)
          /\ fallback_text (exn_msg e) <> []
          /\ In (fallback_text (exn_msg e)) ChatProps.explanatory_texts
      end
  | (Raise _, _) => False
  end /\
  (forall e w', send_chat_message env request session_id chat_request w = (Raise e, w') ->
                e = rate_limit_exceeded).
Proof.
  intros sanitized_content limit.
  assert (Hmain :
    match is_rate_limited env request w with
    | (Ok true, w1) =>
        send_chat_message env request session_id chat_request w
        = (Raise rate_limit_exceeded, w1)
    | (Ok false, w1) =>
        match send_chat_message_try env session_id sanitized_content limit w1 with
        | (Ok r, w2) =>
            send_chat_message env request session_id chat_request w = (Ok r, w2)
        | (Raise e, w2) =>
            send_chat_message env request session_id chat_request w
            = (Ok {| resp_session_id := session_id;
                     resp_response := PyStr (fallback_text (exn_msg e));
                     resp_sources := [];
                     resp_query := sanitized_content;
                     resp_retrieved_chunks := 0;
                     resp_usage := [] |}, w2)
            /\ fallback_text (exn_msg e) <> []
            /\ In (fallback_text (exn_msg e)) ChatProps.explanatory_texts
        end
    | (Raise _, _) => False
    end).
  { destruct (never_raises_is_rate_limited env request w) as (limited & w1 & El).
    rewrite El. unfold send_chat_message. rewrite (bind_ok _ _ _ _ _ El).
    destruct limited; [reflexivity|]. cbv zeta. fold sanitized_content limit.
    unfold try_except.
    destruct (send_chat_message_try env session_id sanitized_content limit w1)
      as [[r|e] w2] eqn:Et; [reflexivity|].
    split; [|split; [apply fallback_text_nonempty|apply fallback_text_fixed]].
    pose proof (send_chat_message_try_raises _ _ _ _ _ _ _ Et) as [Hc|Hc];
      unfold send_chat_message_except; rewrite Hc; reflexivity. }
  split; [exact Hmain|].
  intros e w' E.
  destruct (is_rate_limited env request w) as [[[|]|e0] w1]; [| |contradiction].
  - congruence.
  - destruct (send_chat_message_try env session_id sanitized_content limit w1)
      as [[r|e1] w2]; [congruence|]. destruct Hmain as [Hmain _]. congruence.
Qed.

(** With every collaborator down the endpoint still answers. *)
Example send_chat_message_all_down :
  fst (send_chat_message env_down {| client_host := None |} (py "s1")
         {| content := py "hello"; context_window := 5 |} empty_world)
  = Ok {| resp_session_id := py "s1";
          resp_response := PyStr (py "I'm sorry, but the request timed out. Please try again.");
          resp_sources := [];
          resp_query := py "hello";
          resp_retrieved_chunks := 0;
          resp_usage := [] |}.
Proof. vm_compute. reflexivity. Qed.

(** The clauses for [ValueError] and [SQLAlchemyError] do raise an
    [HTTPException] when they are reached. *)
Example send_chat_message_except_value_error :
  fst (send_chat_message_except (py "s1") (py "hello")
         (Exn ValueError (py "OPENROUTER_API_KEY environment variable is required"))
         empty_world)
  = Raise (Exn (HTTPException 400)
             (py "Configuration error: OPENROUTER_API_KEY environment variable is required")).
Proof. reflexivity. Qed.

(** ** Admission control *)

Lemma Qltb_lt (a b : Q) : Qltb a b = true <-> (a < b)%Q.
Proof.
  unfold Qltb. rewrite negb_true_iff. split.
  - intros H. apply Qnot_le_lt. intros Hle. apply Qle_bool_iff in Hle. congruence.
  - intros H. destruct (Qle_bool b a) eqn:E; [|reflexivity].
    apply Qle_bool_iff in E. exfalso. apply (Qlt_not_le _ _ H E).
Qed.

Lemma live_requests_In (now : Q) (times : list Q) (t : Q) :
  In t (live_requests now times) <-> In t times /\ (now - t < 60)%Q.
Proof.
  unfold live_requests. rewrite List.filter_In, Qltb_lt. reflexivity.
Qed.

Lemma live_requests_all (now : Q) (times : list Q) :
  Forall (fun t => (now - t < 60)%Q) times -> live_requests now times = times.
Proof.
  induction 1 as [|t times Ht _ IH]; [reflexivity|].
  unfold live_requests in *. cbn [List.filter].
  apply Qltb_lt in Ht. unfold RATE_LIMIT_WINDOW in *. rewrite Ht. now rewrite IH.
Qed.

Lemma live_requests_length (now : Q) (times : list Q) :
  (length (live_requests now times) <= length times)%nat.
Proof. apply List.filter_length_le. Qed.

(** One call of the rate limiter. *)
Lemma is_rate_limited_step (env : Env) (request : Request) (w : World) :
  let client_ip := client_ip_of request in
  let now := clock env (tick w) in
  let live := live_requests now (default [] (request_counts w !! client_ip)) in
  exists w',
    is_rate_limited env request w = (Ok (bool_decide (10 <= length live)%nat), w') /\
    request_counts w' !! client_ip
      = Some (if bool_decide (10 <= length live)%nat then live else live ++ [now]) /\
    (forall other, other <> client_ip ->
                   request_counts w' !! other = request_counts w !! other) /\
    tick w' = S (tick w).
Proof.
  intros client_ip now live.
  unfold is_rate_limited, bind, time_time. cbv beta iota zeta.
  fold client_ip now. cbn [snd emit conversation_contexts request_counts].
  change (request_counts (snd (emit EvClock w))) with (request_counts w).
  fold live. unfold RATE_LIMIT.
  destruct (Nat.leb_spec 10 (length live)) as [H|H].
  - rewrite bool_decide_eq_true_2 by exact H. eexists. split; [reflexivity|].
    cbn [request_counts set_request_counts]. split; [apply lookup_insert_eq|].
    split; [intros other Ho; apply lookup_insert_ne; congruence|apply tick_emit].
  - rewrite bool_decide_eq_false_2 by lia. eexists. split; [reflexivity|].
    cbn [request_counts set_request_counts]. split; [apply lookup_insert_eq|].
    split; [intros other Ho; apply lookup_insert_ne; congruence|apply tick_emit].
Qed.

Lemma successive_calls_add (env : Env) (request : Request) (a b : nat) (w : World) :
  successive_calls env request (a + b) w =
  match successive_calls env request a w with
  | (Ok l1, w1) =>
      match successive_calls env request b w1 with
      | (Ok l2, w2) => (Ok (l1 ++ l2), w2)
      | (Raise e, w2) => (Raise e, w2)
      end
  | (Raise e, w1) => (Raise e, w1)
  end.
Proof.
  revert w. induction a as [|a IH]; intros w.
  - cbn. destruct (successive_calls env request b w) as [[l|e] w2]; reflexivity.
  - cbn [Nat.add successive_calls]. unfold bind at 1 3.
    destruct (is_rate_limited env request w) as [[limited|e] w1]; [|reflexivity].
    unfold bind. rewrite IH.
    destruct (successive_calls env request a w1) as [[l1|e] w2]; [|reflexivity].
    unfold ret.
    destruct (successive_calls env request b w2) as [[l2|e] w3]; reflexivity.
Qed.

Section Burst.
Variable env : Env.
Variable request : Request.
Variable w : World.

Let T (k : nat) : Q := clock env (tick w + k).
Let client_ip := client_ip_of request.

Hypothesis fresh : default [] (request_counts w !! client_ip) = [].
Hypothesis monotone : forall i j, (i <= j <= 10)%nat -> (T i <= T j)%Q.
Hypothesis within : (T 10 - T 0 < 60)%Q.

Lemma burst_live (i k : nat) : (i <= k <= 10)%nat -> (T k - T i < 60)%Q.
Proof.
  intros H. pose proof (monotone 0 i ltac:(lia)). pose proof (monotone k 10 ltac:(lia)).
  lra.
Qed.

(** The first [n] calls after [i] admitted ones are admitted as well, as long
    as [i + n] is at most ten. *)
Lemma burst_admitted (n : nat) :
  forall i wi, (i + n <= 10)%nat ->
    default [] (request_counts wi !! client_ip) = T <$> seq 0 i ->
    tick wi = (tick w + i)%nat ->
    exists w',
      successive_calls env request n wi = (Ok (repeat false n), w') /\
      default [] (request_counts w' !! client_ip) = T <$> seq 0 (i + n) /\
      tick w' = (tick w + (i + n))%nat.
Proof.
  induction n as [|n IH]; intros i wi Hle Hrc Htick.
  - exists wi. rewrite Nat.add_0_r. now split.
  - destruct (is_rate_limited_step env request wi) as (w1 & Ecall & Hrc1 & _ & Htick1).
    fold client_ip in Ecall, Hrc1. rewrite Hrc, Htick in Ecall, Hrc1. fold (T i) in Ecall, Hrc1.
    assert (Hlive : live_requests (T i) (T <$> seq 0 i) = T <$> seq 0 i).
    { apply live_requests_all. apply Forall_fmap, Forall_forall. intros k Hk.
      apply elem_of_seq in Hk. cbn. apply burst_live. lia. }
    rewrite Hlive, length_fmap, length_seq in Ecall, Hrc1.
    rewrite bool_decide_eq_false_2 in Ecall, Hrc1 by lia.
    destruct (IH (S i) w1) as (w' & Erest & Hrc' & Htick').
    + lia.
    + rewrite Hrc1. cbn [default]. rewrite seq_S, fmap_app. reflexivity.
    + rewrite Htick1, Htick. lia.
    + exists w'. cbn [successive_calls repeat]. unfold bind. rewrite Ecall, Erest.
      split; [reflexivity|]. replace (i + S n)%nat with (S i + n)%nat by lia. now split.
Qed.

(** The eleventh call of the burst is rejected and leaves the ten recorded
    timestamps as they are. *)
Lemma burst_rejected (w10 : World) :
  default [] (request_counts w10 !! client_ip) = T <$> seq 0 10 ->
  tick w10 = (tick w + 10)%nat ->
  exists w11,
    is_rate_limited env request w10 = (Ok true, w11) /\
    default [] (request_counts w11 !! client_ip) = T <$> seq 0 10 /\
    tick w11 = (tick w + 11)%nat.
Proof.
  intros Hrc Htick.
  destruct (is_rate_limited_step env request w10) as (w11 & Ecall & Hrc1 & _ & Htick1).
  fold client_ip in Ecall, Hrc1. rewrite Hrc, Htick in Ecall, Hrc1. fold (T 10) in Ecall, Hrc1.
  assert (Hlive : live_requests (T 10) (T <$> seq 0 10) = T <$> seq 0 10).
  { apply live_requests_all. apply Forall_fmap, Forall_forall. intros k Hk.
    apply elem_of_seq in Hk. cbn. apply burst_live. lia. }
  rewrite Hlive in Ecall, Hrc1. cbn [length fmap list_fmap seq] in Ecall, Hrc1.
  rewrite bool_decide_eq_true_2 in Ecall, Hrc1 by lia.
  exists w11. split; [exact Ecall|]. split; [now rewrite Hrc1|lia].
Qed.

(** Once the first timestamp has left the window the next call is admitted. *)
Lemma burst_expired (w11 : World) :
  default [] (request_counts w11 !! client_ip) = T <$> seq 0 10 ->
  tick w11 = (tick w + 11)%nat ->
  (60 <= T 11 - T 0)%Q ->
  exists w12, is_rate_limited env request w11 = (Ok false, w12).
Proof.
  intros Hrc Htick Hlate.
  destruct (is_rate_limited_step env request w11) as (w12 & Ecall & _).
  fold client_ip in Ecall. rewrite Hrc, Htick in Ecall. fold (T 11) in Ecall.
  exists w12. rewrite Ecall. f_equal. f_equal. apply bool_decide_eq_false_2.
  change (T <$> seq 0 10) with (T 0 :: (T <$> seq 1 9)).
  unfold live_requests. cbn [List.filter].
  assert (Hout : Qltb (T 11 - T 0) RATE_LIMIT_WINDOW = false).
  { destruct (Qltb (T 11 - T 0) RATE_LIMIT_WINDOW) eqn:E; [|reflexivity].
    apply Qltb_lt in E. unfold RATE_LIMIT_WINDOW in E. lra. }
  rewrite Hout.
  pose proof (List.filter_length_le
                (fun req_time => Qltb (T 11 - req_time) RATE_LIMIT_WINDOW)
                (T <$> seq 1 9)) as Hlen.
  rewrite length_fmap, length_seq in Hlen. lia.
Qed.

Lemma burst_twelve :
  (60 <= T 11 - T 0)%Q ->
  fst (successive_calls env request 12 w) = Ok (repeat false 10 ++ [true; false]).
Proof.
  intros Hlate.
  destruct (burst_admitted 10 0 w) as (w10 & E10 & Hrc10 & Ht10).
  { lia. } { rewrite fresh. reflexivity. } { lia. }
  destruct (burst_rejected w10 Hrc10 Ht10) as (w11 & E11 & Hrc11 & Ht11).
  destruct (burst_expired w11 Hrc11 Ht11 Hlate) as (w12 & E12).
  change 12%nat with (10 + 2)%nat. rewrite successive_calls_add, E10.
  cbn [successive_calls]. unfold bind, ret. rewrite E11, E12. reflexivity.
Qed.

End Burst.

(** C4: the origin of a request is the host of its client, and ["unknown"]
    for a request without client.  A request is rejected, and its timestamp
    not recorded, exactly when ten or more timestamps recorded for its origin
    are less than 60 seconds old; otherwise it is admitted and its timestamp
    recorded after the live ones; what is recorded for every other origin is
    untouched, so that a request from one host never changes the decision for
    a request from another.  Hence, for an origin with nothing recorded, ten
    requests inside one 60-second window are admitted, the eleventh inside
    that window is rejected, and a request that comes 60 seconds or more
    after the first is admitted again.  A rejected request leaves either
    endpoint as the [HTTPException] 429. *)
Theorem rate_limit_sliding_window (env : Env) (request : Request) (w : World) :
  let client_ip :=
    match client_host request with
    | Some host => host
    | None => py "unknown"
    end in
  let now := clock env (tick w) in
  let recorded := default [] (request_counts w !! client_ip) in
  let live := live_requests now recorded in
  (forall t, In t live <-> In t recorded /\ (now - t < 60)%Q) /\
  (exists w',
      is_rate_limited env request w = (Ok (bool_decide (10 <= length live)%nat), w') /\
      request_counts w' !! client_ip
        = Some (if bool_decide (10 <= length live)%nat then live else live ++ [now]) /\
      (forall other, other <> client_ip ->
                     request_counts w' !! other = request_counts w !! other)) /\
  (recorded = [] ->
   (forall i j, (i <= j <= 10)%nat ->
                (clock env (tick w + i) <= clock env (tick w + j))%Q) ->
   (clock env (tick w + 10) - clock env (tick w + 0) < 60)%Q ->
   (60 <= clock env (tick w + 11) - clock env (tick w + 0))%Q ->
   fst (successive_calls env request 12 w) = Ok (repeat false 10 ++ [true; false])) /\
  (forall w1 session_id chat_request,
      is_rate_limited env request w = (Ok true, w1) ->
      send_chat_message env request session_id chat_request w
        = (Raise rate_limit_exceeded, w1) /\
      ask_from_selection env request chat_request w = (Raise rate_limit_exceeded, w1)) /\
  (forall host other_host other_request w1 limited,
      client_host request = Some host ->
      client_host other_request = Some other_host ->
      other_host <> host ->
      is_rate_limited env other_request w = (Ok limited, w1) ->
      request_counts w1 !! host = request_counts w !! host /\
      exists w2,
        is_rate_limited env request w1
        = (Ok (bool_decide
                 (10 <= length (live_requests (clock env (tick w1)) recorded))%nat), w2)).
Proof.
  intros client_ip now recorded live.
  change client_ip with (client_ip_of request) in *.
  split; [|split; [|split; [|split]]].
  - intros t. apply live_requests_In.
  - destruct (is_rate_limited_step env request w) as (w' & E & Hrc & Hother & _).
    exists w'. auto.
  - intros Hfresh Hmono Hin Hlate. now apply burst_twelve.
  - intros w1 session_id chat_request E.
    unfold send_chat_message, ask_from_selection.
    rewrite !(bind_ok _ _ _ _ _ E). split; reflexivity.
  - intros host other_host other_request w1 limited Hh Ho Hne E.
    destruct (is_rate_limited_step env other_request w) as (w1' & E' & _ & Hother & _).
    rewrite E in E'. inversion E'; subst w1'.
    assert (Hkeep : request_counts w1 !! host = request_counts w !! host).
    { apply Hother. unfold client_ip_of. rewrite Ho. cbn. congruence. }
    split; [exact Hkeep|].
    destruct (is_rate_limited_step env request w1) as (w2 & E2 & _).
    exists w2. rewrite E2. unfold recorded, client_ip_of. rewrite Hh. cbn.
    now rewrite Hkeep.
Qed.

(** The theorem at a client whose first eleven requests come one second
    apart and whose twelfth comes 71 seconds after the first. *)
Lemma rate_limit_sliding_window_witness :
  fst (successive_calls env_burst local_request 12 empty_world)
  = Ok (repeat false 10 ++ [true; false]).
Proof.
  pose proof (rate_limit_sliding_window env_burst local_request empty_world) as H.
  cbv zeta in H. destruct H as (_ & _ & H & _). apply H.
  - reflexivity.
  - intros i j Hij. cbn [env_burst clock tick empty_world trace length Nat.add].
    destruct (Nat.ltb_spec i 11) as [_|Hi]; [|lia].
    destruct (Nat.ltb_spec j 11) as [_|Hj]; [|lia].
    rewrite <- Zle_Qle. lia.
  - vm_compute. reflexivity.
  - vm_compute. discriminate.
Defined.

(** The same run, evaluated. *)
Example rate_limit_run :
  fst (successive_calls env_burst local_request 12 empty_world)
  = Ok [false; false; false; false; false; false; false; false; false; false; true; false].
Proof. vm_compute. reflexivity. Qed.

(** ** The conversation store *)

Section StoreFrames.
Variable env : Env.

Lemma db_op_store (ev : Event) : respects same_store (db_op env ev).
Proof. intros w r w' E. inversion E; subst. now split. Qed.

Lemma get_db_with_retry_loop_store (max_retries : nat) (attempts : list nat) :
  respects same_store (get_db_with_retry_loop env max_retries attempts).
Proof.
  induction attempts as [|attempt rest IH]; cbn [get_db_with_retry_loop].
  - frame_bind.
  - frame_bind.
    + frame_bind; [apply db_op_store|frame_bind].
    + destruct (_ =? _)%nat; [frame_bind|exact IH].
Qed.

Lemma db_query_store (db : option Session) (u : N) :
  respects same_store (db_query env db u).
Proof.
  unfold db_query. destruct db; [|frame_bind].
  frame_bind; [apply db_op_store|].
  intros w r w' E. inversion E; subst. now split.
Qed.

Lemma from_db_try_store (session_id : list N) :
  respects same_store (get_conversation_context_from_db_try env session_id).
Proof.
  unfold get_conversation_context_from_db_try. frame_bind.
  - apply get_db_with_retry_loop_store.
  - destruct (uuid_parse env session_id); [|frame_bind].
    frame_bind; [apply db_query_store|frame_bind].
Qed.

End StoreFrames.

Lemma order_by_created_at_nil : order_by_created_at [] = [].
Proof. reflexivity. Qed.

Lemma filter_session_none (u : N) (rows : list ChatMessage) :
  Forall (fun r => row_session_id r <> u) rows ->
  filter (fun r => row_session_id r = u) rows = [].
Proof.
  induction 1 as [|r rows Hr _ IH]; [reflexivity|].
  rewrite filter_cons_False by exact Hr. exact IH.
Qed.

(** A session without rows reads as the empty list from the store. *)
Lemma from_db_try_no_rows (env : Env) (session_id : list N) (w w' : World)
    (h : list Message) :
  (forall u, uuid_parse env session_id = Some u ->
             Forall (fun r => row_session_id r <> u) (chat_messages w)) ->
  get_conversation_context_from_db_try env session_id w = (Ok h, w') -> h = [].
Proof.
  intros Hrows E. unfold get_conversation_context_from_db_try, bind in E.
  destruct (get_db_with_retry env w) as [[db|e] w1] eqn:Edb; [|discriminate].
  pose proof (get_db_with_retry_loop_store env _ _ _ _ _ Edb) as [_ Hm].
  destruct (uuid_parse env session_id) as [u|]; [|now inversion E].
  specialize (Hrows u eq_refl). rewrite <- Hm in Hrows.
  unfold db_query in E. destruct db; [|discriminate]. unfold bind, db_op in E.
  destruct (db_fault env (tick w1)); [discriminate|]. cbn in E.
  rewrite (filter_session_none u _ Hrows) in E. now inversion E.
Qed.

Lemma from_db_loop_no_messages (env : Env) (session_id : list N) (attempts : list nat) :
  forall w,
    default [] (conversation_contexts w !! session_id) = [] ->
    (forall u, uuid_parse env session_id = Some u ->
               Forall (fun r => row_session_id r <> u) (chat_messages w)) ->
    exists r w',
      get_conversation_context_from_db_loop env session_id attempts w = (Ok r, w') /\
      (r = None \/ r = Some []) /\
      default [] (conversation_contexts w' !! session_id) = [].
Proof.
  induction attempts as [|attempt rest IH]; intros w Hc Hrows;
    cbn [get_conversation_context_from_db_loop].
  - exists None, w. auto.
  - unfold try_except, bind.
    destruct (get_conversation_context_from_db_try env session_id w) as [[h|e] w1] eqn:Et.
    + pose proof (from_db_try_no_rows _ _ _ _ _ Hrows Et) as ->.
      pose proof (from_db_try_store _ _ _ _ _ Et) as [Hcc _].
      exists (Some []), w1. rewrite Hcc. auto.
    + pose proof (from_db_try_store _ _ _ _ _ Et) as [Hcc Hm].
      destruct (attempt =? 2)%nat.
      * unfold contexts_setdefault, ret. rewrite Hcc, Hc.
        eexists _, _. split; [reflexivity|]. split; [now right|].
        cbn. now rewrite lookup_insert_eq.
      * apply IH; [now rewrite Hcc|]. now rewrite Hm.
Qed.

(** C10: for a session whose cache holds no message (nothing was ever
    appended to it in this process) and for which the store holds no row --
    in particular for every session identifier that is not a UUID -- reading
    the history returns the empty list, however the store behaves. *)
Theorem get_conversation_context_empty (env : Env) (session_id : list N) (w : World) :
  default [] (conversation_contexts w !! session_id) = [] ->
  (forall u, uuid_parse env session_id = Some u ->
             Forall (fun r => row_session_id r <> u) (chat_messages w)) ->
  exists w', get_conversation_context env session_id w = (Ok [], w').
Proof.
  intros Hc Hrows.
  destruct (from_db_loop_no_messages env session_id (seq 0 3) w Hc Hrows)
    as (r & w1 & E & Hr & Hc1).
  unfold get_conversation_context, get_conversation_context_from_db, bind. rewrite E.
  destruct Hr as [-> | ->]; unfold contexts_setdefault; rewrite Hc1; eexists; reflexivity.
Qed.

(** The theorem at a session identifier that is not a UUID, with the store
    unreachable, and at one that is, with the store healthy and empty. *)
Lemma get_conversation_context_empty_witness :
  (exists w', get_conversation_context env_down (py "session_12345678") empty_world
              = (Ok [], w')) /\
  (exists w', get_conversation_context (env_up []) sample_uuid empty_world = (Ok [], w')).
Proof.
  split.
  - apply (get_conversation_context_empty env_down (py "session_12345678") empty_world).
    + reflexivity.
    + intros u Hu. constructor.
  - apply (get_conversation_context_empty (env_up []) sample_uuid empty_world).
    + reflexivity.
    + intros u Hu. constructor.
Defined.

Lemma contexts_append_cached (env : Env) (session_id role : list N) (content : pyval)
    (w : World) :
  exists w',
    contexts_append env session_id role content w = (Ok tt, w') /\
    cached session_id w' = cached session_id w ++ [(role, content)] /\
    chat_messages w' = chat_messages w.
Proof.
  unfold contexts_append, bind, contexts_setdefault, time_time. cbn.
  eexists. split; [reflexivity|]. split; [|reflexivity].
  unfold cached. cbn. rewrite lookup_insert_eq. cbn.
  rewrite fmap_app. reflexivity.
Qed.

Lemma contexts_setdefault_cached (session_id : list N) (w : World) :
  exists w',
    contexts_setdefault session_id w
    = (Ok (default [] (conversation_contexts w !! session_id)), w') /\
    cached session_id w' = cached session_id w /\
    chat_messages w' = chat_messages w.
Proof.
  unfold contexts_setdefault. eexists. split; [reflexivity|]. split; [|reflexivity].
  unfold cached. cbn. now rewrite lookup_insert_eq.
Qed.

Lemma same_store_cached (session_id : list N) (w w' : World) :
  same_store w w' -> cached session_id w' = cached session_id w.
Proof. intros [H _]. unfold cached. now rewrite H. Qed.

(** *** Only an append to a session puts messages in its cache *)

Section OtherSessions.
Variable env : Env.
Variable session_id : list N.

Lemma same_cache_refl (w : World) : same_cache session_id w w.
Proof. reflexivity. Qed.

Lemma same_cache_trans (w1 w2 w3 : World) :
  same_cache session_id w1 w2 -> same_cache session_id w2 w3 ->
  same_cache session_id w1 w3.
Proof. unfold same_cache. congruence. Qed.

Lemma same_cache_of_contexts {A} (m : M A) :
  (forall w r w', m w = (r, w') -> conversation_contexts w' = conversation_contexts w) ->
  respects (same_cache session_id) m.
Proof. intros H w r w' E. unfold same_cache. now rewrite (H _ _ _ E). Qed.

#[local] Hint Resolve same_cache_refl same_cache_trans : frames.

Lemma contexts_setdefault_cache (other : list N) :
  respects (same_cache session_id) (contexts_setdefault other).
Proof.
  intros w r w' E. inversion E; subst. unfold same_cache. cbn.
  destruct (decide (other = session_id)) as [->|Hne].
  - now rewrite lookup_insert_eq.
  - now rewrite lookup_insert_ne.
Qed.

Lemma contexts_append_cache (other role : list N) (content : pyval) :
  other <> session_id ->
  respects (same_cache session_id) (contexts_append env other role content).
Proof.
  intros Hne. unfold contexts_append.
  frame_bind; [apply contexts_setdefault_cache|].
  frame_bind; [apply same_cache_of_contexts; intros w r w' E; now inversion E|].
  intros w r w' E. inversion E; subst. unfold same_cache. cbn.
  now rewrite lookup_insert_ne.
Qed.

Lemma get_db_with_retry_cache : respects (same_cache session_id) (get_db_with_retry env).
Proof.
  apply same_cache_of_contexts. intros w r w' E.
  now destruct (get_db_with_retry_loop_store env _ _ _ _ _ E).
Qed.

Lemma get_conversation_context_cache (other : list N) :
  respects (same_cache session_id) (get_conversation_context env other).
Proof.
  assert (Htry : respects (same_cache session_id)
                   (get_conversation_context_from_db_try env other)).
  { apply same_cache_of_contexts. intros w r w' E.
    now destruct (from_db_try_store env _ _ _ _ E). }
  assert (Hloop : forall attempts, respects (same_cache session_id)
                    (get_conversation_context_from_db_loop env other attempts)).
  { induction attempts as [|attempt rest IH];
      cbn [get_conversation_context_from_db_loop]; [frame_bind|].
    frame_bind.
    - frame_bind; [exact Htry|frame_bind].
    - destruct (_ =? _)%nat; [|exact IH].
      frame_bind; [apply contexts_setdefault_cache|frame_bind]. }
  unfold get_conversation_context, get_conversation_context_from_db.
  frame_bind; [apply Hloop|].
  destruct a as [[|m l]|]; try apply contexts_setdefault_cache. frame_bind.
Qed.

Lemma add_message_to_context_cache (other role : list N) (content : pyval)
    (sources : option (list Source)) :
  other <> session_id ->
  respects (same_cache session_id) (add_message_to_context env other role content sources).
Proof.
  intros Hne.
  assert (Htry : respects (same_cache session_id)
                   (add_message_to_context_in_db_try env other role content sources)).
  { unfold add_message_to_context_in_db_try.
    frame_bind; [apply get_db_with_retry_cache|].
    destruct (uuid_parse env other); [|frame_bind].
    apply same_cache_of_contexts. intros w r w' E. unfold db_add_commit in E.
    destruct a; [|now inversion E]. unfold db_op in E.
    destruct (db_fault env (tick w)); now inversion E. }
  assert (Hloop : forall attempts, respects (same_cache session_id)
                    (add_message_to_context_in_db_loop env other role content
                       sources attempts)).
  { induction attempts as [|attempt rest IH];
      cbn [add_message_to_context_in_db_loop]; [frame_bind|].
    intros w r w' E.
    destruct (add_message_to_context_in_db_try env other role content sources w)
      as [[[]|e] w1] eqn:Et.
    - inversion E; subst. eapply Htry; eauto.
    - eapply same_cache_trans; [eapply Htry; eauto|].
      revert E. apply respects_bind; eauto with frames.
      destruct (_ =? _)%nat; [now apply contexts_append_cache|frame_bind]. }
  unfold add_message_to_context, add_message_to_context_in_db.
  frame_bind; [apply Hloop|]. now apply contexts_append_cache.
Qed.

End OtherSessions.

(** *** The store reachable, the session identifier not a UUID *)

Section NotUuid.
Variable env : Env.
Variable session_id : list N.
Hypothesis up : forall n, db_fault env n = None.
Hypothesis not_uuid : uuid_parse env session_id = None.

Lemma get_db_with_retry_up (w : World) :
  exists w', get_db_with_retry env w = (Ok (Some SessionLocal), w') /\ same_store w w'.
Proof.
  unfold get_db_with_retry. cbn [seq get_db_with_retry_loop].
  unfold try_except, bind, db_op, ret. rewrite up. eexists. split; [reflexivity|].
  now split.
Qed.

Lemma add_message_to_context_not_uuid (role : list N) (content : pyval)
    (sources : option (list Source)) (w : World) :
  exists w',
    add_message_to_context env session_id role content sources w = (Ok tt, w') /\
    cached session_id w' = cached session_id w ++ [(role, content)].
Proof.
  unfold add_message_to_context, add_message_to_context_in_db.
  cbn [seq add_message_to_context_in_db_loop].
  destruct (get_db_with_retry_up w) as (w0 & E0 & S0).
  unfold add_message_to_context_in_db_try. unfold bind at 1.
  rewrite (bind_ok _ _ _ _ _ E0), not_uuid. unfold ret at 1.
  destruct (contexts_append_cached env session_id role content w0) as (w1 & E1 & C1 & _).
  exists w1. split; [exact E1|]. now rewrite C1, (same_store_cached _ _ _ S0).
Qed.

Lemma append_all_not_uuid (msgs : list (list N * pyval)) :
  forall w, exists w',
    append_all env session_id msgs w = (Ok tt, w') /\
    cached session_id w' = cached session_id w ++ msgs.
Proof.
  induction msgs as [|[role content] msgs IH]; intros w.
  - exists w. cbn. now rewrite app_nil_r.
  - destruct (add_message_to_context_not_uuid role content None w) as (w1 & E1 & C1).
    destruct (IH w1) as (w2 & E2 & C2). exists w2.
    cbn [append_all]. rewrite (bind_ok _ _ _ _ _ E1). split; [exact E2|].
    rewrite C2, C1, <- app_assoc. reflexivity.
Qed.

Lemma get_conversation_context_not_uuid (w : World) :
  exists w',
    get_conversation_context env session_id w
    = (Ok (default [] (conversation_contexts w !! session_id)), w').
Proof.
  unfold get_conversation_context, get_conversation_context_from_db.
  cbn [seq get_conversation_context_from_db_loop].
  destruct (get_db_with_retry_up w) as (w0 & E0 & [S0 _]).
  unfold get_conversation_context_from_db_try, try_except. unfold bind at 1 2 3.
  rewrite E0, not_uuid. unfold ret at 1 2. unfold contexts_setdefault. rewrite S0.
  eexists. reflexivity.
Qed.

(** Read-after-write on this path: the history is the appended messages, in
    order, once each. *)
Lemma history_exact_not_uuid (msgs : list (list N * pyval)) (w : World) :
  cached session_id w = [] ->
  exists l w',
    bind (append_all env session_id msgs)
      (fun _ => get_conversation_context env session_id) w = (Ok l, w') /\
    role_content <$> l = msgs.
Proof.
  intros Hc. destruct (append_all_not_uuid msgs w) as (w1 & E1 & C1).
  destruct (get_conversation_context_not_uuid w1) as (w2 & E2).
  eexists _, w2. rewrite (bind_ok _ _ _ _ _ E1). split; [exact E2|].
  fold (cached session_id w1). now rewrite C1, Hc.
Qed.

End NotUuid.

(** *** The store healthy, the session identifier a UUID *)

Lemma insert_by_created_at_last (r : ChatMessage) (rows : list ChatMessage) :
  Forall (fun a => created_le (row_created_at a) (row_created_at r) = true) rows ->
  insert_by_created_at r rows = rows ++ [r].
Proof.
  induction 1 as [|a rows Ha _ IH]; [reflexivity|].
  cbn [insert_by_created_at]. rewrite Ha, andb_false_r, IH. reflexivity.
Qed.

Lemma order_by_created_at_snoc (rows : list ChatMessage) (r : ChatMessage) :
  order_by_created_at (rows ++ [r])
  = insert_by_created_at r (order_by_created_at rows).
Proof. unfold order_by_created_at. now rewrite foldl_app. Qed.

Section HealthyUuid.
Variable env : Env.
Variable session_id : list N.
Variable u : N.
Hypothesis up : forall n, db_fault env n = None.
Hypothesis is_uuid : uuid_parse env session_id = Some u.
Hypothesis steady : forall i j, (i <= j)%nat -> (db_now env i <= db_now env j)%Q.

(** The rows of the session, in the order of the table. *)
Let rows_of (w : World) : list ChatMessage :=
  filter (fun r => row_session_id r = u) (chat_messages w).

(** The rows of the session are in the order of their timestamps, none of
    which is later than the store's clock. *)
Let in_order (w : World) : Prop :=
  order_by_created_at (rows_of w) = rows_of w /\
  Forall (fun r => exists x, row_created_at r = Some x /\ (x <= db_now env (tick w))%Q)
         (rows_of w).

Lemma add_message_to_context_uuid (role : list N) (content : pyval)
    (sources : option (list Source)) (w : World) :
  in_order w ->
  exists w',
    add_message_to_context env session_id role content sources w = (Ok tt, w') /\
    row_role_content <$> rows_of w' = (row_role_content <$> rows_of w) ++ [(role, content)] /\
    in_order w'.
Proof.
  intros [Hsorted Hbound].
  unfold add_message_to_context, add_message_to_context_in_db.
  cbn [seq add_message_to_context_in_db_loop].
  unfold add_message_to_context_in_db_try, get_db_with_retry.
  cbn [seq get_db_with_retry_loop].
  unfold bind at 1. unfold bind at 1. unfold try_except at 1. unfold bind at 1.
  unfold db_op at 1. rewrite up. unfold ret at 1. rewrite is_uuid.
  unfold db_add_commit, db_op. rewrite tick_emit, up.
  unfold contexts_append, contexts_setdefault, bind, time_time. cbn.
  eexists. split; [reflexivity|].
  unfold in_order, rows_of. cbn [chat_messages set_chat_messages set_conversation_contexts].
  cbn [emit snd chat_messages].
  rewrite filter_app, filter_cons_True by reflexivity. rewrite filter_nil.
  fold (rows_of w). split; [|split].
  - rewrite fmap_app. reflexivity.
  - rewrite order_by_created_at_snoc, Hsorted. apply insert_by_created_at_last.
    eapply Forall_impl; [exact Hbound|]. intros a (x & -> & Hx). cbn.
    apply Qle_bool_iff. eapply Qle_trans; [exact Hx|]. apply steady. lia.
  - apply Forall_app. split.
    + eapply Forall_impl; [exact Hbound|]. intros a (x & Ha & Hx). exists x.
      split; [exact Ha|]. eapply Qle_trans; [exact Hx|]. apply steady.
      unfold tick. cbn. rewrite !length_app. lia.
    + constructor; [|constructor]. eexists. split; [reflexivity|]. apply steady.
      unfold tick. cbn. rewrite !length_app. cbn. lia.
Qed.

Lemma append_all_uuid (msgs : list (list N * pyval)) :
  forall w, in_order w ->
    exists w',
      append_all env session_id msgs w = (Ok tt, w') /\
      row_role_content <$> rows_of w' = (row_role_content <$> rows_of w) ++ msgs /\
      (msgs = [] -> w' = w) /\
      in_order w'.
Proof.
  induction msgs as [|[role content] msgs IH]; intros w Hw.
  - exists w. cbn. now rewrite app_nil_r.
  - destruct (add_message_to_context_uuid role content None w Hw) as (w1 & E1 & R1 & H1).
    destruct (IH w1 H1) as (w2 & E2 & R2 & _ & H2). exists w2.
    cbn [append_all]. rewrite (bind_ok _ _ _ _ _ E1). split; [exact E2|].
    split; [|split; [discriminate|exact H2]].
    rewrite R2, R1, <- app_assoc. reflexivity.
Qed.

Lemma get_conversation_context_uuid (w : World) :
  in_order w ->
  exists l w',
    get_conversation_context env session_id w = (Ok l, w') /\
    (rows_of w <> [] -> role_content <$> l = row_role_content <$> rows_of w) /\
    (rows_of w = [] -> l = default [] (conversation_contexts w !! session_id)).
Proof.
  intros [Hsorted _].
  unfold get_conversation_context, get_conversation_context_from_db.
  cbn [seq get_conversation_context_from_db_loop].
  unfold get_conversation_context_from_db_try, get_db_with_retry.
  cbn [seq get_db_with_retry_loop].
  unfold try_except at 1. unfold bind at 1 2 3. unfold try_except at 1. unfold bind at 1.
  unfold db_op at 1. rewrite up. unfold ret at 1. rewrite is_uuid.
  unfold db_query, bind, db_op. rewrite tick_emit, up. cbn [emit snd chat_messages].
  fold (rows_of w). rewrite Hsorted. unfold ret.
  destruct (rows_of w) as [|r rows] eqn:Er.
  - cbn [fmap list_fmap]. unfold contexts_setdefault.
    cbn [conversation_contexts]. eexists _, _. split; [reflexivity|].
    split; [congruence|reflexivity].
  - cbn [fmap list_fmap]. eexists _, _. split; [reflexivity|].
    split; [|discriminate]. intros _. cbn. f_equal.
    rewrite <- list_fmap_compose. reflexivity.
Qed.

(** Read-after-write on the healthy path: the history is read back from the
    store and holds the appended messages, in order, once each. *)
Lemma history_exact_uuid (msgs : list (list N * pyval)) (w : World) :
  rows_of w = [] ->
  cached session_id w = [] ->
  exists l w',
    bind (append_all env session_id msgs)
      (fun _ => get_conversation_context env session_id) w = (Ok l, w') /\
    role_content <$> l = msgs.
Proof.
  intros Hrows Hc.
  assert (Hw : in_order w).
  { unfold in_order. rewrite Hrows. split; [reflexivity|constructor]. }
  destruct (append_all_uuid msgs w Hw) as (w1 & E1 & R1 & Hnil & H1).
  destruct (get_conversation_context_uuid w1 H1) as (l & w2 & E2 & Hne & He).
  exists l, w2. rewrite (bind_ok _ _ _ _ _ E1). split; [exact E2|].
  rewrite Hrows in R1. cbn in R1.
  destruct msgs as [|m msgs].
  - rewrite (Hnil eq_refl) in *. rewrite (He Hrows). exact Hc.
  - rewrite Hne; [exact R1|]. intros Hr. rewrite Hr in R1. discriminate.
Qed.

End HealthyUuid.

(** *** The store unreachable: every operation on it raises *)

Section Degraded.
Variable env : Env.
Hypothesis down : forall n, db_fault env n <> None.

Lemma db_op_down (ev : Event) (w : World) :
  exists e, db_op env ev w = (Raise e, snd (emit ev w)).
Proof.
  unfold db_op. destruct (db_fault env (tick w)) as [e|] eqn:E.
  - now exists e.
  - exfalso. now apply (down (tick w)).
Qed.

Lemma get_db_with_retry_down (w : World) :
  exists e w', get_db_with_retry env w = (Raise e, w') /\ same_store w w'.
Proof.
  destruct (get_db_with_retry env w) as [[db|e] w'] eqn:E.
  - exfalso. unfold get_db_with_retry in E. cbn in E. unfold try_except, bind in E.
    destruct (db_op_down EvDbConnect w) as (e0 & E0). rewrite E0 in E.
    destruct (db_op_down EvDbConnect (snd (emit EvDbConnect w))) as (e1 & E1).
    rewrite E1 in E.
    destruct (db_op_down EvDbConnect
                (snd (emit EvDbConnect (snd (emit EvDbConnect w))))) as (e2 & E2).
    rewrite E2 in E. discriminate.
  - exists e, w'. split; [reflexivity|].
    eapply get_db_with_retry_loop_store; eauto.
Qed.

Lemma add_try_down (session_id role : list N) (content : pyval)
    (sources : option (list Source)) (w : World) :
  exists e w',
    add_message_to_context_in_db_try env session_id role content sources w = (Raise e, w')
    /\ same_store w w'.
Proof.
  destruct (get_db_with_retry_down w) as (e & w' & E & Hs).
  exists e, w'. split; [|exact Hs].
  unfold add_message_to_context_in_db_try. now rewrite (bind_raise _ _ _ _ _ E).
Qed.

Lemma read_try_down (session_id : list N) (w : World) :
  exists e w',
    get_conversation_context_from_db_try env session_id w = (Raise e, w')
    /\ same_store w w'.
Proof.
  destruct (get_db_with_retry_down w) as (e & w' & E & Hs).
  exists e, w'. split; [|exact Hs].
  unfold get_conversation_context_from_db_try. now rewrite (bind_raise _ _ _ _ _ E).
Qed.

Lemma in_db_loop_down (session_id role : list N) (content : pyval)
    (sources : option (list Source)) (attempts : list nat) :
  forall w, exists w',
    add_message_to_context_in_db_loop env session_id role content sources attempts w
    = (Ok tt, w') /\
    cached session_id w' =
    cached session_id w
    ++ flat_map (fun attempt => if (attempt =? 2)%nat then [(role, content)] else [])
         attempts.
Proof.
  induction attempts as [|attempt rest IH]; intros w;
    cbn [add_message_to_context_in_db_loop flat_map].
  - exists w. now rewrite app_nil_r.
  - destruct (add_try_down session_id role content sources w) as (e & w0 & E0 & S0).
    rewrite E0. apply same_store_cached with (session_id := session_id) in S0.
    destruct (attempt =? 2)%nat.
    + destruct (contexts_append_cached env session_id role content w0)
        as (w1 & E1 & C1 & _).
      destruct (IH w1) as (w2 & E2 & C2). exists w2.
      rewrite (bind_ok _ _ _ _ _ E1). split; [exact E2|].
      rewrite C2, C1, S0, <- app_assoc. reflexivity.
    + destruct (IH w0) as (w2 & E2 & C2). exists w2.
      unfold bind, ret. split; [exact E2|]. now rewrite C2, S0.
Qed.

(** After three failed attempts the message goes to the cache, and
    [add_message_to_context] then appends it once more. *)
Lemma add_message_to_context_down (session_id role : list N) (content : pyval)
    (sources : option (list Source)) (w : World) :
  exists w',
    add_message_to_context env session_id role content sources w = (Ok tt, w') /\
    cached session_id w' = cached session_id w ++ [(role, content); (role, content)].
Proof.
  unfold add_message_to_context, add_message_to_context_in_db.
  destruct (in_db_loop_down session_id role content sources (seq 0 3) w)
    as (w1 & E1 & C1).
  destruct (contexts_append_cached env session_id role content w1) as (w2 & E2 & C2 & _).
  exists w2. rewrite (bind_ok _ _ _ _ _ E1). split; [exact E2|].
  rewrite C2, C1. cbn. rewrite <- app_assoc. reflexivity.
Qed.

Lemma append_all_down (session_id : list N) (msgs : list (list N * pyval)) :
  forall w, exists w',
    append_all env session_id msgs w = (Ok tt, w') /\
    cached session_id w' = cached session_id w ++ twice msgs.
Proof.
  induction msgs as [|[role content] msgs IH]; intros w.
  - exists w. cbn. now rewrite app_nil_r.
  - destruct (add_message_to_context_down session_id role content None w)
      as (w1 & E1 & C1).
    destruct (IH w1) as (w2 & E2 & C2). exists w2.
    cbn [append_all]. rewrite (bind_ok _ _ _ _ _ E1). split; [exact E2|].
    rewrite C2, C1, <- app_assoc. reflexivity.
Qed.

Lemma from_db_loop_down (session_id : list N) (attempts : list nat) :
  forall w, exists r w',
    get_conversation_context_from_db_loop env session_id attempts w = (Ok r, w') /\
    default [] (conversation_contexts w' !! session_id)
    = default [] (conversation_contexts w !! session_id) /\
    (r = None \/ r = Some (default [] (conversation_contexts w !! session_id))).
Proof.
  induction attempts as [|attempt rest IH]; intros w;
    cbn [get_conversation_context_from_db_loop].
  - exists None, w. auto.
  - destruct (read_try_down session_id w) as (e & w0 & E0 & [S0 _]).
    unfold try_except. rewrite (bind_raise _ _ _ _ _ E0).
    destruct (attempt =? 2)%nat.
    + unfold bind, contexts_setdefault, ret. rewrite S0. eexists _, _.
      split; [reflexivity|]. split; [|now right]. cbn. now rewrite lookup_insert_eq.
    + destruct (IH w0) as (r & w1 & E1 & C1 & Hr). exists r, w1.
      rewrite S0 in C1, Hr. auto.
Qed.

Lemma get_conversation_context_down (session_id : list N) (w : World) :
  exists w',
    get_conversation_context env session_id w
    = (Ok (default [] (conversation_contexts w !! session_id)), w').
Proof.
  unfold get_conversation_context, get_conversation_context_from_db.
  destruct (from_db_loop_down session_id (seq 0 3) w) as (r & w1 & E1 & C1 & Hr).
  rewrite (bind_ok _ _ _ _ _ E1).
  destruct Hr as [-> | ->].
  - unfold contexts_setdefault. rewrite C1. eexists. reflexivity.
  - destruct (default [] (conversation_contexts w !! session_id)) as [|m l] eqn:El.
    + unfold contexts_setdefault. rewrite C1. eexists. reflexivity.
    + eexists. reflexivity.
Qed.

(** With the store unreachable, the history read after appending [msgs] to a
    session with an empty cache holds every message twice. *)
Lemma degraded_history_twice (session_id : list N) (msgs : list (list N * pyval))
    (w : World) :
  cached session_id w = [] ->
  exists l w',
    bind (append_all env session_id msgs)
      (fun _ => get_conversation_context env session_id) w = (Ok l, w') /\
    role_content <$> l = twice msgs.
Proof.
  intros Hc. destruct (append_all_down session_id msgs w) as (w1 & E1 & C1).
  destruct (get_conversation_context_down session_id w1) as (w2 & E2).
  eexists _, w2. rewrite (bind_ok _ _ _ _ _ E1). split; [exact E2|].
  fold (cached session_id w1). now rewrite C1, Hc.
Qed.

End Degraded.

(** C2, at the failing input: with the store unreachable, one append to the
    session [s1] followed by a read of its history gives the message twice,
    not once. *)
Theorem degraded_append_read_twice :
  fst (bind (add_message_to_context env_down (py "s1") (py "user") (PyStr (py "hi")) None)
         (fun _ => get_conversation_context env_down (py "s1")) empty_world)
  = Ok [{| msg_role := py "user"; msg_content := PyStr (py "hi");
           msg_timestamp := Some (inject_Z 9) |};
        {| msg_role := py "user"; msg_content := PyStr (py "hi");
           msg_timestamp := Some (inject_Z 10) |}].
Proof. vm_compute. reflexivity. Qed.

(** The same with a store that is reachable and refuses the commits, for a
    session identifier that is a UUID. *)
Example refused_commit_read_twice :
  fst (bind (append_all env_commit_refused sample_uuid [(py "user", PyStr (py "hi"))])
         (fun _ => get_conversation_context env_commit_refused sample_uuid) empty_world)
  = Ok [{| msg_role := py "user"; msg_content := PyStr (py "hi");
           msg_timestamp := Some (inject_Z 6) |};
        {| msg_role := py "user"; msg_content := PyStr (py "hi");
           msg_timestamp := Some (inject_Z 7) |}].
Proof. vm_compute. reflexivity. Qed.

(** With the store healthy the history is read back from it, once each. *)
Example healthy_append_read_once :
  role_content <$>
    match fst (bind (append_all (env_up []) sample_uuid
                       [(py "user", PyStr (py "hi")); (py "assistant", PyStr (py "hello"))])
                 (fun _ => get_conversation_context (env_up []) sample_uuid) empty_world) with
    | Ok l => l
    | Raise _ => []
    end
  = [(py "user", PyStr (py "hi")); (py "assistant", PyStr (py "hello"))].
Proof. vm_compute. reflexivity. Qed.

(** A store that fails during the second of two appends: the read prefers
    the store, which holds the first message only. *)
Example flaky_store_read_partial :
  role_content <$>
    match fst (bind (append_all env_flaky sample_uuid
                       [(py "user", PyStr (py "hi")); (py "assistant", PyStr (py "hello"))])
                 (fun _ => get_conversation_context env_flaky sample_uuid) empty_world) with
    | Ok l => l
    | Raise _ => []
    end
  = [(py "user", PyStr (py "hi"))].
Proof. vm_compute. reflexivity. Qed.

(** * Further properties *)

(** ** Connecting to the store *)

(** X1: [get_db_with_retry] tests the connection at most three times and
    stops at the first test that passes; it then returns a session (never
    [None]); when all three tests fail it raises the exception of the third.
    It changes nothing but the trace. *)
Theorem get_db_with_retry_outcome (env : Env) (w : World) :
  exists r w' n,
    get_db_with_retry env w = (r, w') /\
    (1 <= n <= 3)%nat /\
    trace w' = trace w ++ repeat EvDbConnect n /\
    same_store w w' /\
    (forall i, (i < n - 1)%nat -> db_fault env (tick w + i) <> None) /\
    match r with
    | Ok db => db = Some SessionLocal /\ db_fault env (tick w + (n - 1)) = None
    | Raise e => n = 3%nat /\ db_fault env (tick w + 2) = Some e
    end.
Proof.
  unfold get_db_with_retry. cbn [seq get_db_with_retry_loop].
  unfold try_except, bind, db_op, ret, raise. cbn [Nat.eqb Nat.sub].
  destruct (db_fault env (tick w)) as [e0|] eqn:E0.
  2:{ eexists _, _, 1%nat. split; [reflexivity|]. split; [lia|].
      split; [reflexivity|]. split; [now split|]. split; [intros i Hi; lia|].
      split; [reflexivity|]. cbn. now rewrite Nat.add_0_r. }
  rewrite tick_emit.
  destruct (db_fault env (S (tick w))) as [e1|] eqn:E1.
  2:{ eexists _, _, 2%nat. split; [reflexivity|]. split; [lia|].
      split; [cbn; now rewrite <- app_assoc|]. split; [now split|].
      split.
      - intros i Hi. assert (i = 0)%nat as -> by lia. rewrite Nat.add_0_r. congruence.
      - split; [reflexivity|]. cbn. now rewrite Nat.add_1_r. }
  rewrite !tick_emit.
  assert (Hprev : forall i, (i < 2)%nat -> db_fault env (tick w + i) <> None).
  { intros i Hi. destruct i as [|[|i]]; [| |lia].
    - rewrite Nat.add_0_r. congruence.
    - rewrite Nat.add_1_r. congruence. }
  destruct (db_fault env (S (S (tick w)))) as [e2|] eqn:E2.
  - eexists _, _, 3%nat. split; [reflexivity|]. split; [lia|].
    split; [cbn; now rewrite <- !app_assoc|]. split; [now split|].
    split; [exact Hprev|]. split; [reflexivity|].
    replace (tick w + 2)%nat with (S (S (tick w))) by lia. exact E2.
  - eexists _, _, 3%nat. split; [reflexivity|]. split; [lia|].
    split; [cbn; now rewrite <- !app_assoc|]. split; [now split|].
    split; [exact Hprev|]. split; [reflexivity|]. cbn.
    replace (tick w + 2)%nat with (S (S (tick w))) by lia. exact E2.
Qed.

(** ** Appending to the history *)

(** One attempt of the durable write leaves the cache alone; it adds at most
    one row to the table, and none when it raises or when the session
    identifier is not a UUID. *)
Lemma add_try_outcome (env : Env) (session_id role : list N) (content : pyval)
    (sources : option (list Source)) (w : World) :
  exists r w',
    add_message_to_context_in_db_try env session_id role content sources w = (r, w') /\
    conversation_contexts w' = conversation_contexts w /\
    match r with
    | Ok _ =>
        chat_messages w' = chat_messages w \/
        exists u t, uuid_parse env session_id = Some u /\
                    chat_messages w' = chat_messages w ++
                      [{| row_session_id := u; row_role := role; row_content := content;
                          row_sources := sources; row_created_at := Some t |}]
    | Raise _ => chat_messages w' = chat_messages w
    end /\
    (uuid_parse env session_id = None -> chat_messages w' = chat_messages w).
Proof.
  unfold add_message_to_context_in_db_try, bind.
  destruct (get_db_with_retry env w) as [[db|e] w0] eqn:E0;
    pose proof (get_db_with_retry_loop_store env _ _ _ _ _ E0) as [Hc Hm].
  2:{ eexists _, _. split; [reflexivity|]. auto. }
  destruct (uuid_parse env session_id) as [u|] eqn:Eu.
  2:{ eexists _, _. split; [reflexivity|]. cbn. auto. }
  unfold db_add_commit. destruct db as [db|].
  2:{ eexists _, _. split; [reflexivity|]. cbn. split; [exact Hc|].
      split; [exact Hm|discriminate]. }
  unfold db_op. destruct (db_fault env (tick w0)) as [e|].
  - eexists _, _. split; [reflexivity|]. cbn. split; [exact Hc|].
    split; [exact Hm|discriminate].
  - eexists _, _. split; [reflexivity|]. cbn. split; [exact Hc|].
    split; [|discriminate]. right. eexists _, _. split; [reflexivity|].
    now rewrite Hm.
Qed.

(** The outcomes of [add_message_to_context]. *)
Lemma add_message_to_context_cases (env : Env) (session_id role : list N)
    (content : pyval) (sources : option (list Source)) (w : World) :
  exists w',
    add_message_to_context env session_id role content sources w = (Ok tt, w') /\
    ((cached session_id w' = cached session_id w ++ [(role, content)] /\
      (chat_messages w' = chat_messages w \/
       exists u t, uuid_parse env session_id = Some u /\
                   chat_messages w' = chat_messages w ++
                     [{| row_session_id := u; row_role := role; row_content := content;
                         row_sources := sources; row_created_at := Some t |}]))
     \/
     (cached session_id w' = cached session_id w ++ [(role, content); (role, content)] /\
      chat_messages w' = chat_messages w)) /\
    (uuid_parse env session_id = None -> chat_messages w' = chat_messages w) /\
    (forall other, other <> session_id -> same_cache other w w').
Proof.
  assert (Hcache : forall w1 w2, conversation_contexts w2 = conversation_contexts w1 ->
                                 cached session_id w2 = cached session_id w1).
  { intros w1 w2 H. unfold cached. now rewrite H. }
  assert (Hloop : exists w1,
             add_message_to_context_in_db env session_id role content sources w
             = (Ok tt, w1) /\
             ((cached session_id w1 = cached session_id w /\
               (chat_messages w1 = chat_messages w \/
                exists u t, uuid_parse env session_id = Some u /\
                   chat_messages w1 = chat_messages w ++
                     [{| row_session_id := u; row_role := role; row_content := content;
                         row_sources := sources; row_created_at := Some t |}]))
              \/
              (cached session_id w1 = cached session_id w ++ [(role, content)] /\
               chat_messages w1 = chat_messages w)) /\
             (uuid_parse env session_id = None -> chat_messages w1 = chat_messages w)).
  { unfold add_message_to_context_in_db. cbn [seq add_message_to_context_in_db_loop].
    destruct (add_try_outcome env session_id role content sources w)
      as (r0 & w0 & E0 & C0 & H0 & U0). rewrite E0.
    destruct r0 as [[]|e0].
    { exists w0. split; [reflexivity|]. split; [|exact U0]. left.
      split; [now apply Hcache|exact H0]. }
    cbn [Nat.eqb]. unfold bind at 1, ret at 1.
    destruct (add_try_outcome env session_id role content sources w0)
      as (r1 & w1 & E1 & C1 & H1 & U1). rewrite E1.
    destruct r1 as [[]|e1].
    { exists w1. split; [reflexivity|]. split.
      - left. split; [rewrite (Hcache _ _ C1); now apply Hcache|].
        rewrite H0 in H1. exact H1.
      - intros Hu. rewrite (U1 Hu). exact H0. }
    cbn [Nat.eqb]. unfold bind at 1, ret at 1.
    destruct (add_try_outcome env session_id role content sources w1)
      as (r2 & w2 & E2 & C2 & H2 & U2). rewrite E2.
    destruct r2 as [[]|e2].
    { exists w2. split; [reflexivity|]. split.
      - left. split.
        + rewrite (Hcache _ _ C2), (Hcache _ _ C1). now apply Hcache.
        + rewrite H1, H0 in H2. exact H2.
      - intros Hu. rewrite (U2 Hu), H1. exact H0. }
    cbn [Nat.eqb].
    destruct (contexts_append_cached env session_id role content w2)
      as (w3 & E3 & C3 & M3).
    exists w3. unfold bind, ret. rewrite E3. split; [reflexivity|]. split.
    - right. split.
      + rewrite C3, (Hcache _ _ C2), (Hcache _ _ C1), (Hcache _ _ C0). reflexivity.
      + rewrite M3, H2, H1. exact H0.
    - intros _. rewrite M3, H2, H1. exact H0. }
  destruct Hloop as (w1 & E1 & Hout & Hu).
  destruct (contexts_append_cached env session_id role content w1) as (w2 & E2 & C2 & M2).
  exists w2. split.
  { unfold add_message_to_context. now rewrite (bind_ok _ _ _ _ _ E1). }
  split; [|split].
  - destruct Hout as [[Hc Hm]|[Hc Hm]].
    + left. split; [now rewrite C2, Hc|]. now rewrite M2.
    + right. split; [rewrite C2, Hc, <- app_assoc; reflexivity|]. now rewrite M2.
  - intros H. rewrite M2. now apply Hu.
  - intros other Hne.
    assert (E : add_message_to_context env session_id role content sources w = (Ok tt, w2)).
    { unfold add_message_to_context. now rewrite (bind_ok _ _ _ _ _ E1). }
    exact (add_message_to_context_cache env other session_id role content sources
             (not_eq_sym Hne) w (Ok tt) w2 E).
Qed.

(** ** The store, attempt by attempt *)

Section StoreAttempts.
Import StoreProps.
Variable env : Env.

Lemma tick_trace_app (w w' : World) (evs : list Event) :
  trace w' = trace w ++ evs -> tick w' = (tick w + length evs)%nat.
Proof. unfold tick. intros ->. apply length_app. Qed.

(** [get_db_with_retry] by the fault schedule. *)
Lemma get_db_with_retry_connects (w : World) :
  exists r w',
    get_db_with_retry env w = (r, w') /\
    same_store w w' /\
    match connects env (tick w) with
    | Some n => r = Ok (Some SessionLocal) /\ tick w' = (tick w + n)%nat
    | None => (exists e, r = Raise e) /\ tick w' = (tick w + 3)%nat
    end.
Proof.
  unfold get_db_with_retry, connects. cbn [seq get_db_with_retry_loop].
  unfold try_except, bind, db_op, ret, raise. cbn [Nat.eqb Nat.sub].
  destruct (db_fault env (tick w)) as [e0|].
  2:{ eexists _, _. split; [reflexivity|]. split; [now split|].
      split; [reflexivity|]. rewrite tick_emit. lia. }
  rewrite tick_emit.
  destruct (db_fault env (S (tick w))) as [e1|].
  2:{ eexists _, _. split; [reflexivity|]. split; [now split|].
      split; [reflexivity|]. rewrite !tick_emit. lia. }
  rewrite !tick_emit.
  destruct (db_fault env (S (S (tick w)))) as [e2|].
  - eexists _, _. split; [reflexivity|]. split; [now split|].
    split; [now eexists|]. rewrite !tick_emit. lia.
  - eexists _, _. split; [reflexivity|]. split; [now split|].
    split; [reflexivity|]. rewrite !tick_emit. lia.
Qed.

(** One attempt of the durable write, by the fault schedule. *)
Lemma add_try_attempt (session_id role : list N) (content : pyval)
    (sources : option (list Source)) (w : World) :
  exists r w',
    add_message_to_context_in_db_try env session_id role content sources w = (r, w') /\
    conversation_contexts w' = conversation_contexts w /\
    match attempt env session_id (tick w) with
    | Some t =>
        r = Ok tt /\
        chat_messages w' =
          match uuid_parse env session_id with
          | Some u =>
              chat_messages w ++
              [{| row_session_id := u; row_role := role; row_content := content;
                  row_sources := sources; row_created_at := Some (db_now env t) |}]
          | None => chat_messages w
          end
    | None =>
        (exists e, r = Raise e) /\
        chat_messages w' = chat_messages w /\
        tick w' = (tick w + failed_attempt_ops env (tick w))%nat
    end.
Proof.
  unfold add_message_to_context_in_db_try, attempt, failed_attempt_ops, bind.
  destruct (get_db_with_retry_connects w) as (r0 & w0 & E0 & [Hc Hm] & H0). rewrite E0.
  destruct (connects env (tick w)) as [n|].
  2:{ destruct H0 as [[e ->] Ht]. eexists _, _. split; [reflexivity|].
      split; [exact Hc|]. split; [now eexists|]. split; [exact Hm|exact Ht]. }
  destruct H0 as [-> Ht].
  destruct (uuid_parse env session_id) as [u|].
  2:{ eexists _, _. split; [reflexivity|]. cbn. auto. }
  unfold db_add_commit, db_op. rewrite Ht.
  destruct (db_fault env (tick w + n)) as [e|].
  - eexists _, _. split; [reflexivity|]. cbn. split; [exact Hc|].
    split; [now eexists|]. split; [exact Hm|].
    unfold tick in *. rewrite length_app. cbn [length]. lia.
  - eexists _, _. split; [reflexivity|]. cbn. split; [exact Hc|].
    split; [reflexivity|]. now rewrite Hm.
Qed.

(** One attempt of the read, by the fault schedule. *)
Lemma from_db_try_attempt (session_id : list N) (w : World) :
  exists r w',
    get_conversation_context_from_db_try env session_id w = (r, w') /\
    same_store w w' /\
    match attempt env session_id (tick w) with
    | Some _ =>
        r = Ok match uuid_parse env session_id with
               | Some u => stored_history u w
               | None => []
               end
    | None =>
        (exists e, r = Raise e) /\
        tick w' = (tick w + failed_attempt_ops env (tick w))%nat
    end.
Proof.
  unfold get_conversation_context_from_db_try, attempt, failed_attempt_ops, bind.
  destruct (get_db_with_retry_connects w) as (r0 & w0 & E0 & [Hc Hm] & H0). rewrite E0.
  destruct (connects env (tick w)) as [n|].
  2:{ destruct H0 as [[e ->] Ht]. eexists _, _. split; [reflexivity|].
      split; [now split|]. split; [now eexists|exact Ht]. }
  destruct H0 as [-> Ht].
  destruct (uuid_parse env session_id) as [u|].
  2:{ eexists _, _. split; [reflexivity|]. split; [now split|reflexivity]. }
  unfold db_query, bind, db_op, ret. rewrite Ht.
  destruct (db_fault env (tick w + n)) as [e|].
  - eexists _, _. split; [reflexivity|]. split; [now split|].
    split; [now eexists|]. unfold tick in *. cbn. rewrite length_app. cbn [length]. lia.
  - eexists _, _. split; [reflexivity|]. cbn. split; [now split|].
    unfold stored_history. now rewrite Hm.
Qed.

End StoreAttempts.

Section StoreOutcomes.
Import StoreProps.
Variable env : Env.

(** The row a durable write of the message adds to the table. *)
Lemma add_message_to_context_in_db_exact (session_id role : list N) (content : pyval)
    (sources : option (list Source)) (w : World) :
  exists w1,
    add_message_to_context_in_db env session_id role content sources w = (Ok tt, w1) /\
    match store_answers env session_id (tick w) with
    | Some t =>
        cached session_id w1 = cached session_id w /\
        chat_messages w1 =
          match uuid_parse env session_id with
          | Some u =>
              chat_messages w ++
              [{| row_session_id := u; row_role := role; row_content := content;
                  row_sources := sources; row_created_at := Some (db_now env t) |}]
          | None => chat_messages w
          end
    | None =>
        cached session_id w1 = cached session_id w ++ [(role, content)] /\
        chat_messages w1 = chat_messages w
    end.
Proof.
  assert (Hcache : forall w1 w2, conversation_contexts w2 = conversation_contexts w1 ->
                                 cached session_id w2 = cached session_id w1).
  { intros w1 w2 H. unfold cached. now rewrite H. }
  unfold add_message_to_context_in_db, store_answers.
  cbn [seq add_message_to_context_in_db_loop].
  destruct (add_try_attempt env session_id role content sources w)
    as (r0 & w0 & E0 & C0 & H0). rewrite E0.
  destruct (attempt env session_id (tick w)) as [a0|].
  { destruct H0 as [-> M0]. exists w0. split; [reflexivity|].
    split; [now apply Hcache|exact M0]. }
  destruct H0 as ([e0 ->] & M0 & T0). cbv zeta. rewrite <- T0.
  cbn [Nat.eqb]. unfold bind at 1, ret at 1.
  destruct (add_try_attempt env session_id role content sources w0)
    as (r1 & w1 & E1 & C1 & H1). rewrite E1.
  destruct (attempt env session_id (tick w0)) as [a1|].
  { destruct H1 as [-> M1]. exists w1. split; [reflexivity|].
    split; [rewrite (Hcache _ _ C1); now apply Hcache|]. now rewrite M1, M0. }
  destruct H1 as ([e1 ->] & M1 & T1). rewrite <- T1.
  cbn [Nat.eqb]. unfold bind at 1, ret at 1.
  destruct (add_try_attempt env session_id role content sources w1)
    as (r2 & w2 & E2 & C2 & H2). rewrite E2.
  destruct (attempt env session_id (tick w1)) as [a2|].
  { destruct H2 as [-> M2]. exists w2. split; [reflexivity|].
    split; [rewrite (Hcache _ _ C2), (Hcache _ _ C1); now apply Hcache|].
    now rewrite M2, M1, M0. }
  destruct H2 as ([e2 ->] & M2 & T2).
  cbn [Nat.eqb].
  destruct (contexts_append_cached env session_id role content w2)
    as (w3 & E3 & C3 & M3).
  exists w3. unfold bind, ret. rewrite E3. split; [reflexivity|]. split.
  - rewrite C3, (Hcache _ _ C2), (Hcache _ _ C1), (Hcache _ _ C0). reflexivity.
  - rewrite M3, M2, M1. exact M0.
Qed.

(** The outcome of [add_message_to_context], by the fault schedule. *)
Lemma add_message_to_context_exact (session_id role : list N) (content : pyval)
    (sources : option (list Source)) (w : World) :
  exists w',
    add_message_to_context env session_id role content sources w = (Ok tt, w') /\
    match store_answers env session_id (tick w) with
    | Some t =>
        cached session_id w' = cached session_id w ++ [(role, content)] /\
        chat_messages w' =
          match uuid_parse env session_id with
          | Some u =>
              chat_messages w ++
              [{| row_session_id := u; row_role := role; row_content := content;
                  row_sources := sources; row_created_at := Some (db_now env t) |}]
          | None => chat_messages w
          end
    | None =>
        cached session_id w' = cached session_id w ++ [(role, content); (role, content)] /\
        chat_messages w' = chat_messages w
    end /\
    (forall other, other <> session_id -> same_cache other w w').
Proof.
  destruct (add_message_to_context_in_db_exact session_id role content sources w)
    as (w1 & E1 & H1).
  destruct (contexts_append_cached env session_id role content w1) as (w2 & E2 & C2 & M2).
  assert (E : add_message_to_context env session_id role content sources w = (Ok tt, w2)).
  { unfold add_message_to_context. now rewrite (bind_ok _ _ _ _ _ E1). }
  exists w2. split; [exact E|]. split.
  - destruct (store_answers env session_id (tick w)) as [t|]; destruct H1 as [Hc Hm].
    + split; [now rewrite C2, Hc|now rewrite M2].
    + split; [rewrite C2, Hc, <- app_assoc; reflexivity|now rewrite M2].
  - intros other Hne.
    exact (add_message_to_context_cache env other session_id role content sources
             (not_eq_sym Hne) w (Ok tt) w2 E).
Qed.

(** The three attempts of the read, by the fault schedule. *)
Lemma get_conversation_context_from_db_exact (session_id : list N) (w : World) :
  exists w1,
    get_conversation_context_from_db env session_id w
    = (Ok (Some match store_answers env session_id (tick w), uuid_parse env session_id with
                | Some _, Some u => stored_history u w
                | Some _, None => []
                | None, _ => default [] (conversation_contexts w !! session_id)
                end), w1) /\
    chat_messages w1 = chat_messages w /\
    (forall s, same_cache s w w1).
Proof.
  unfold get_conversation_context_from_db, store_answers.
  cbn [seq get_conversation_context_from_db_loop]. unfold try_except at 1, bind at 1.
  destruct (from_db_try_attempt env session_id w) as (r0 & w0 & E0 & [C0 M0] & H0).
  rewrite E0.
  destruct (attempt env session_id (tick w)) as [a0|].
  { rewrite H0. unfold ret. exists w0. split.
    - destruct (uuid_parse env session_id); reflexivity.
    - split; [exact M0|]. intros s. unfold same_cache. now rewrite C0. }
  destruct H0 as ([e0 ->] & T0). cbv zeta. rewrite <- T0. cbn [Nat.eqb].
  unfold try_except at 1, bind at 1.
  destruct (from_db_try_attempt env session_id w0) as (r1 & w1 & E1 & [C1 M1] & H1).
  rewrite E1.
  destruct (attempt env session_id (tick w0)) as [a1|].
  { rewrite H1. unfold ret. exists w1. split.
    - unfold stored_history. rewrite M0. destruct (uuid_parse env session_id); reflexivity.
    - split; [congruence|]. intros s. unfold same_cache. now rewrite C1, C0. }
  destruct H1 as ([e1 ->] & T1). rewrite <- T1. cbn [Nat.eqb].
  unfold try_except at 1, bind at 1.
  destruct (from_db_try_attempt env session_id w1) as (r2 & w2 & E2 & [C2 M2] & H2).
  rewrite E2.
  destruct (attempt env session_id (tick w1)) as [a2|].
  { rewrite H2. unfold ret. exists w2. split.
    - unfold stored_history. rewrite M1, M0.
      destruct (uuid_parse env session_id); reflexivity.
    - split; [congruence|]. intros s. unfold same_cache. now rewrite C2, C1, C0. }
  destruct H2 as ([e2 ->] & T2). cbn [Nat.eqb].
  unfold bind, contexts_setdefault, ret. eexists. split.
  - rewrite C2, C1, C0. destruct (uuid_parse env session_id); reflexivity.
  - cbn. split; [congruence|]. intros s. unfold same_cache. cbn.
    destruct (decide (session_id = s)) as [->|Hne].
    + now rewrite lookup_insert_eq.
    + now rewrite lookup_insert_ne.
Qed.

(** A read of the history, by the fault schedule. *)
Lemma get_conversation_context_exact (session_id : list N) (w : World) :
  exists w',
    get_conversation_context env session_id w = (Ok (history_read env session_id w), w') /\
    chat_messages w' = chat_messages w /\
    (forall s, same_cache s w w').
Proof.
  unfold get_conversation_context, history_read, bind.
  destruct (get_conversation_context_from_db_exact session_id w) as (w1 & E1 & M1 & S1).
  rewrite E1.
  assert (Hdefault :
    exists w', contexts_setdefault session_id w1
               = (Ok (default [] (conversation_contexts w !! session_id)), w') /\
               chat_messages w' = chat_messages w /\ (forall s, same_cache s w w')).
  { unfold contexts_setdefault. eexists. split; [|split].
    - rewrite (S1 session_id). reflexivity.
    - exact M1.
    - intros s. unfold same_cache. cbn. destruct (decide (session_id = s)) as [->|Hne].
      + rewrite lookup_insert_eq. cbn. first [reflexivity | apply S1].
      + rewrite lookup_insert_ne by exact Hne. apply S1. }
  destruct Hdefault as (wd & Ed & Hmd & Hsd).
  destruct (store_answers env session_id (tick w)) as [t|];
    destruct (uuid_parse env session_id) as [u|].
  - destruct (stored_history u w) as [|m l].
    + exists wd. auto.
    + exists w1. unfold ret. auto.
  - exists wd. auto.
  - destruct (default [] (conversation_contexts w !! session_id)) as [|m l] eqn:Ec.
    + exists wd. auto.
    + exists w1. unfold ret. auto.
  - destruct (default [] (conversation_contexts w !! session_id)) as [|m l] eqn:Ec.
    + exists wd. auto.
    + exists w1. unfold ret. auto.
Qed.

End StoreOutcomes.

(** X2: [add_message_to_context] never raises, and the fault schedule of the
    store decides its outcome.  When one of the three attempts of the durable
    write returns (its connection passes within three tests and, for a UUID,
    its commit passes), the cache of the session gains the message once, and
    the table gains exactly one row for a session identifier that is a UUID
    (with that UUID, the role, the content, the sources and the time of the
    commit) and none for any other identifier.  When all three attempts
    raise, the table is unchanged and the cache gains the message twice.  The
    caches of the other sessions keep their messages. *)
Theorem add_message_to_context_outcome (env : Env) (session_id role : list N)
    (content : pyval) (sources : option (list Source)) (w : World) :
  exists w',
    add_message_to_context env session_id role content sources w = (Ok tt, w') /\
    match StoreProps.store_answers env session_id (tick w) with
    | Some t =>
        cached session_id w' = cached session_id w ++ [(role, content)] /\
        chat_messages w' =
          match uuid_parse env session_id with
          | Some u =>
              chat_messages w ++
              [{| row_session_id := u; row_role := role; row_content := content;
                  row_sources := sources; row_created_at := Some (db_now env t) |}]
          | None => chat_messages w
          end
    | None =>
        cached session_id w' = cached session_id w ++ [(role, content); (role, content)] /\
        chat_messages w' = chat_messages w
    end /\
    (uuid_parse env session_id = None -> chat_messages w' = chat_messages w) /\
    (forall other, other <> session_id -> same_cache other w w').
Proof.
  destruct (add_message_to_context_exact env session_id role content sources w)
    as (w' & E & H & Ho).
  exists w'. split; [exact E|]. split; [exact H|]. split; [|exact Ho].
  intros Hu. rewrite Hu in H.
  destruct (StoreProps.store_answers env session_id (tick w)); apply H.
Qed.

(** The three outcomes at the sample environments: a healthy store takes the
    row at the first attempt, a store that refuses every connection leaves
    all three attempts raising, and an identifier that is not a UUID is
    answered without a statement. *)
Example store_answers_samples :
  StoreProps.store_answers (env_up []) sample_uuid 0 = Some 1%nat /\
  StoreProps.store_answers env_down sample_uuid 0 = None /\
  StoreProps.store_answers env_commit_refused sample_uuid 0 = None /\
  StoreProps.store_answers (env_up []) (py "s1") 0 = Some 1%nat /\
  StoreProps.store_answers env_down (py "s1") 0 = None.
Proof. vm_compute. repeat split. Qed.

(** ** Reading the history *)

(** What one attempt of the store read returns, when it returns. *)
Lemma from_db_try_rows (env : Env) (session_id : list N) (w w' : World)
    (h : list Message) :
  get_conversation_context_from_db_try env session_id w = (Ok h, w') ->
  h = [] \/
  exists u, uuid_parse env session_id = Some u /\
            h = message_of_row <$>
                  order_by_created_at
                    (filter (fun r => row_session_id r = u) (chat_messages w)).
Proof.
  intros E. unfold get_conversation_context_from_db_try, bind in E.
  destruct (get_db_with_retry env w) as [[db|e] w1] eqn:Edb; [|discriminate].
  pose proof (get_db_with_retry_loop_store env _ _ _ _ _ Edb) as [_ Hm].
  destruct (uuid_parse env session_id) as [u|]; [|left; now inversion E].
  right. exists u. split; [reflexivity|].
  unfold db_query in E. destruct db; [|discriminate]. unfold bind, db_op in E.
  destruct (db_fault env (tick w1)); [discriminate|]. cbn in E.
  rewrite Hm in E. now inversion E.
Qed.

Lemma from_db_loop_result (env : Env) (session_id : list N) (attempts : list nat) :
  forall w r w',
    get_conversation_context_from_db_loop env session_id attempts w = (r, w') ->
    chat_messages w' = chat_messages w /\
    (forall s, same_cache s w w') /\
    exists o, r = Ok o /\
      (o = None \/ o = Some [] \/
       o = Some (default [] (conversation_contexts w !! session_id)) \/
       exists u, uuid_parse env session_id = Some u /\
                 o = Some (message_of_row <$>
                             order_by_created_at
                               (filter (fun r => row_session_id r = u) (chat_messages w)))).
Proof.
  induction attempts as [|attempt rest IH]; intros w r w' E;
    cbn [get_conversation_context_from_db_loop] in E.
  - inversion E; subst. split; [reflexivity|]. split; [reflexivity|].
    exists None. auto.
  - unfold try_except, bind in E.
    destruct (get_conversation_context_from_db_try env session_id w) as [[h|e] w1] eqn:Et;
      pose proof (from_db_try_store _ _ _ _ _ Et) as [Hcc Hm].
    + inversion E; subst. split; [exact Hm|]. split.
      { intros s. unfold same_cache. now rewrite Hcc. }
      exists (Some h). split; [reflexivity|].
      destruct (from_db_try_rows _ _ _ _ _ Et) as [-> | (u & Hu & ->)]; [auto|].
      right. right. right. exists u. auto.
    + destruct (attempt =? 2)%nat.
      * unfold contexts_setdefault, ret in E. inversion E; subst. cbn.
        split; [exact Hm|]. split.
        { intros s. unfold same_cache. cbn. rewrite Hcc.
          destruct (decide (session_id = s)) as [->|Hne].
          - now rewrite lookup_insert_eq.
          - now rewrite lookup_insert_ne. }
        exists (Some (default [] (conversation_contexts w1 !! session_id))).
        split; [reflexivity|]. right. right. left. now rewrite Hcc.
      * destruct (IH _ _ _ E) as (Hm' & Hs & o & -> & Ho).
        split; [congruence|]. split.
        { intros s. specialize (Hs s). unfold same_cache in *. now rewrite Hs, Hcc. }
        exists o. split; [reflexivity|]. rewrite Hcc, Hm in Ho. exact Ho.
Qed.

(** What a read of the history returns and leaves. *)
Lemma get_conversation_context_cases (env : Env) (session_id : list N) (w : World) :
  exists l w',
    get_conversation_context env session_id w = (Ok l, w') /\
    chat_messages w' = chat_messages w /\
    (forall s, same_cache s w w') /\
    (l = default [] (conversation_contexts w !! session_id) \/
     (l <> [] /\
      exists u, uuid_parse env session_id = Some u /\
                l = message_of_row <$>
                      order_by_created_at
                        (filter (fun r => row_session_id r = u) (chat_messages w)))).
Proof.
  unfold get_conversation_context, get_conversation_context_from_db, bind.
  destruct (get_conversation_context_from_db_loop env session_id (seq 0 3) w)
    as [r w1] eqn:E.
  destruct (from_db_loop_result _ _ _ _ _ _ E) as (Hm & Hs & o & -> & Ho).
  assert (Hdefault :
    exists w', contexts_setdefault session_id w1
               = (Ok (default [] (conversation_contexts w !! session_id)), w') /\
               chat_messages w' = chat_messages w /\ (forall s, same_cache s w w')).
  { unfold contexts_setdefault. eexists. split; [|split].
    - rewrite (Hs session_id). reflexivity.
    - exact Hm.
    - intros s. unfold same_cache. cbn. destruct (decide (session_id = s)) as [->|Hne].
      + rewrite lookup_insert_eq. cbn. first [reflexivity | apply Hs].
      + rewrite lookup_insert_ne by exact Hne. apply Hs. }
  destruct Hdefault as (wd & Ed & Hmd & Hsd).
  destruct o as [[|m l]|].
  - eexists _, wd. split; [exact Ed|]. auto.
  - exists (m :: l), w1. split; [reflexivity|]. split; [exact Hm|]. split; [exact Hs|].
    destruct Ho as [Ho|[Ho|[Ho|(u & Hu & Ho)]]]; try discriminate.
    + left. now inversion Ho.
    + right. split; [discriminate|]. exists u. split; [exact Hu|]. now inversion Ho.
  - eexists _, wd. split; [exact Ed|]. auto.
Qed.

(** X3: reading the history never raises and writes no message: the table is
    unchanged and every session's cache holds the same messages.  The result
    is the store's rows of the session, in the order of their timestamps,
    exactly when one of the three attempts of the read returns, the session
    identifier is a UUID and the table has at least one row of the session;
    in every other case (all three attempts raise, the identifier is not a
    UUID, or there is no row) it is the cache of the session. *)
Theorem get_conversation_context_policy (env : Env) (session_id : list N) (w : World) :
  exists l w',
    get_conversation_context env session_id w = (Ok l, w') /\
    chat_messages w' = chat_messages w /\
    (forall s, same_cache s w w') /\
    l = match StoreProps.store_answers env session_id (tick w),
              uuid_parse env session_id with
        | Some _, Some u =>
            match message_of_row <$>
                    order_by_created_at
                      (filter (fun r => row_session_id r = u) (chat_messages w)) with
            | [] => default [] (conversation_contexts w !! session_id)
            | rows => rows
            end
        | _, _ => default [] (conversation_contexts w !! session_id)
        end.
Proof.
  destruct (get_conversation_context_exact env session_id w) as (w' & E & Hm & Hs).
  eexists _, w'. split; [exact E|]. split; [exact Hm|]. split; [exact Hs|reflexivity].
Qed.

(** ** The prompt of the chat endpoint *)

Import ChatProps.

Lemma recent_history_of_suffix (h : list Message) :
  (length (recent_history_of h) <= 10)%nat /\
  (exists older, h = older ++ recent_history_of h) /\
  ((length h <= 10)%nat -> recent_history_of h = h).
Proof.
  unfold recent_history_of. destruct (Nat.ltb_spec 10 (length h)) as [H|H].
  - split; [rewrite length_drop; lia|]. split; [|lia].
    exists (take (length h - 10) h). now rewrite take_drop.
  - split; [exact H|]. split; [now exists []|reflexivity].
Qed.

Lemma recent_history_of_length (h : list Message) :
  length (recent_history_of h) = Nat.min 10 (length h).
Proof.
  unfold recent_history_of. destruct (Nat.ltb_spec 10 (length h)) as [H|H].
  - rewrite length_drop. lia.
  - lia.
Qed.

(** The completion service makes its one call before anything else. *)
Lemma chat_completion_with_sources_event (env : Env) (messages : list PromptMsg)
    (sources : list Source) (temperature : list N) (max_tokens : Z) (w : World) :
  trace (snd (chat_completion_with_sources env messages sources temperature max_tokens w))
  = trace w ++ [EvCompletion messages temperature max_tokens].
Proof.
  unfold chat_completion_with_sources, try_except, bind, lift, ret, raise.
  destruct (chat_completions_create env (tick w) messages); cbn; [|reflexivity].
  destruct (attributed_sources sources []); reflexivity.
Qed.

(** What an admitted chat request does up to and after its completion
    call. *)
Lemma send_chat_message_try_prompt (env : Env) (session_id sanitized_content : list N)
    (limit : Z) (w1 : World) :
  exists chunks w2 w3,
    Retrieving.retrieve env sanitized_content default_collection limit w1 = (Ok chunks, w2) /\
    same_store w1 w2 /\
    trace_extends AgentRun.not_completion w1 w2 /\
    get_conversation_context env session_id w2
    = (Ok (StoreProps.history_read env session_id w2), w3) /\
    trace_extends AgentRun.not_completion w2 w3 /\
    match context_text_of chunks with
    | Ok context_text =>
        exists later,
          trace (snd (send_chat_message_try env session_id sanitized_content limit w1)) =
            trace w3
            ++ [EvCompletion
                  ([{| p_role := py "system";
                       p_content := PyStr (system_message_chat context_text) |}]
                   ++ (prompt_of <$>
                         recent_history_of (StoreProps.history_read env session_id w2))
                   ++ [{| p_role := py "user"; p_content := PyStr sanitized_content |}])
                  (py "0.3") 1000]
            ++ later /\
          Forall AgentRun.not_completion later
    | Raise e =>
        send_chat_message_try env session_id sanitized_content limit w1 = (Raise e, w2)
    end.
Proof.
  destruct (never_raises_retrieve env sanitized_content default_collection limit w1)
    as (chunks & w2 & Er).
  destruct (get_conversation_context_exact env session_id w2) as (w3 & Eh & _).
  exists chunks, w2, w3. split; [exact Er|].
  split; [exact (retrieve_store env _ _ _ _ _ _ Er)|].
  split; [apply (retrieve_trace AgentRun.not_completion env _ _ _ I I _ _ _ Er)|].
  split; [exact Eh|].
  split.
  { apply (get_conversation_context_trace AgentRun.not_completion env session_id I (fun _ => I) _ _ _ Eh). }
  unfold send_chat_message_try. rewrite (bind_ok _ _ _ _ _ Er).
  destruct (context_text_of chunks) as [context_text|e]; [|reflexivity].
  unfold lift at 1. unfold bind at 1. cbv zeta. rewrite (bind_ok _ _ _ _ _ Eh).
  match goal with
  | |- context [chat_completion_with_sources env ?m ?srcs ?t ?k] =>
      pose proof (chat_completion_with_sources_event env m srcs t k w3) as Hev;
      unfold bind at 1;
      destruct (chat_completion_with_sources env m srcs t k w3) as [[result|e] w4]
  end; cbn [snd] in Hev.
  2:{ exists []. cbn [snd]. rewrite Hev. split; [now rewrite app_nil_r|constructor]. }
  match goal with
  | |- context [bind (add_message_to_context env ?s ?r ?c ?so) _ w4] =>
      destruct (never_raises_add_message_to_context env s r c so w4) as ([] & w5 & E5);
      pose proof (add_message_to_context_trace AgentRun.not_completion env s r c so
                    I (fun _ => I) I _ _ _ E5) as (evs5 & T5 & F5);
      rewrite (bind_ok _ _ _ _ _ E5)
  end.
  match goal with
  | |- context [bind (add_message_to_context env ?s ?r ?c ?so) _ w5] =>
      destruct (never_raises_add_message_to_context env s r c so w5) as ([] & w6 & E6);
      pose proof (add_message_to_context_trace AgentRun.not_completion env s r c so
                    I (fun _ => I) I _ _ _ E6) as (evs6 & T6 & F6);
      rewrite (bind_ok _ _ _ _ _ E6)
  end.
  exists (evs5 ++ evs6). unfold ret. cbn [snd].
  split; [rewrite T6, T5, Hev, <- !app_assoc; reflexivity|].
  apply Forall_app. now split.
Qed.

(** X4: an admitted chat request makes at most one completion call, and none
    when joining the retrieved contents raises.  The prompt of that call is
    the system message, then the last ten messages (all of them when there
    are fewer) of the session's history as a read returns it at that moment,
    in their order, then the user's sanitised message: between 2 and 12
    messages.  The sampling parameters are 0.3 and 1000.  A request rejected
    by the rate limiter makes no completion call. *)
Theorem send_chat_message_prompt (env : Env) (request : Request)
    (session_id : list N) (chat_request : ChatMessageRequest) (w : World) :
  let sanitized_content := sanitize_input (content chat_request) in
  let limit := sanitized_context_window (context_window chat_request) in
  match is_rate_limited env request w with
  | (Ok true, w1) =>
      snd (send_chat_message env request session_id chat_request w) = w1 /\
      trace_extends AgentRun.not_completion w w1
  | (Ok false, w1) =>
      exists chunks w2 history w3,
        Retrieving.retrieve env sanitized_content default_collection limit w1
        = (Ok chunks, w2) /\
        get_conversation_context env session_id w2 = (Ok history, w3) /\
        history = StoreProps.history_read env session_id w2 /\
        same_store w w2 /\
        trace_extends AgentRun.not_completion w w3 /\
        match context_text_of chunks with
        | Ok context_text =>
            exists older recent later,
              history = older ++ recent /\
              length recent = Nat.min 10 (length history) /\
              trace (snd (send_chat_message env request session_id chat_request w)) =
                trace w3
                ++ [EvCompletion
                      ([{| p_role := py "system";
                           p_content := PyStr (system_message_chat context_text) |}]
                       ++ (prompt_of <$> recent)
                       ++ [{| p_role := py "user";
                              p_content := PyStr sanitized_content |}])
                      (py "0.3") 1000]
                ++ later /\
              Forall AgentRun.not_completion later /\
              (2 <= 1 + length recent + 1 <= 12)%nat
        | Raise _ =>
            snd (send_chat_message env request session_id chat_request w) = w2
        end
  | (Raise _, _) => False
  end.
Proof.
  intros sanitized_content limit.
  destruct (never_raises_is_rate_limited env request w) as (limited & w1 & El).
  pose proof (is_rate_limited_trace AgentRun.not_completion env request I _ _ _ El) as Tl.
  pose proof (is_rate_limited_store env request _ _ _ El) as Sl.
  rewrite El. unfold send_chat_message. rewrite (bind_ok _ _ _ _ _ El).
  destruct limited; [split; [reflexivity|exact Tl]|].
  cbv zeta. fold sanitized_content limit.
  destruct (send_chat_message_try_prompt env session_id sanitized_content limit w1)
    as (chunks & w2 & w3 & Er & Sr & Tr & Eh & Th & H).
  exists chunks, w2, (StoreProps.history_read env session_id w2), w3.
  split; [exact Er|]. split; [exact Eh|].
  split; [reflexivity|]. split; [eauto using same_store_trans|].
  split; [eauto using trace_extends_trans|].
  unfold try_except.
  destruct (context_text_of chunks) as [context_text|e].
  - destruct H as (later & Ht & Fl).
    pose proof (recent_history_of_suffix (StoreProps.history_read env session_id w2))
      as (_ & (older & Ho) & _).
    pose proof (recent_history_of_length (StoreProps.history_read env session_id w2)) as Hn.
    exists older, (recent_history_of (StoreProps.history_read env session_id w2)), later.
    split; [exact Ho|]. split; [exact Hn|].
    split; [|split; [exact Fl|lia]].
    destruct (send_chat_message_try env session_id sanitized_content limit w1)
      as [[r|e] w4]; cbn [snd] in Ht |- *; [exact Ht|].
    unfold send_chat_message_except. destruct (exn_class e); exact Ht.
  - rewrite H. unfold send_chat_message_except. destruct (exn_class e); reflexivity.
Qed.

(** ** What a failed chat request leaves behind *)

Lemma history_untouched_refl (w : World) : history_untouched w w.
Proof. split; [reflexivity|]. intros s. reflexivity. Qed.

Lemma history_untouched_trans (w1 w2 w3 : World) :
  history_untouched w1 w2 -> history_untouched w2 w3 -> history_untouched w1 w3.
Proof.
  intros [M1 S1] [M2 S2]. split; [congruence|].
  intros s. specialize (S1 s). specialize (S2 s). unfold same_cache in *. congruence.
Qed.

Lemma history_untouched_of_store (w w' : World) :
  same_store w w' -> history_untouched w w'.
Proof. intros [Hc Hm]. split; [exact Hm|]. intros s. unfold same_cache. now rewrite Hc. Qed.

Lemma get_conversation_context_untouched (env : Env) (session_id : list N) :
  respects history_untouched (get_conversation_context env session_id).
Proof.
  intros w r w' E. unfold get_conversation_context, get_conversation_context_from_db, bind in E.
  destruct (get_conversation_context_from_db_loop env session_id (seq 0 3) w)
    as [r1 w1] eqn:E1.
  destruct (from_db_loop_result _ _ _ _ _ _ E1) as (Hm & Hs & o & -> & _).
  assert (Hd : forall r w', contexts_setdefault session_id w1 = (r, w') ->
                            history_untouched w w').
  { intros r0 w0 E0. unfold contexts_setdefault in E0. inversion E0; subst.
    split; [exact Hm|]. intros s. unfold same_cache. cbn.
    destruct (decide (session_id = s)) as [->|Hne].
    - rewrite lookup_insert_eq. cbn. apply Hs.
    - rewrite lookup_insert_ne by exact Hne. apply Hs. }
  destruct o as [[|m l]|]; try (eapply Hd; exact E).
  inversion E; subst. now split.
Qed.

(** When the [try] block of the chat endpoint raises, nothing has been written
    to the history. *)
Lemma send_chat_message_try_raise_untouched (env : Env)
    (session_id sanitized_content : list N) (limit : Z) (w : World) (e : exn) (w' : World) :
  send_chat_message_try env session_id sanitized_content limit w = (Raise e, w') ->
  history_untouched w w'.
Proof.
  unfold send_chat_message_try. intros E. unfold bind at 1 in E.
  destruct (retrieve env sanitized_content default_collection limit w)
    as [[texts|e0] w0] eqn:E0.
  2:{ exfalso. eapply never_raises_no_raise; [apply never_raises_retrieve|exact E0]. }
  pose proof (history_untouched_of_store _ _ (retrieve_store _ _ _ _ _ _ _ E0)) as H0.
  unfold bind at 1, lift at 1 in E.
  destruct (context_text_of texts) as [context_text|e1]; [|now inversion E; subst].
  unfold bind at 1 in E.
  destruct (get_conversation_context env session_id w0) as [[history|e2] w2] eqn:E2.
  2:{ exfalso. eapply never_raises_no_raise;
        [apply never_raises_get_conversation_context|exact E2]. }
  pose proof (get_conversation_context_untouched _ _ _ _ _ E2) as H2.
  unfold bind at 1 in E.
  match type of E with
  | context [chat_completion_with_sources ?a ?b ?c ?d ?f w2] =>
      destruct (chat_completion_with_sources a b c d f w2) as [[result|e3] w3] eqn:E3
  end.
  - exfalso. eapply (raises_only_bind (fun _ => False)); [| |exact E].
    + apply raises_only_never, never_raises_add_message_to_context.
    + intros ?. apply raises_only_bind;
        [apply raises_only_never, never_raises_add_message_to_context|intros ?].
      apply raises_only_never, never_raises_ret.
  - inversion E; subst.
    pose proof (history_untouched_of_store _ _ (chat_completion_store _ _ _ _ _ _ _ _ E3)).
    eauto using history_untouched_trans.
Qed.

(** X5: a chat request that is rejected by the rate limiter, or whose [try]
    block raises (so that the reply is the fallback text), writes nothing to
    the history: the table is unchanged and every session's cache holds the
    same messages; in particular neither the question nor the fallback text is
    stored. *)
Theorem send_chat_message_failure_keeps_history (env : Env) (request : Request)
    (session_id : list N) (chat_request : ChatMessageRequest) (w : World) :
  match is_rate_limited env request w with
  | (Ok true, w1) =>
      snd (send_chat_message env request session_id chat_request w) = w1 /\
      history_untouched w w1
  | (Ok false, w1) =>
      match send_chat_message_try env session_id
              (sanitize_input (content chat_request))
              (sanitized_context_window (context_window chat_request)) w1 with
      | (Raise e, w2) =>
          snd (send_chat_message env request session_id chat_request w) = w2 /\
          history_untouched w w2
      | (Ok _, _) => True
      end
  | (Raise _, _) => True
  end.
Proof.
  destruct (is_rate_limited env request w) as [[limited|e0] w1] eqn:E0; [|exact I].
  pose proof (history_untouched_of_store _ _ (is_rate_limited_store _ _ _ _ _ E0)) as H0.
  unfold send_chat_message. rewrite (bind_ok _ _ _ _ _ E0).
  destruct limited; [now split|]. cbv zeta. unfold try_except.
  destruct (send_chat_message_try env session_id (sanitize_input (content chat_request))
              (sanitized_context_window (context_window chat_request)) w1)
    as [[r|e] w2] eqn:E1; [exact I|].
  pose proof (send_chat_message_try_raise_untouched _ _ _ _ _ _ _ E1) as H1.
  split; [|eauto using history_untouched_trans].
  unfold send_chat_message_except. destruct (exn_class e); reflexivity.
Qed.

(** ** Source attribution *)

Import AttributionProps.

Lemma attributed_source_attributes (s : Source) (a : AttributedSource) :
  attributed_source s = Ok a -> attributes s a.
Proof.
  unfold attributed_source, attributes. intros E.
  destruct (attributed_content (src_content s)) as [c|e] eqn:Ec; [|discriminate].
  inversion E; subst. cbn [attr_title attr_file_path attr_score attr_relevance attr_content].
  repeat (split; [reflexivity|]).
  intros text Ht. rewrite Ht in Ec. unfold attributed_content in Ec.
  destruct (Nat.ltb_spec 200 (length text)) as [H|H]; inversion Ec; subst.
  - split; [reflexivity|]. eexists. split; [reflexivity|].
    rewrite length_app, length_take. change (length (py "...")) with 3%nat. lia.
  - split; [reflexivity|]. eexists. split; [reflexivity|]. lia.
Qed.

Lemma attributed_sources_attributes (sources : list Source) :
  forall acc out,
    attributed_sources sources acc = Ok out ->
    exists new, out = acc ++ new /\ Forall2 attributes sources new.
Proof.
  induction sources as [|s sources IH]; intros acc out E; cbn in E.
  - inversion E; subst. exists []. split; [now rewrite app_nil_r|constructor].
  - destruct (attributed_source s) as [a|e] eqn:Ea; [|discriminate].
    destruct (IH _ _ E) as (new & -> & F). exists (a :: new).
    split; [now rewrite <- app_assoc|]. constructor; [|exact F].
    now apply attributed_source_attributes.
Qed.

(** X6: when [chat_completion_with_sources] returns, it has made exactly one
    completion call, and its result has the model's answer, one attribution
    per source in the order given -- same title, path and score, relevance
    ["high"], the content cut to 200 characters plus three dots when it is
    longer -- and the model and provider names as usage.  When it raises, the
    exception is a plain [Exception] whose message starts with
    ["LLM error: "]. *)
Theorem chat_completion_with_sources_result (env : Env) (messages : list PromptMsg)
    (sources : list Source) (temperature : list N) (max_tokens : Z) (w : World) :
  match chat_completion_with_sources env messages sources temperature max_tokens w with
  | (Ok c, w') =>
      chat_completions_create env (tick w) messages = Ok (completion_response c) /\
      length (completion_sources c) = length sources /\
      Forall2 attributes sources (completion_sources c) /\
      completion_usage c = [(py "model", llm_model env); (py "provider", llm_provider env)] /\
      trace w' = trace w ++ [EvCompletion messages temperature max_tokens]
  | (Raise e, w') =>
      exn_class e = Exception_ /\
      (exists cause, exn_msg e = py "LLM error: " ++ cause) /\
      trace w' = trace w ++ [EvCompletion messages temperature max_tokens]
  end.
Proof.
  unfold chat_completion_with_sources, try_except, bind, lift, ret, raise.
  destruct (chat_completions_create env (tick w) messages) as [ai|e] eqn:Ec.
  2:{ cbn. split; [reflexivity|]. split; [now exists (exn_msg e)|reflexivity]. }
  destruct (attributed_sources sources []) as [attributed|e] eqn:Ea.
  2:{ cbn. split; [reflexivity|]. split; [now exists (exn_msg e)|reflexivity]. }
  cbn. destruct (attributed_sources_attributes _ _ _ Ea) as (new & -> & F). cbn.
  split; [reflexivity|]. split; [symmetry; eapply Forall2_length; eauto|].
  split; [exact F|]. split; reflexivity.
Qed.

(** ** Retrieval is all or nothing *)

Lemma chunks_of_points_length (env : Env) (points : list ScoredPoint) :
  forall acc out,
    chunks_of_points env points acc = Ok out ->
    length out = (length acc + length points)%nat /\
    Forall (fun p => is_Some (point_payload p)) points.
Proof.
  induction points as [|p points IH]; intros acc out E; cbn in E.
  - inversion E; subst. split; [cbn; lia|constructor].
  - destruct (chunk_of_point env p) as [c|e] eqn:Ec; [|discriminate].
    destruct (IH _ _ E) as [Hl Hf]. rewrite length_app in Hl. cbn in *.
    split; [lia|]. constructor; [|exact Hf].
    unfold chunk_of_point in Ec. destruct (point_payload p); [eauto|discriminate].
Qed.

(** X7: [retrieve] returns either one chunk for every point of the search or
    nothing: when the search returns points of which one has no payload, the
    result is the empty list, whatever the other points hold; a result that is
    not empty has exactly as many chunks as the search returned points. *)
Theorem retrieve_all_or_nothing (env : Env) (query collection_name : list N) (limit : Z)
    (w : World) :
  exists chunks w',
    retrieve env query collection_name limit w = (Ok chunks, w') /\
    forall embedding points,
      embedding_model_embed env (tick w) query = Ok embedding ->
      qdrant_query_points env (S (tick w)) collection_name embedding limit = Ok points ->
      (chunks = [] \/ length chunks = length points) /\
      (Exists (fun p => point_payload p = None) points -> chunks = []) /\
      (Forall (fun p => is_Some (point_payload p)) points ->
       length chunks = length points).
Proof.
  pose proof (retrieve_cases env query collection_name limit w) as H. cbn zeta in H.
  destruct (embedding_model_embed env (tick w) query) as [embedding|e0] eqn:Eemb.
  2:{ eexists _, _. split; [exact H|]. discriminate. }
  destruct (qdrant_query_points env (S (tick w)) collection_name embedding limit)
    as [points|e1] eqn:Eq.
  2:{ eexists _, _. split; [exact H|]. intros ? ? E. inversion E; subst.
      rewrite Eq. discriminate. }
  destruct (chunks_of_points env points []) as [texts|e2] eqn:Ec.
  - eexists _, _. split; [exact H|]. intros ? ? E1 E2. inversion E1; subst.
    rewrite Eq in E2. inversion E2; subst.
    destruct (chunks_of_points_length _ _ _ _ Ec) as [Hl Hf]. cbn in Hl.
    split; [now right|]. split; [|intros _; exact Hl].
    intros Hex. exfalso. apply Exists_exists in Hex. destruct Hex as (p & Hin & Hp).
    rewrite Forall_forall in Hf. destruct (Hf p Hin) as [x Hx]. congruence.
  - eexists _, _. split; [exact H|]. intros ? ? E1 E2. inversion E1; subst.
    rewrite Eq in E2. inversion E2; subst.
    split; [now left|]. split; [reflexivity|].
    intros Hall. exfalso.
    destruct (chunks_of_points_all env _ Hall []) as (chunks & Ec' & _). congruence.
Qed.

(** ** The rate limiter keeps its lists short *)

(** X8: the rate limiter never lets a list of timestamps grow beyond ten: if
    no origin has more than ten timestamps recorded, that is still so after a
    call, whatever the request and the clock; and what is recorded for the
    calling origin after the call is less than 60 seconds old or is the time
    of the call. *)
Theorem is_rate_limited_bounded (env : Env) (request : Request) (w : World) :
  (forall origin times, request_counts w !! origin = Some times ->
                        (length times <= 10)%nat) ->
  let w' := snd (is_rate_limited env request w) in
  let now := clock env (tick w) in
  (forall origin times, request_counts w' !! origin = Some times ->
                        (length times <= 10)%nat) /\
  (forall times, request_counts w' !! client_ip_of request = Some times ->
                 Forall (fun t => (now - t < 60)%Q \/ t = now) times).
Proof.
  intros Hbound w' now. subst w'.
  destruct (is_rate_limited_step env request w) as (w' & E & Hrc & Hother & _).
  rewrite E. cbn [snd]. fold now in Hrc.
  assert (Hold : (length (default [] (request_counts w !! client_ip_of request)) <= 10)%nat).
  { destruct (request_counts w !! client_ip_of request) as [old|] eqn:Eo.
    - exact (Hbound _ _ Eo).
    - cbn. lia. }
  set (live := live_requests now (default [] (request_counts w !! client_ip_of request))) in *.
  assert (Hlive : Forall (fun t => (now - t < 60)%Q) live).
  { apply List.Forall_forall. intros t Ht. now apply live_requests_In in Ht. }
  split.
  - intros origin times Ho.
    destruct (decide (origin = client_ip_of request)) as [->|Hne].
    + rewrite Hrc in Ho. inversion Ho; subst. clear Ho.
      destruct (bool_decide (10 <= length live)%nat) eqn:Hd.
      * pose proof (live_requests_length now
                      (default [] (request_counts w !! client_ip_of request))) as Hl.
        fold live in Hl. lia.
      * apply bool_decide_eq_false in Hd. rewrite length_app. cbn. lia.
    + rewrite (Hother _ Hne) in Ho. eauto.
  - intros times Ht. rewrite Hrc in Ht. inversion Ht; subst. clear Ht.
    destruct (bool_decide (10 <= length live)%nat).
    + eapply Forall_impl; [exact Hlive|]. intros t H. now left.
    + apply Forall_app. split.
      * eapply Forall_impl; [exact Hlive|]. intros t H. now left.
      * constructor; [now right|constructor].
Qed.

Lemma is_rate_limited_bounded_witness :
  (forall origin times,
      request_counts (snd (is_rate_limited env_burst local_request empty_world)) !! origin
      = Some times -> (length times <= 10)%nat) /\
  (forall times,
      request_counts (snd (is_rate_limited env_burst local_request empty_world))
        !! client_ip_of local_request = Some times ->
      Forall (fun t => (clock env_burst (tick empty_world) - t < 60)%Q
                       \/ t = clock env_burst (tick empty_world)) times).
Proof.
  apply (is_rate_limited_bounded env_burst local_request empty_world).
  intros origin times H. cbn in H. rewrite lookup_empty in H. discriminate.
Defined.

(** ** Clean text passes the sanitiser unchanged *)

Lemma html_escape_clean (text : list N) :
  Forall (fun c => c <> 38%N /\ c <> 60%N /\ c <> 62%N /\ c <> 34%N /\ c <> 39%N) text ->
  html_escape text = text.
Proof.
  induction 1 as [|c text (H38 & H60 & H62 & H34 & H39) _ IH]; [reflexivity|].
  rewrite html_escape_cons, IH. unfold escape_char.
  rewrite !(proj2 (N.eqb_neq _ _)) by assumption. reflexivity.
Qed.

(** X9: a text of at most 5000 characters that has none of the five markup
    characters and no control character of the stripped class comes out of
    [sanitize_input] unchanged. *)
Theorem sanitize_input_clean (text : list N) :
  (length text <= 5000)%nat ->
  Forall (fun c => is_control c = false /\
                   c <> 38%N /\ c <> 60%N /\ c <> 62%N /\ c <> 34%N /\ c <> 39%N) text ->
  sanitize_input text = text.
Proof.
  intros Hlen Hclean. apply Forall_and in Hclean. destruct Hclean as [Hc Hm].
  rewrite sanitize_input_unfold, (html_escape_clean _ Hm), (strip_control_id _ Hc).
  apply take_ge. exact Hlen.
Qed.

Lemma sanitize_input_clean_witness :
  sanitize_input (py "What is a humanoid robot?" ++ [10%N]) =
  py "What is a humanoid robot?" ++ [10%N].
Proof.
  apply (sanitize_input_clean (py "What is a humanoid robot?" ++ [10%N])).
  - apply Nat.leb_le. vm_compute. reflexivity.
  - vm_compute. repeat constructor; discriminate.
Defined.

(** ** The agent *)

Import AgentRun.

Lemma agent_retrieve_never_raises (env : Env) (query : list N) (limit : Z) :
  never_raises (AgentRun.retrieve env query limit).
Proof. apply never_raises_try_except. intros e. apply never_raises_ret. Qed.

Lemma agent_retrieve_store (env : Env) (query : list N) (limit : Z) :
  respects same_store (AgentRun.retrieve env query limit).
Proof.
  unfold AgentRun.retrieve. frame_bind; [apply retrieve_store|frame_bind].
Qed.

Lemma agent_retrieve_trace (env : Env) (query : list N) (limit : Z) :
  respects (trace_extends not_completion) (AgentRun.retrieve env query limit).
Proof.
  unfold AgentRun.retrieve. frame_bind; [apply retrieve_trace; exact I|frame_bind].
Qed.

Lemma completion_calls_app (a b : list Event) :
  completion_calls (a ++ b) = (completion_calls a + completion_calls b)%nat.
Proof. unfold completion_calls. now rewrite List.filter_app, length_app. Qed.

Lemma completion_calls_none (evs : list Event) :
  Forall not_completion evs -> completion_calls evs = 0%nat.
Proof.
  induction 1 as [|ev evs Hev _ IH]; [reflexivity|].
  unfold completion_calls in *. cbn. destruct ev; cbn in *; try exact IH. contradiction.
Qed.

Lemma completion_calls_repeat (messages : list PromptMsg) (t : list N) (k : Z) (n : nat) :
  completion_calls (repeat (EvCompletion messages t k) n) = n.
Proof.
  induction n as [|n IH]; [reflexivity|].
  unfold completion_calls in *. cbn. now rewrite IH.
Qed.

(** The retry loop makes one call per attempt until one returns, and changes
    nothing but the trace. *)
Lemma create_with_retry_calls (aenv : AgentEnv) (messages : list PromptMsg)
    (temperature : list N) (max_tokens : Z) (attempts : list nat) :
  forall w, exists n,
    (n <= length attempts)%nat /\
    (attempts <> [] -> 1 <= n)%nat /\
    trace (snd (create_with_retry aenv messages temperature max_tokens attempts w))
    = trace w ++ repeat (EvCompletion messages temperature max_tokens) n /\
    same_store w (snd (create_with_retry aenv messages temperature max_tokens attempts w)).
Proof.
  induction attempts as [|attempt rest IH]; intros w; cbn [create_with_retry].
  - exists 0%nat. cbn. rewrite app_nil_r. repeat split; try lia. congruence.
  - destruct (agent_completions_create aenv (tick w) messages temperature max_tokens)
      as [choices|api_error].
    + exists 1%nat. cbn. repeat split; lia.
    + destruct (attempt =? 2)%nat.
      * exists 1%nat. cbn. repeat split; lia.
      * destruct (IH (snd (emit (EvCompletion messages temperature max_tokens) w)))
          as (n & Hn & _ & Ht & Hc & Hm).
        exists (S n). split; [cbn; lia|]. split; [lia|]. split.
        -- rewrite Ht. cbn. now rewrite <- app_assoc.
        -- split; [exact Hc|exact Hm].
Qed.

Lemma of_M_never_raises {A} (m : M A) (w : World) :
  never_raises m -> exists a w', of_M m w = (Returned a, w') /\ m w = (Ok a, w').
Proof.
  intros H. destruct (H w) as (a & w' & E). exists a, w'. unfold of_M. now rewrite E.
Qed.

Lemma agent_error_class (e : raised) :
  exn_class (agent_error e) = Exception_ /\
  exists cause,
    exn_msg (agent_error e) = py "Network connection error: " ++ cause \/
    exn_msg (agent_error e) = py "Request timeout: " ++ cause \/
    exn_msg (agent_error e) = py "Network error: " ++ cause \/
    exn_msg (agent_error e) = py "Agent error: " ++ cause.
Proof.
  unfold agent_error. destruct (raised_class e).
  - split; [reflexivity|]. exists (raised_msg e). auto.
  - split; [reflexivity|]. exists (raised_msg e). auto.
  - destruct (existsb _ _); (split; [reflexivity|]); exists (raised_msg e); auto.
Qed.

(** X10: when the agent's retrieval returns at least one chunk,
    [run_agent_with_context] fails: joining the chunks, which are
    dictionaries, raises, and what leaves the function is the plain
    [Exception] "Agent error: sequence item 0: expected str instance, dict
    found"; no completion call is made and nothing is written to the history.
    So whenever the function returns a value, its retrieval was empty. *)
Theorem run_agent_needs_empty_retrieval (env : Env) (aenv : AgentEnv)
    (query session_id : list N) (max_tokens : Z) (temperature : list N) (w : World) :
  match AgentRun.retrieve env query 5 w with
  | (Ok (_ :: _), w1) =>
      run_agent_with_context env aenv query session_id max_tokens temperature w
      = (Raise (Exn Exception_
                  (py "Agent error: sequence item 0: expected str instance, dict found")),
         w1) /\
      history_untouched w w1 /\
      trace_extends not_completion w w1
  | _ => True
  end /\
  (forall a w',
      run_agent_with_context env aenv query session_id max_tokens temperature w
      = (Ok a, w') ->
      fst (AgentRun.retrieve env query 5 w) = Ok []).
Proof.
  split.
  - destruct (AgentRun.retrieve env query 5 w) as [[[|c rest]|e] w1] eqn:E; try exact I.
    split; [|split].
    + unfold run_agent_with_context, run_agent_try, of_M. rewrite E. reflexivity.
    + apply history_untouched_of_store. eapply agent_retrieve_store; eauto.
    + eapply agent_retrieve_trace; eauto.
  - intros a w' H. unfold run_agent_with_context, run_agent_try, of_M in H.
    destruct (AgentRun.retrieve env query 5 w) as [[[|c rest]|e] w1] eqn:E;
      [reflexivity|discriminate|discriminate].
Qed.

Lemma trace_extends_events (w w' : World) :
  trace_extends not_completion w w' ->
  exists evs, trace w' = trace w ++ evs /\ completion_calls evs = 0%nat.
Proof.
  intros (evs & E & F). exists evs. split; [exact E|]. now apply completion_calls_none.
Qed.

Lemma add_message_to_context_quiet (env : Env) (session_id role : list N)
    (content : pyval) (sources : option (list Source)) :
  respects (trace_extends not_completion)
    (add_message_to_context env session_id role content sources).
Proof. apply add_message_to_context_trace; [|intros row|]; exact I. Qed.

Lemma get_conversation_context_quiet (env : Env) (session_id : list N) :
  respects (trace_extends not_completion) (get_conversation_context env session_id).
Proof. apply get_conversation_context_trace; [|intros u]; exact I. Qed.

(** The events of the part after the completion call. *)
Lemma store_turns_quiet (env : Env) (query session_id : list N)
    (response : option (list pyval)) (w : World) :
  trace_extends not_completion w (snd (store_turns env query session_id response w)).
Proof.
  unfold store_turns.
  destruct (of_M_never_raises
              (add_message_to_context env session_id (py "user") (PyStr query) (Some [])) w
              (never_raises_add_message_to_context _ _ _ _ _)) as ([] & w1 & -> & E1).
  pose proof (add_message_to_context_quiet _ _ _ _ _ _ _ _ E1) as H1.
  destruct response as [[|ai_response rest]|]; cbn [snd]; try exact H1.
  destruct (of_M_never_raises
              (add_message_to_context env session_id (py "assistant") ai_response (Some []))
              w1 (never_raises_add_message_to_context _ _ _ _ _)) as ([] & w2 & -> & E2).
  cbn [snd]. eapply trace_extends_trans; [exact H1|].
  eapply add_message_to_context_quiet; eauto.
Qed.

(** X11: [run_agent_with_context] makes at most three completion calls, and
    at least one when it returns a value.  Whatever goes wrong, what leaves it
    is a plain [Exception] whose message starts with one of "Network
    connection error: ", "Request timeout: ", "Network error: " and "Agent
    error: ". *)
Theorem run_agent_exits (env : Env) (aenv : AgentEnv) (query session_id : list N)
    (max_tokens : Z) (temperature : list N) (w : World) :
  exists r w' evs,
    run_agent_with_context env aenv query session_id max_tokens temperature w = (r, w') /\
    trace w' = trace w ++ evs /\
    (completion_calls evs <= 3)%nat /\
    match r with
    | Ok _ => (1 <= completion_calls evs)%nat
    | Raise e =>
        exn_class e = Exception_ /\
        exists cause,
          exn_msg e = py "Network connection error: " ++ cause \/
          exn_msg e = py "Request timeout: " ++ cause \/
          exn_msg e = py "Network error: " ++ cause \/
          exn_msg e = py "Agent error: " ++ cause
    end.
Proof.
  unfold run_agent_with_context, run_agent_try.
  destruct (of_M_never_raises (AgentRun.retrieve env query 5) w
              (agent_retrieve_never_raises _ _ _)) as (texts & w1 & -> & E1).
  destruct (trace_extends_events _ _ (agent_retrieve_trace _ _ _ _ _ _ E1))
    as (evs1 & T1 & C1).
  destruct texts as [|c rest].
  2:{ eexists _, _, evs1. split; [reflexivity|]. split; [exact T1|]. split; [lia|].
      apply agent_error_class. }
  destruct (of_M_never_raises (get_conversation_context env session_id) w1
              (never_raises_get_conversation_context _ _)) as (h & w2 & -> & E2).
  destruct (trace_extends_events _ _
              (get_conversation_context_quiet _ _ _ _ _ E2)) as (evs2 & T2 & C2).
  cbv zeta.
  match goal with
  | |- context [create_with_retry aenv ?m temperature max_tokens (seq 0 3) w2] =>
      destruct (create_with_retry_calls aenv m temperature max_tokens (seq 0 3) w2)
        as (n & Hn & Hn1 & T3 & _);
      destruct (create_with_retry aenv m temperature max_tokens (seq 0 3) w2)
        as [[response|e] w3]
  end; cbn [snd] in T3; cbn [length seq] in Hn.
  2:{ eexists _, _, (evs1 ++ evs2 ++ repeat _ n). split; [reflexivity|].
      split; [rewrite T3, T2, T1, <- !app_assoc; reflexivity|].
      rewrite !completion_calls_app, completion_calls_repeat, C1, C2.
      split; [lia|]. apply agent_error_class. }
  destruct (trace_extends_events _ _
              (store_turns_quiet env query session_id response w3)) as (evs4 & T4 & C4).
  destruct (store_turns env query session_id response w3) as [[a|e] w4]; cbn [snd] in T4;
    (eexists _, _, (evs1 ++ evs2 ++ repeat _ n ++ evs4); split; [reflexivity|];
     split; [rewrite T4, T3, T2, T1, <- !app_assoc; reflexivity|];
     rewrite !completion_calls_app, completion_calls_repeat, C1, C2, C4;
     split; [lia|]).
  - specialize (Hn1 ltac:(discriminate)). lia.
  - apply agent_error_class.
Qed.

Import AgentSamples.

Lemma create_with_retry_store (aenv : AgentEnv) (messages : list PromptMsg)
    (temperature : list N) (max_tokens : Z) (attempts : list nat) (w : World) :
  same_store w (snd (create_with_retry aenv messages temperature max_tokens attempts w)).
Proof.
  destruct (create_with_retry_calls aenv messages temperature max_tokens attempts w)
    as (n & _ & _ & _ & H). exact H.
Qed.

(** The history before the agent's completion call is the history at its
    start. *)
Lemma cached_of_untouched (session_id : list N) (w w' : World) :
  history_untouched w w' -> cached session_id w' = cached session_id w.
Proof. intros [_ H]. unfold cached. now rewrite (H session_id). Qed.

(** X12: what [run_agent_with_context] leaves in the cache of the session.
    When it returns a value, the cache has gained the user's query and then
    the returned answer; each of the two is there once when one of the three
    attempts of its own durable write returned, and twice when all three
    raised.  When the three completion calls fail, nothing is written.  When
    the response has no choice, the user's query is written (once or twice,
    by the same rule) and no answer, and the function raises "Agent error:
    list index out of range". *)
Theorem run_agent_history (env : Env) (aenv : AgentEnv) (query session_id : list N)
    (max_tokens : Z) (temperature : list N) (w : World) :
  let user := (py "user", PyStr query) in
  let stored (t : nat) (turn : list N * pyval) :=
    match StoreProps.store_answers env session_id t with
    | Some _ => [turn]
    | None => [turn; turn]
    end in
  match AgentRun.retrieve env query 5 w with
  | (Ok [], w1) =>
      match get_conversation_context env session_id w1 with
      | (Ok conversation_history, w2) =>
          let messages :=
            [{| p_role := py "system"; p_content := PyStr (system_message_agent []) |}]
            ++ (prompt_of <$> recent_history_of conversation_history)
            ++ [{| p_role := py "user"; p_content := PyStr query |}] in
          match create_with_retry aenv messages temperature max_tokens (seq 0 3) w2 with
          | (Failed e, w3) =>
              run_agent_with_context env aenv query session_id max_tokens temperature w
              = (Raise (agent_error e), w3) /\
              history_untouched w w3
          | (Returned (Some (ai_response :: _)), w3) =>
              exists w4 w',
                add_message_to_context env session_id (py "user") (PyStr query) (Some []) w3
                = (Ok tt, w4) /\
                run_agent_with_context env aenv query session_id max_tokens temperature w
                = (Ok ai_response, w') /\
                cached session_id w' =
                  cached session_id w ++ stored (tick w3) user
                  ++ stored (tick w4) (py "assistant", ai_response)
          | (Returned (Some []), w3) =>
              exists w',
                run_agent_with_context env aenv query session_id max_tokens temperature w
                = (Raise (Exn Exception_ (py "Agent error: list index out of range")), w') /\
                cached session_id w' = cached session_id w ++ stored (tick w3) user
          | (Returned None, _) => True
          end
      | (Raise _, _) => True
      end
  | _ => True
  end.
Proof.
  intros user stored.
  destruct (AgentRun.retrieve env query 5 w) as [[[|c rest]|e0] w1] eqn:E1; try exact I.
  pose proof (history_untouched_of_store _ _ (agent_retrieve_store _ _ _ _ _ _ E1)) as H1.
  destruct (get_conversation_context env session_id w1) as [[h|e1] w2] eqn:E2; [|exact I].
  pose proof (get_conversation_context_untouched _ _ _ _ _ E2) as H2.
  cbv zeta.
  assert (H12 : history_untouched w w2) by eauto using history_untouched_trans.
  unfold run_agent_with_context, run_agent_try, of_M. rewrite E1, E2. cbv zeta.
  match goal with
  | |- context [create_with_retry aenv ?m temperature max_tokens (seq 0 3) w2] =>
      pose proof (create_with_retry_store aenv m temperature max_tokens (seq 0 3) w2) as H3;
      destruct (create_with_retry aenv m temperature max_tokens (seq 0 3) w2)
        as [[response|e] w3]
  end; cbn [snd] in H3; apply history_untouched_of_store in H3.
  2:{ split; [reflexivity|]. eauto using history_untouched_trans. }
  assert (Hc3 : cached session_id w3 = cached session_id w).
  { apply cached_of_untouched. eauto using history_untouched_trans. }
  destruct response as [[|ai_response others]|]; [| |exact I]; unfold store_turns, of_M.
  - destruct (add_message_to_context_exact env session_id (py "user") (PyStr query)
                (Some []) w3) as (w4 & E4 & Hout & _). rewrite E4.
    eexists. split; [reflexivity|]. subst stored. cbv beta.
    destruct (StoreProps.store_answers env session_id (tick w3));
      destruct Hout as [Hc _]; now rewrite Hc, Hc3.
  - destruct (add_message_to_context_exact env session_id (py "user") (PyStr query)
                (Some []) w3) as (w4 & E4 & Hout & _). rewrite E4.
    destruct (add_message_to_context_exact env session_id (py "assistant") ai_response
                (Some []) w4) as (w5 & E5 & Hout5 & _). rewrite E5.
    exists w4. eexists. split; [reflexivity|]. split; [reflexivity|].
    subst stored. cbv beta.
    destruct (StoreProps.store_answers env session_id (tick w3));
      destruct (StoreProps.store_answers env session_id (tick w4));
      destruct Hout as [Hc _]; destruct Hout5 as [Hc5 _];
      rewrite Hc5, Hc, Hc3, <- app_assoc; reflexivity.
Qed.

(** The three cases, evaluated with the store healthy (the vector search
    returns no point). *)
Example run_agent_answers :
  let r := run_agent_with_context (env_up []) agent_up (py "hello") (py "s1") 1000 (py "0.3")
             empty_world in
  fst r = Ok (PyStr (py "A humanoid robot is a robot shaped like a person.")) /\
  cached (py "s1") (snd r)
  = [(py "user", PyStr (py "hello"));
     (py "assistant", PyStr (py "A humanoid robot is a robot shaped like a person."))].
Proof. vm_compute. split; reflexivity. Qed.

Example run_agent_no_choice :
  let r := run_agent_with_context (env_up []) agent_no_choice (py "hello") (py "s1") 1000
             (py "0.3") empty_world in
  fst r = Raise (Exn Exception_ (py "Agent error: list index out of range")) /\
  cached (py "s1") (snd r) = [(py "user", PyStr (py "hello"))].
Proof. vm_compute. split; reflexivity. Qed.

Example run_agent_timeout :
  let r := run_agent_with_context (env_up []) agent_timeout (py "hello") (py "s1") 1000
             (py "0.3") empty_world in
  fst r = Raise (Exn Exception_ (py "Request timeout: timed out")) /\
  cached (py "s1") (snd r) = [] /\
  completion_calls (trace (snd r)) = 3%nat.
Proof. vm_compute. repeat split; reflexivity. Qed.

(** With a point in the collection the agent fails before it calls the
    model. *)
Example run_agent_with_chunk :
  let r := run_agent_with_context (env_up [point_with_text]) agent_up (py "hello") (py "s1")
             1000 (py "0.3") empty_world in
  fst r = Raise (Exn Exception_
                   (py "Agent error: sequence item 0: expected str instance, dict found")) /\
  completion_calls (trace (snd r)) = 0%nat.
Proof. vm_compute. split; reflexivity. Qed.

(** ** Clearing and summarising a session *)

Import ChatSessions.

(** X13: [clear_conversation_context] empties the cache of the session and
    touches nothing else: not the caches of the other sessions, not the table,
    and it makes no outside call.  A read after it returns the store's rows
    of the session exactly when one of the three attempts of the read returns
    and the session identifier is a UUID, and the empty list in every other
    case: clearing does not remove what was stored durably. *)
Theorem clear_conversation_context_then_read (env : Env) (session_id : list N)
    (w : World) :
  exists w1,
    clear_conversation_context session_id w = (Ok tt, w1) /\
    default [] (conversation_contexts w1 !! session_id) = [] /\
    (forall other, other <> session_id ->
                   conversation_contexts w1 !! other = conversation_contexts w !! other) /\
    chat_messages w1 = chat_messages w /\
    trace w1 = trace w /\
    exists l w',
      get_conversation_context env session_id w1 = (Ok l, w') /\
      l = match StoreProps.store_answers env session_id (tick w),
                uuid_parse env session_id with
          | Some _, Some u =>
              message_of_row <$>
                order_by_created_at
                  (filter (fun r => row_session_id r = u) (chat_messages w))
          | _, _ => []
          end.
Proof.
  assert (H : exists w1,
             clear_conversation_context session_id w = (Ok tt, w1) /\
             default [] (conversation_contexts w1 !! session_id) = [] /\
             (forall other, other <> session_id ->
                conversation_contexts w1 !! other = conversation_contexts w !! other) /\
             chat_messages w1 = chat_messages w /\ trace w1 = trace w).
  { unfold clear_conversation_context.
    destruct (conversation_contexts w !! session_id) as [old|] eqn:E.
    - eexists. split; [reflexivity|]. cbn. rewrite lookup_insert_eq.
      repeat split; try reflexivity. intros other Hne. now rewrite lookup_insert_ne.
    - exists w. rewrite E. repeat split; reflexivity. }
  destruct H as (w1 & E1 & Hc & Ho & Hm & Ht).
  exists w1. repeat (split; [assumption|]).
  destruct (get_conversation_context_exact env session_id w1) as (w' & E & _).
  eexists _, w'. split; [exact E|].
  unfold StoreProps.history_read, StoreProps.stored_history, tick.
  rewrite Hc, Hm, Ht. fold (tick w).
  destruct (StoreProps.store_answers env session_id (tick w)); [|reflexivity].
  destruct (uuid_parse env session_id) as [u|]; [|reflexivity].
  now destruct (message_of_row <$> _).
Qed.

(** Cleared, and still there: with the store healthy the message that was
    appended before the clear is read back after it. *)
Example clear_keeps_stored_history :
  role_content <$>
    match fst (bind (add_message_to_context (env_up []) sample_uuid (py "user")
                       (PyStr (py "hi")) None)
                 (fun _ => bind (clear_conversation_context sample_uuid)
                             (fun _ => get_conversation_context (env_up []) sample_uuid))
                 empty_world) with
    | Ok l => l
    | Raise _ => []
    end
  = [(py "user", PyStr (py "hi"))].
Proof. vm_compute. reflexivity. Qed.

Lemma last_timestamp_snoc (older : list Message) (m : Message) :
  last_timestamp (older ++ [m]) = msg_timestamp m.
Proof. unfold last_timestamp. now rewrite last_snoc. Qed.

(** X14: [get_chat_session_messages] never fails, whatever the store does,
    and writes nothing to the history; the messages of its reply are those a
    read of the history returns, and its count is their number.  The summary
    behind it dates an empty history [None] and any other by its last
    message. *)
Theorem get_chat_session_messages_reply (env : Env) (session_id : list N) (w : World) :
  exists reply w',
    get_chat_session_messages env session_id w = (Ok reply, w') /\
    get_conversation_context env session_id w = (Ok (reply_messages reply), w') /\
    reply_message_count reply = length (reply_messages reply) /\
    reply_session_id reply = session_id /\
    history_untouched w w' /\
    exists summary,
      get_conversation_summary env session_id w = (Ok summary, w') /\
      summary_messages summary = reply_messages reply /\
      (reply_messages reply = [] -> summary_last_updated summary = None) /\
      (forall older m, reply_messages reply = older ++ [m] ->
                       summary_last_updated summary = msg_timestamp m).
Proof.
  destruct (never_raises_get_conversation_context env session_id w) as (l & w' & E).
  pose proof (get_conversation_context_untouched _ _ _ _ _ E) as Hu.
  unfold get_chat_session_messages, get_conversation_summary.
  rewrite !(bind_ok _ _ _ _ _ E). unfold bind, ret. rewrite E.
  eexists _, _. split; [reflexivity|]. cbn.
  split; [reflexivity|]. split; [reflexivity|]. split; [reflexivity|].
  split; [exact Hu|]. eexists. split; [reflexivity|]. cbn.
  split; [reflexivity|]. split.
  - intros ->. reflexivity.
  - intros older m ->. apply last_timestamp_snoc.
Qed.

(** ** Sessions created by the endpoint *)

Lemma created_session_id_short (str_hash : list N -> Z)
    (request : option ChatSessionRequest) :
  (length (created_session_id (create_chat_session str_hash request)) <= 16)%nat /\
  exists digits, created_session_id (create_chat_session str_hash request)
                 = py "session_" ++ digits /\ (length digits <= 8)%nat.
Proof.
  unfold create_chat_session. cbn [created_session_id].
  set (digits := take 8 _). assert (Hd : (length digits <= 8)%nat).
  { unfold digits. rewrite length_take. lia. }
  split; [rewrite length_app; change (length (py "session_")) with 8%nat; lia|].
  now exists digits.
Qed.

(** X15: the identifier [create_chat_session] issues is ["session_"] followed
    by at most eight characters.  It is too short to be a UUID, so (given that
    [uuid.UUID] rejects every string of fewer than 32 characters) the messages
    of such a session are never written to the table, and a read of its
    history returns the cache of the process. *)
Theorem created_session_is_cache_only (env : Env) (str_hash : list N -> Z)
    (request : option ChatSessionRequest) (role : list N) (content : pyval)
    (sources : option (list Source)) (w : World) :
  (forall s, (length s < 32)%nat -> uuid_parse env s = None) ->
  let session_id := created_session_id (create_chat_session str_hash request) in
  (length session_id <= 16)%nat /\
  (exists digits, session_id = py "session_" ++ digits /\ (length digits <= 8)%nat) /\
  (exists w', add_message_to_context env session_id role content sources w = (Ok tt, w') /\
              chat_messages w' = chat_messages w) /\
  (exists w', get_conversation_context env session_id w
              = (Ok (default [] (conversation_contexts w !! session_id)), w')).
Proof.
  intros Huuid session_id.
  destruct (created_session_id_short str_hash request) as [Hlen Hpre].
  fold session_id in Hlen, Hpre.
  assert (Hnone : uuid_parse env session_id = None) by (apply Huuid; lia).
  split; [exact Hlen|]. split; [exact Hpre|]. split.
  - destruct (add_message_to_context_cases env session_id role content sources w)
      as (w' & E & _ & Hu & _). exists w'. split; [exact E|]. now apply Hu.
  - destruct (get_conversation_context_cases env session_id w)
      as (l & w' & E & _ & _ & Hl). exists w'.
    destruct Hl as [-> | (_ & u & Hu & _)]; [exact E|congruence].
Qed.

Lemma created_session_is_cache_only_witness :
  let session_id :=
    created_session_id (create_chat_session (fun _ => (-1234567890123)%Z) None) in
  (length session_id <= 16)%nat /\
  (exists digits, session_id = py "session_" ++ digits /\ (length digits <= 8)%nat) /\
  (exists w', add_message_to_context (env_up []) session_id (py "user") (PyStr (py "hi"))
                None empty_world = (Ok tt, w') /\
              chat_messages w' = chat_messages empty_world) /\
  (exists w', get_conversation_context (env_up []) session_id empty_world
              = (Ok (default [] (conversation_contexts empty_world !! session_id)), w')).
Proof.
  apply (created_session_is_cache_only (env_up []) (fun _ => (-1234567890123)%Z) None
           (py "user") (PyStr (py "hi")) None empty_world).
  intros s Hs. cbn [env_up uuid_parse]. destruct (bool_decide (s = sample_uuid)) eqn:E.
  - apply bool_decide_eq_true in E. subst s. exfalso. vm_compute in Hs. lia.
  - reflexivity.
Defined.

Example created_session_id_example :
  created_session_id (create_chat_session (fun _ => (-1234567890123)%Z) None)
  = py "session_-1234567".
Proof. reflexivity. Qed.

(** ** The conversation service and its endpoints *)

Section ConversationService.
Import Conversations.

Lemma db_get_set_eq k v d : db_get k (db_set k v d) = Some v.
Proof.
  induction d as [|[k' v'] d IH]; cbn.
  - now rewrite bool_decide_eq_true_2.
  - destruct (decide (k' = k)) as [->|Hne].
    + rewrite bool_decide_eq_true_2 by reflexivity. cbn.
      now rewrite bool_decide_eq_true_2.
    + rewrite bool_decide_eq_false_2 by assumption. cbn.
      now rewrite bool_decide_eq_false_2.
Qed.

Lemma db_get_set_ne k k' v d : k <> k' -> db_get k' (db_set k v d) = db_get k' d.
Proof.
  intros Hne. induction d as [|[k0 v0] d IH]; cbn.
  - now rewrite bool_decide_eq_false_2.
  - destruct (decide (k0 = k)) as [->|Hne0].
    + rewrite bool_decide_eq_true_2 by reflexivity. cbn.
      now rewrite !bool_decide_eq_false_2.
    + rewrite (bool_decide_eq_false_2 (k0 = k)) by assumption. cbn.
      now rewrite IH.
Qed.

Lemma db_get_None k d : db_get k d = None <-> k ∉ (fst <$> d).
Proof.
  induction d as [|[k0 v0] d IH]; cbn.
  - split; [intros _; apply not_elem_of_nil | reflexivity].
  - rewrite not_elem_of_cons. destruct (decide (k0 = k)) as [->|Hne].
    + rewrite bool_decide_eq_true_2 by reflexivity. split; [discriminate|tauto].
    + rewrite bool_decide_eq_false_2 by assumption. rewrite IH.
      split; [intros H; split; [congruence|exact H] | tauto].
Qed.

Lemma db_get_Some k v d : db_get k d = Some v -> (k, v) ∈ d.
Proof.
  induction d as [|[k0 v0] d IH]; cbn; [discriminate|].
  destruct (decide (k0 = k)) as [->|Hne].
  - rewrite bool_decide_eq_true_2 by reflexivity. intros [= ->]. apply list_elem_of_here.
  - rewrite bool_decide_eq_false_2 by assumption. intros H.
    apply list_elem_of_further, IH, H.
Qed.

Lemma db_set_keys_old k v v' d :
  db_get k d = Some v' -> fst <$> db_set k v d = fst <$> d.
Proof.
  induction d as [|[k0 v0] d IH]; cbn; [discriminate|].
  destruct (decide (k0 = k)) as [->|Hne].
  - now rewrite bool_decide_eq_true_2.
  - rewrite bool_decide_eq_false_2 by assumption. intros H. cbn. now rewrite IH.
Qed.

Lemma db_set_keys_new k v d :
  db_get k d = None -> db_set k v d = d ++ [(k, v)].
Proof.
  induction d as [|[k0 v0] d IH]; cbn; [reflexivity|].
  destruct (decide (k0 = k)) as [->|Hne].
  - now rewrite bool_decide_eq_true_2.
  - rewrite bool_decide_eq_false_2 by assumption. intros H. now rewrite IH.
Qed.

Lemma db_set_Forall (P : list N * ChatConversation -> Prop) k v d :
  P (k, v) -> Forall P d -> Forall P (db_set k v d).
Proof.
  intros Hk. induction 1 as [|[k0 v0] d H0 Hd IH]; cbn.
  - now constructor.
  - destruct (bool_decide (k0 = k)); constructor; assumption.
Qed.

Lemma db_set_well_keyed k v d calls calls' :
  conv_id v = k ->
  well_keyed {| conversations_db := d; outside_calls := calls |} ->
  well_keyed {| conversations_db := db_set k v d; outside_calls := calls' |}.
Proof.
  intros Hid [Hnd Hall]. cbn in *. split; cbn.
  - destruct (db_get k d) as [v'|] eqn:E.
    + now rewrite (db_set_keys_old _ _ _ _ E).
    + rewrite (db_set_keys_new _ _ _ E), fmap_app. cbn.
      apply NoDup_app. split; [exact Hnd|]. split.
      * intros x Hx Hx'. apply list_elem_of_singleton in Hx'. subst x.
        now apply db_get_None in E.
      * apply NoDup_singleton.
  - apply db_set_Forall; [exact Hid | exact Hall].
Qed.

Lemma create_conversation_well_keyed env c st :
  well_keyed st -> well_keyed (snd (create_conversation env c st)).
Proof.
  destruct st as [d calls]. intros H. unfold create_conversation. cbn.
  now apply db_set_well_keyed with (calls := calls).
Qed.

Lemma stored_under_own_id st k v :
  well_keyed st -> get_conversation k st = Some v -> conv_id v = k.
Proof.
  intros [_ Hall] Hget. apply db_get_Some in Hget.
  rewrite Forall_forall in Hall. apply (Hall _ Hget).
Qed.

Lemma add_message_well_keyed env k m st :
  well_keyed st -> well_keyed (snd (add_message env k m st)).
Proof.
  intros H. unfold add_message.
  destruct (get_conversation k st) as [v|] eqn:E; cbn; [|exact H].
  destruct st as [d calls]. apply db_set_well_keyed with (calls := calls); [|exact H].
  cbn. apply (stored_under_own_id _ _ _ H E).
Qed.

Lemma update_conversation_well_keyed env k u st :
  well_keyed st -> well_keyed (snd (update_conversation env k u st)).
Proof.
  intros H. unfold update_conversation.
  destruct (get_conversation k st) as [v|] eqn:E; cbn; [|exact H].
  destruct st as [d calls]. apply db_set_well_keyed with (calls := calls); [|exact H].
  cbn. apply (stored_under_own_id _ _ _ H E).
Qed.

Lemma create_or_update_conversation_well_keyed env data st :
  well_keyed st -> well_keyed (snd (create_or_update_conversation env data st)).
Proof.
  intros H. unfold create_or_update_conversation.
  destruct (last (create_messages data)) as [latest|].
  - pose proof (create_conversation_well_keyed env data st H) as H1.
    destruct (create_conversation env data st) as [new st1]. cbn in H1.
    match goal with |- context [add_message env ?k ?m st1] =>
      pose proof (add_message_well_keyed env k m st1 H1) as H2;
      destruct (add_message env k m st1) as [[u|] st2] end; exact H2.
  - match goal with |- context [create_conversation env ?c st] =>
      pose proof (create_conversation_well_keyed env c st H) as H1;
      destruct (create_conversation env c st) as [new st1] end. exact H1.
Qed.

(** The reply of [POST /conversation] and the state it leaves, in closed
    form. *)
Lemma create_or_update_conversation_cases env data st :
  let id := uuid4 env (outside_calls st) in
  let now := datetime_now env (S (outside_calls st)) in
  match last (create_messages data) with
  | Some latest =>
      let answer := {| cm_role := py "assistant";
                       cm_content := simulated_response (cm_content latest);
                       cm_timestamp := now |} in
      create_or_update_conversation env data st =
        (Reply {| reply_conversation_id := id;
                  reply_response := simulated_response (cm_content latest);
                  reply_timestamp := now |},
         {| conversations_db :=
              db_set id {| conv_id := id; conv_user_id := create_user_id data;
                           conv_messages := create_messages data ++ [answer];
                           conv_created_at := now;
                           conv_updated_at := datetime_now env (S (S (outside_calls st))) |}
                (db_set id {| conv_id := id; conv_user_id := create_user_id data;
                              conv_messages := create_messages data;
                              conv_created_at := now; conv_updated_at := now |}
                   (conversations_db st));
            outside_calls := S (S (S (outside_calls st))) |})
  | None =>
      create_or_update_conversation env data st =
        (Reply {| reply_conversation_id := id;
                  reply_response := py "New conversation started";
                  reply_timestamp := now |},
         {| conversations_db :=
              db_set id {| conv_id := id; conv_user_id := create_user_id data;
                           conv_messages := [];
                           conv_created_at := now; conv_updated_at := now |}
                (conversations_db st);
            outside_calls := S (S (outside_calls st)) |})
  end.
Proof.
  intros id now. unfold create_or_update_conversation.
  destruct (last (create_messages data)) as [latest|] eqn:E; [|reflexivity].
  unfold create_conversation, add_message, get_conversation.
  cbn [conv_id conversations_db outside_calls conv_updated_at conv_user_id conv_messages
       conv_created_at fst snd].
  fold id. fold now. rewrite db_get_set_eq. reflexivity.
Qed.

Lemma db_get_elem_of k v d :
  NoDup (fst <$> d) -> (k, v) ∈ d -> db_get k d = Some v.
Proof.
  induction d as [|[k0 v0] d IH]; cbn; intros Hnd Hin.
  - now apply elem_of_nil in Hin.
  - apply NoDup_cons in Hnd as [Hk0 Hnd]. apply elem_of_cons in Hin as [[= -> ->]|Hin].
    + now rewrite bool_decide_eq_true_2.
    + rewrite bool_decide_eq_false_2; [now apply IH|].
      intros ->. apply Hk0. apply list_elem_of_fmap. now exists (k, v).
Qed.

Lemma filter_keys_sub (f : list N * ChatConversation -> bool) d k :
  k ∈ (fst <$> List.filter f d) -> k ∈ (fst <$> d).
Proof.
  induction d as [|kv d IH]; cbn; [trivial|].
  destruct (f kv); cbn; rewrite ?elem_of_cons; intuition.
Qed.

Lemma filter_keys_NoDup (f : list N * ChatConversation -> bool) d :
  NoDup (fst <$> d) -> NoDup (fst <$> List.filter f d).
Proof.
  induction d as [|kv d IH]; cbn; [trivial|].
  intros Hnd. apply NoDup_cons in Hnd as [Hk Hnd].
  destruct (f kv); cbn; [|now apply IH].
  apply NoDup_cons. split; [|now apply IH].
  intros Hin. apply Hk. eapply filter_keys_sub, Hin.
Qed.

Lemma filter_own_ids (f : list N * ChatConversation -> bool) d :
  Forall (fun kv => conv_id (snd kv) = fst kv) d ->
  conv_id <$> (snd <$> List.filter f d) = fst <$> List.filter f d.
Proof.
  induction 1 as [|kv d Hkv Hd IH]; cbn; [reflexivity|].
  destruct (f kv); cbn; [|exact IH]. now rewrite Hkv, IH.
Qed.

Lemma elem_of_filter_snd (f : list N * ChatConversation -> bool) d c :
  c ∈ (snd <$> List.filter f d) <-> exists k, (k, c) ∈ d /\ f (k, c) = true.
Proof.
  induction d as [|[k0 v0] d IH]; cbn.
  - split; [intros H; now apply elem_of_nil in H|].
    intros (k & H & _). now apply elem_of_nil in H.
  - destruct (f (k0, v0)) eqn:E; cbn; rewrite ?elem_of_cons, IH.
    + split.
      * intros [->|(k & Hin & Hf)]; [exists k0|exists k]; rewrite elem_of_cons; auto.
      * intros (k & Hin & Hf). apply elem_of_cons in Hin as [[= -> ->]|Hin]; eauto.
    + split.
      * intros (k & Hin & Hf). exists k. rewrite elem_of_cons. auto.
      * intros (k & Hin & Hf). apply elem_of_cons in Hin as [[= -> ->]|Hin];
          [congruence|eauto].
Qed.

Lemma get_user_conversations_cases user_id st :
  well_keyed st ->
  NoDup (conv_id <$> get_user_conversations user_id st) /\
  forall c,
    c ∈ get_user_conversations user_id st <->
    get_conversation (conv_id c) st = Some c /\ conv_user_id c = Some user_id.
Proof.
  intros [Hnd Hall]. unfold get_user_conversations, get_conversation. split.
  - rewrite filter_own_ids by exact Hall. now apply filter_keys_NoDup.
  - intros c. rewrite elem_of_filter_snd. cbn. split.
    + intros (k & Hin & Hf). apply bool_decide_eq_true_1 in Hf.
      split; [|exact Hf].
      rewrite Forall_forall in Hall. pose proof (Hall _ Hin) as Hk. cbn in Hk.
      rewrite Hk. now apply db_get_elem_of.
    + intros [Hget Hu]. exists (conv_id c). split; [now apply db_get_Some|].
      now apply bool_decide_eq_true_2.
Qed.

End ConversationService.

(** X16: [POST /conversation] never answers with an error.  It files the
    posted messages under the identifier drawn from [uuid4], followed by one
    assistant message that quotes the last posted message, and a later
    [GET /conversation/{id}] returns exactly these; with no message posted
    the conversation is filed empty.  No conversation under another
    identifier changes. *)
Theorem posted_conversation_round_trip (env : Conversations.ConvEnv)
    (data : Conversations.ChatConversationCreate) (st : Conversations.Service) :
  let id := Conversations.uuid4 env (Conversations.outside_calls st) in
  let posted := Conversations.create_messages data in
  exists reply st',
    Conversations.create_or_update_conversation env data st = (Conversations.Reply reply, st') /\
    Conversations.reply_conversation_id reply = id /\
    (exists last_updated,
       Conversations.get_conversation_endpoint id st' =
         Conversations.Reply
           {| Conversations.history_messages :=
                match last posted with
                | Some latest =>
                    posted ++
                    [{| Conversations.cm_role := py "assistant";
                        Conversations.cm_content := Conversations.reply_response reply;
                        Conversations.cm_timestamp := Conversations.reply_timestamp reply |}]
                | None => []
                end;
              Conversations.history_last_updated := last_updated |}) /\
    match last posted with
    | Some latest =>
        Conversations.reply_response reply =
          py "I received your message: '" ++ Conversations.cm_content latest
          ++ py "'. This is a simulated response from the backend."
    | None => Conversations.reply_response reply = py "New conversation started"
    end /\
    forall other, other <> id ->
      Conversations.get_conversation other st' = Conversations.get_conversation other st.
Proof.
  intros id posted.
  pose proof (create_or_update_conversation_cases env data st) as H. cbn zeta in H.
  fold id in H. fold posted in H. subst posted.
  destruct (last (Conversations.create_messages data)) as [latest|];
    rewrite H; eexists _, _; (split; [reflexivity|]); cbn;
    (split; [reflexivity|]);
    unfold Conversations.get_conversation_endpoint, Conversations.get_conversation; cbn.
  - split; [rewrite db_get_set_eq; cbn; eexists; reflexivity|].
    split; [reflexivity|].
    intros other Hne. rewrite !db_get_set_ne by congruence. reflexivity.
  - split; [rewrite db_get_set_eq; cbn; eexists; reflexivity|].
    split; [reflexivity|].
    intros other Hne. rewrite db_get_set_ne by congruence. reflexivity.
Qed.

(** X17: [POST /conversation/{id}] on an unknown identifier answers 404 and
    leaves the service as it was; on a known one it appends the message at
    the end, reports the new number of messages, keeps the owner and the
    creation time, and touches no other conversation. *)
Theorem add_message_to_conversation_outcome (env : Conversations.ConvEnv)
    (conversation_id : list N) (message : Conversations.ConvMessage)
    (st : Conversations.Service) :
  match Conversations.get_conversation conversation_id st with
  | None =>
      Conversations.add_message_to_conversation env conversation_id message st =
        (Conversations.HTTPError 404 (py "Conversation not found"), st)
  | Some before =>
      exists body st' after,
        Conversations.add_message_to_conversation env conversation_id message st =
          (Conversations.Reply body, st') /\
        Conversations.added_message_count body =
          S (length (Conversations.conv_messages before)) /\
        Conversations.added_message_added body = true /\
        Conversations.get_conversation conversation_id st' = Some after /\
        Conversations.conv_messages after = Conversations.conv_messages before ++ [message] /\
        Conversations.conv_user_id after = Conversations.conv_user_id before /\
        Conversations.conv_created_at after = Conversations.conv_created_at before /\
        forall other, other <> conversation_id ->
          Conversations.get_conversation other st' = Conversations.get_conversation other st
  end.
Proof.
  unfold Conversations.add_message_to_conversation, Conversations.add_message.
  destruct (Conversations.get_conversation conversation_id st) as [before|] eqn:E;
    [|reflexivity].
  eexists _, _, _. split; [reflexivity|]. cbn.
  split; [rewrite length_app; cbn; lia|].
  split; [reflexivity|].
  unfold Conversations.get_conversation. cbn.
  split; [apply db_get_set_eq|]. cbn.
  do 3 (split; [reflexivity|]).
  intros other Hne. apply db_get_set_ne. congruence.
Qed.

(** X18: the service's dictionary keeps its shape under every endpoint that
    writes: no identifier is filed twice and every conversation is filed
    under its own identifier. *)
Theorem service_stays_well_keyed (env : Conversations.ConvEnv) (st : Conversations.Service)
    (H : Conversations.well_keyed st) :
  (forall data, Conversations.well_keyed
     (snd (Conversations.create_or_update_conversation env data st))) /\
  (forall id message, Conversations.well_keyed
     (snd (Conversations.add_message_to_conversation env id message st))) /\
  (forall id update, Conversations.well_keyed
     (snd (Conversations.update_conversation_endpoint env id update st))).
Proof.
  split; [|split].
  - intros data. now apply create_or_update_conversation_well_keyed.
  - intros id message. unfold Conversations.add_message_to_conversation.
    pose proof (add_message_well_keyed env id message st H) as H'.
    destruct (Conversations.add_message env id message st) as [[u|] st']; exact H'.
  - intros id update. unfold Conversations.update_conversation_endpoint.
    pose proof (update_conversation_well_keyed env id update st H) as H'.
    destruct (Conversations.update_conversation env id update st) as [[u|] st']; exact H'.
Qed.

Lemma service_stays_well_keyed_witness :
  Conversations.well_keyed Conversations.empty_service /\
  Conversations.well_keyed
    (snd (Conversations.create_or_update_conversation Conversations.sample_conv_env
            {| Conversations.create_user_id := Some (py "ada");
               Conversations.create_messages := [] |}
            Conversations.empty_service)).
Proof.
  assert (H : Conversations.well_keyed Conversations.empty_service).
  { split; cbn; constructor. }
  split; [exact H|].
  apply (service_stays_well_keyed Conversations.sample_conv_env
           Conversations.empty_service H).
Defined.

(** X19: in a service of that shape, the conversations listed for a user are
    exactly the stored ones whose owner is that user, each listed once; a
    conversation filed without owner is listed for no user. *)
Theorem get_user_conversations_exact (user_id : list N) (st : Conversations.Service)
    (H : Conversations.well_keyed st) :
  NoDup (Conversations.conv_id <$> Conversations.get_user_conversations user_id st) /\
  forall c,
    c ∈ Conversations.get_user_conversations user_id st <->
    Conversations.get_conversation (Conversations.conv_id c) st = Some c /\
    Conversations.conv_user_id c = Some user_id.
Proof.
  apply get_user_conversations_cases, H.
Qed.

Lemma get_user_conversations_exact_witness :
  Conversations.well_keyed
    (snd (Conversations.create_or_update_conversation Conversations.sample_conv_env
            {| Conversations.create_user_id := Some (py "ada");
               Conversations.create_messages := [] |}
            Conversations.empty_service)) /\
  NoDup (Conversations.conv_id <$>
         Conversations.get_user_conversations (py "ada")
           (snd (Conversations.create_or_update_conversation Conversations.sample_conv_env
                   {| Conversations.create_user_id := Some (py "ada");
                      Conversations.create_messages := [] |}
                   Conversations.empty_service))).
Proof.
  assert (H : Conversations.well_keyed
    (snd (Conversations.create_or_update_conversation Conversations.sample_conv_env
            {| Conversations.create_user_id := Some (py "ada");
               Conversations.create_messages := [] |}
            Conversations.empty_service))).
  { split; cbn; repeat constructor. apply not_elem_of_nil. }
  split; [exact H|].
  apply (get_user_conversations_exact (py "ada") _ H).
Defined.

(** ** Fallbacks *)

(** X20: [embed_text] never raises.  It asks the local model once; it
    returns the model's vector, and when the model fails a vector of 384
    zeros, whatever the failure was.  Neither the cache nor the message log
    changes. *)
Theorem embed_text_falls_back (env : Env) (text : list N) (w : World) :
  exists v w',
    Fallbacks.embed_text env text w = (Ok v, w') /\
    trace w' = trace w ++ [EvEmbed text] /\
    same_store w w' /\
    match embedding_model_embed env (tick w) text with
    | Ok embedding => v = embedding
    | Raise _ => length v = 384%nat /\ Forall (fun x => x = py "0.0") v
    end.
Proof.
  unfold Fallbacks.embed_text, Retrieving.get_embedding, try_except, lift, raise, ret.
  destruct (embedding_model_embed env (tick w) text) as [embedding|e].
  - eexists _, _. split; [reflexivity|]. repeat split.
  - eexists _, _. split; [reflexivity|]. split; [reflexivity|].
    split; [now split|]. split; [apply repeat_length|].
    apply Forall_forall. intros x Hx. apply list_elem_of_In in Hx.
    now apply repeat_spec in Hx.
Qed.

(** X21: [check_database_health] never raises and tests the connection once.
    It reports health exactly when that test passes, and then
    [get_db_with_retry], started in the same state, returns a session after a
    single test; otherwise its message carries the text of the failure. *)
Theorem check_database_health_agrees (env : Env) (w : World) :
  exists healthy message w',
    Fallbacks.check_database_health env w = (Ok (healthy, message), w') /\
    trace w' = trace w ++ [EvDbConnect] /\
    same_store w w' /\
    match db_fault env (tick w) with
    | None =>
        healthy = true /\ message = py "Database is healthy" /\
        Database.get_db_with_retry env w = (Ok (Some Database.SessionLocal), w')
    | Some e =>
        healthy = false /\
        message = py "Database health check failed: " ++ exn_msg e
    end.
Proof.
  unfold Fallbacks.check_database_health, Database.get_db_with_retry.
  cbn [seq Database.get_db_with_retry_loop].
  unfold try_except, bind, Database.db_op, ret, raise.
  destruct (db_fault env (tick w)) as [e|]; cbn;
    eexists _, _, _; (split; [reflexivity|]); cbn; repeat split.
Qed.
